(** * Liveness capture page: guidance engine, frame sequencer and capture flow

    A shallow embedding of the [LivenessPage] component (the liveness
    capture client) and the properties of its guidance loop, its two
    capture modes, its submission step and its reset.

    Conventions of the embedding.
    - The component's [useState] hooks and [useRef] cells are the fields of
      one record, [Page]; a handler is a state transformer over it, written
      in a small state monad so that it reads like its source.
    - What the browser and the network decide (the detector's predictions,
      the outcome of the HTTP call, the encoded camera image, the elements
      that a render mounts, what a hook makes of a built-in property of
      [Object.prototype]) is an argument of the handler that consumes it.
    - [await]ed timers advance a virtual clock, [now], by their delay; a
      handler is run to completion without another handler interleaving.
      The render that React commits while a handler awaits is modelled
      where a handler goes on to read a ref that the render sets: in the
      wait for the camera.
    - JavaScript numbers are binary64 values ([num]): a finite one is the
      rational it denotes, and an arithmetic operation is the exact
      operation on rationals followed by the rounding of binary64, to the
      nearest representable number with ties to even ([Binary64.round]).
      A negative zero is identified with zero: the page has no operation
      that tells them apart but a division by it, and it divides by the
      product of two canvas sizes only. *)

From Stdlib Require Import QArith Qround Qpower ZArith NArith PArith Arith Bool List Ascii
  String Lia Lqa.
From Stdlib Require Floats.SpecFloat.
Import ListNotations.

(** ** Numbers *)

Inductive num : Type :=
| Fin (q : Q)
| PInf
| NInf
| NaN.

Coercion Fin : Q >-> num.

Declare Scope num_scope.
Delimit Scope num_scope with num.
Bind Scope num_scope with num.

Definition Qltb (a b : Q) : bool := negb (Qle_bool b a).

(** *** Rounding to binary64 *)

Module Binary64.

Definition pow2 (e : Z) : Q := (2 ^ e)%Q.

(** The exponent [e] with [2^e <= x < 2^(e+1)], for a positive [x]. *)
Definition binade (x : Q) : Z :=
  let e := (Z.log2 (Qnum x) - Z.log2 (Zpos (Qden x)))%Z in
  if Qltb x (pow2 e) then (e - 1)%Z else e.

(** The integer nearest to [x], the even one of the two at a tie. *)
Definition nearestEven (x : Q) : Z :=
  let f := Qfloor x in
  match Qcompare (x - inject_Z f) (1 # 2) with
  | Lt => f
  | Gt => (f + 1)%Z
  | Eq => if Z.even f then f else (f + 1)%Z
  end.

(** The unit in the last place at a positive [x]: 53 significant bits,
    and no exponent below -1022, where the subnormal numbers begin. *)
Definition ulp (x : Q) : Q := pow2 (Z.max (binade x) (-1022) - 52).

(** The multiple of the unit in the last place nearest to a positive
    [x]. *)
Definition grid (x : Q) : Q := (inject_Z (nearestEven (x / ulp x)) * ulp x)%Q.

(** The binary64 number nearest to a positive [x]; what reaches [2^1024]
    overflows. The result is a fraction in lowest terms. *)
Definition roundPos (x : Q) : num :=
  let y := Qred (grid x) in
  if Qle_bool (pow2 1024) y then PInf else Fin y.

Definition opp (a : num) : num :=
  match a with
  | Fin x => Fin (- x)
  | PInf => NInf
  | NInf => PInf
  | NaN => NaN
  end.

Definition round (x : Q) : num :=
  match Qcompare x 0 with
  | Eq => Fin 0
  | Gt => roundPos x
  | Lt => opp (roundPos (- x))
  end.

(** The order of the extended number line; NaN is not on it. *)
Definition leq (a b : num) : Prop :=
  match a, b with
  | Fin x, Fin y => (x <= y)%Q
  | NInf, (Fin _ | PInf | NInf) => True
  | (Fin _ | PInf), PInf => True
  | _, _ => False
  end.

(** The binary64 numbers of the Standard Library's reference
    implementation, read as numbers of the page. *)
Definition ofSpecFloat (f : SpecFloat.spec_float) : num :=
  match f with
  | SpecFloat.S754_zero _ => Fin 0
  | SpecFloat.S754_infinity s => if s then NInf else PInf
  | SpecFloat.S754_nan => NaN
  | SpecFloat.S754_finite s m e =>
    Fin (Qred ((if s then - 1 else 1) * inject_Z (Zpos m) * pow2 e))
  end.

Definition ofInteger (z : Z) : SpecFloat.spec_float :=
  SpecFloat.binary_normalize 53 1024 z 0 false.

(** The quotient and the product of two integers, and the overlay formula
    at the quotient of two integers, by the reference implementation. *)
Definition referenceQuotient (x y : Z) : SpecFloat.spec_float :=
  SpecFloat.SFdiv 53 1024 (ofInteger x) (ofInteger y).

Definition referenceProduct (x y : Z) : SpecFloat.spec_float :=
  SpecFloat.SFmul 53 1024 (ofInteger x) (ofInteger y).

Definition referenceOverlay (x y : Z) : SpecFloat.spec_float :=
  SpecFloat.SFadd 53 1024 (ofInteger 60)
    (SpecFloat.SFmul 53 1024
       (SpecFloat.SFdiv 53 1024
          (SpecFloat.SFsub 53 1024 (referenceQuotient x y) (referenceQuotient 15 100))
          (referenceQuotient 2 10))
       (ofInteger 25)).

End Binary64.

Module Num.

(** The value of a decimal literal of the source. *)
Definition lit (q : Q) : num := Binary64.round q.

Definition neg (a : num) : num :=
  match a with
  | Fin x => Fin (- x)
  | PInf => NInf
  | NInf => PInf
  | NaN => NaN
  end.

Definition add (a b : num) : num :=
  match a, b with
  | Fin x, Fin y => Binary64.round (x + y)
  | Fin _, PInf => PInf
  | Fin _, NInf => NInf
  | PInf, Fin _ => PInf
  | PInf, PInf => PInf
  | NInf, Fin _ => NInf
  | NInf, NInf => NInf
  | _, _ => NaN
  end.

Definition sub (a b : num) : num := add a (neg b).

(** An infinity scaled by a finite factor: the sign follows the factor,
    and a zero factor gives NaN. *)
Definition scale (x : Q) (inf : num) : num :=
  if Qeq_bool x 0 then NaN
  else if Qltb 0 x then inf else neg inf.

Definition mul (a b : num) : num :=
  match a, b with
  | Fin x, Fin y => Binary64.round (x * y)
  | Fin x, PInf => scale x PInf
  | Fin x, NInf => scale x NInf
  | PInf, Fin y => scale y PInf
  | NInf, Fin y => scale y NInf
  | PInf, PInf => PInf
  | NInf, NInf => PInf
  | PInf, NInf => NInf
  | NInf, PInf => NInf
  | _, _ => NaN
  end.

(** Division; a zero divisor is the positive zero. *)
Definition div (a b : num) : num :=
  match a, b with
  | Fin x, Fin y =>
      if Qeq_bool y 0
      then (if Qeq_bool x 0 then NaN else if Qltb 0 x then PInf else NInf)
      else Binary64.round (x / y)
  | Fin _, PInf => Fin 0
  | Fin _, NInf => Fin 0
  | PInf, Fin y => if Qltb y 0 then NInf else PInf
  | NInf, Fin y => if Qltb y 0 then PInf else NInf
  | _, _ => NaN
  end.

Definition ltb (a b : num) : bool :=
  match a, b with
  | Fin x, Fin y => Qltb x y
  | Fin _, PInf => true
  | NInf, Fin _ => true
  | NInf, PInf => true
  | _, _ => false
  end.

Definition gtb (a b : num) : bool := ltb b a.

(** Truthiness of a number, as [||] tests it. *)
Definition truthy (a : num) : bool :=
  match a with
  | Fin x => negb (Qeq_bool x 0)
  | NaN => false
  | _ => true
  end.

(** [a <= b]. *)
Definition leb (a b : num) : bool :=
  match a, b with
  | Fin x, Fin y => Qle_bool x y
  | Fin _, PInf => true
  | NInf, Fin _ => true
  | NInf, PInf => true
  | PInf, PInf => true
  | NInf, NInf => true
  | _, _ => false
  end.

(** The size of a canvas, an unsigned integer, as a number. *)
Definition of_N (n : N) : num := Binary64.round (inject_Z (Z.of_N n)).

End Num.

Infix "+" := Num.add : num_scope.
Infix "-" := Num.sub : num_scope.
Infix "*" := Num.mul : num_scope.
Infix "/" := Num.div : num_scope.
Infix "<?" := Num.ltb : num_scope.
Infix ">?" := Num.gtb : num_scope.

(** ** Data model *)

Inductive Method : Type := passive | active.

Definition method_name (m : Method) : string :=
  match m with
  | passive => "passive"
  | active => "active"
  end.

Inductive Step : Type := step_input | step_camera | step_processing | step_result.

Inductive Distance : Type := too_far | good | too_close.

Inductive Color : Type := white | green | red.

Module LivenessSession.
Record t : Type := {
  sessionId : string;
  nik : string;
  method : Method;
  challenges : option (list string);
  expiresAt : string
}.
End LivenessSession.

Module LivenessResult.
Record t : Type := {
  sessionId : string;
  nik : string;
  method : string;
  isLive : bool;
  confidence : num;
  file : option string;
  failureReason : option string;
  errorCode : option string
}.
End LivenessResult.

Module FaceDetection.
Record t : Type := {
  x : num;
  y : num;
  width : num;
  height : num;
  confidence : num
}.
End FaceDetection.

Record Frame : Type := {
  timestamp : Z;
  action : option string;
  image : string;
  faceBox : option (num * num * num * num)
}.

(** One prediction of the face detector: the two corners of the box, and
    the score under either of the two names the page looks for
    ([probability] holds the first entry of the score array). *)
Module Prediction.
Record t : Type := {
  topLeft : num * num;
  bottomRight : num * num;
  probability : option num;
  confidence : option num
}.
End Prediction.

(** The [<video>] element, as far as the page reads it. *)
Record Video : Type := {
  videoWidth : N;
  videoHeight : N
}.

(** A [<canvas>] element: its size, and whether it hands out a 2d context. *)
Module Canvas.
Record t : Type := {
  width : N;
  height : N;
  context2d : bool
}.
End Canvas.

(** A media stream is the list of its tracks. *)
Definition MediaStream : Type := list nat.

(** The body of the verify request. *)
Record VerifyRequest : Type := {
  req_sessionId : string;
  req_frames : list Frame
}.

(** The decoded body of the verify response: [success], [data], [message]
    and [error?.code]. *)
Module ApiResponse.
Record t : Type := {
  success : bool;
  data : option LivenessResult.t;
  message : option string;
  error_code : option string
}.
End ApiResponse.

(** What awaiting [estimateFaces] gives: it throws, or it returns the list
    of predictions. *)
Inductive Estimate : Type :=
| Throws
| Faces (predictions : list Prediction.t).

(** What awaiting the HTTP call and the decoding of its body gives, once
    it settles: an exception with its [message], or the decoded body. *)
Inductive FetchOutcome : Type :=
| Rejected (message : option string)
| Json (data : ApiResponse.t).

(** ** The page state

    First the [useState] hooks, then the [useRef] cells, then the part of
    the world the handlers act on: the clock, the camera tracks that are
    live, the interval timers that are scheduled, and the verify requests
    sent so far (oldest first). *)
Record Page : Type := {
  nik : string;
  method : Method;
  session : option LivenessSession.t;
  result : option LivenessResult.t;
  step : Step;
  loading : bool;
  error : option string;
  cameraReady : bool;
  countdown : option nat;
  currentChallenge : option string;
  challengeIndex : nat;
  instruction : string;
  faceDetected : bool;
  faceCount : nat;
  faceDistance : option Distance;
  ovalSize : num;
  borderColor : Color;
  isCapturing : bool;
  videoRef : option Video;
  canvasRef : option Canvas.t;
  detectionCanvasRef : option Canvas.t;
  streamRef : option MediaStream;
  framesRef : list Frame;
  modelRef : bool;
  detectionIntervalRef : option positive;
  now : Z;
  liveTracks : list nat;
  activeIntervals : list positive;
  requests : list VerifyRequest
}.

(** Field updates. *)

Definition with_session (v : option LivenessSession.t) (s : Page) : Page :=
  {| nik := nik s; method := method s; session := v; result := result s; step := step s;
     loading := loading s; error := error s; cameraReady := cameraReady s; countdown :=
     countdown s; currentChallenge := currentChallenge s; challengeIndex := challengeIndex
     s; instruction := instruction s; faceDetected := faceDetected s; faceCount := faceCount
     s; faceDistance := faceDistance s; ovalSize := ovalSize s; borderColor := borderColor
     s; isCapturing := isCapturing s; videoRef := videoRef s; canvasRef := canvasRef s;
     detectionCanvasRef := detectionCanvasRef s; streamRef := streamRef s; framesRef :=
     framesRef s; modelRef := modelRef s; detectionIntervalRef := detectionIntervalRef s;
     now := now s; liveTracks := liveTracks s; activeIntervals := activeIntervals s;
     requests := requests s |}.

Definition with_result (v : option LivenessResult.t) (s : Page) : Page :=
  {| nik := nik s; method := method s; session := session s; result := v; step := step s;
     loading := loading s; error := error s; cameraReady := cameraReady s; countdown :=
     countdown s; currentChallenge := currentChallenge s; challengeIndex := challengeIndex
     s; instruction := instruction s; faceDetected := faceDetected s; faceCount := faceCount
     s; faceDistance := faceDistance s; ovalSize := ovalSize s; borderColor := borderColor
     s; isCapturing := isCapturing s; videoRef := videoRef s; canvasRef := canvasRef s;
     detectionCanvasRef := detectionCanvasRef s; streamRef := streamRef s; framesRef :=
     framesRef s; modelRef := modelRef s; detectionIntervalRef := detectionIntervalRef s;
     now := now s; liveTracks := liveTracks s; activeIntervals := activeIntervals s;
     requests := requests s |}.

Definition with_step (v : Step) (s : Page) : Page :=
  {| nik := nik s; method := method s; session := session s; result := result s; step := v;
     loading := loading s; error := error s; cameraReady := cameraReady s; countdown :=
     countdown s; currentChallenge := currentChallenge s; challengeIndex := challengeIndex
     s; instruction := instruction s; faceDetected := faceDetected s; faceCount := faceCount
     s; faceDistance := faceDistance s; ovalSize := ovalSize s; borderColor := borderColor
     s; isCapturing := isCapturing s; videoRef := videoRef s; canvasRef := canvasRef s;
     detectionCanvasRef := detectionCanvasRef s; streamRef := streamRef s; framesRef :=
     framesRef s; modelRef := modelRef s; detectionIntervalRef := detectionIntervalRef s;
     now := now s; liveTracks := liveTracks s; activeIntervals := activeIntervals s;
     requests := requests s |}.

Definition with_error (v : option string) (s : Page) : Page :=
  {| nik := nik s; method := method s; session := session s; result := result s; step :=
     step s; loading := loading s; error := v; cameraReady := cameraReady s; countdown :=
     countdown s; currentChallenge := currentChallenge s; challengeIndex := challengeIndex
     s; instruction := instruction s; faceDetected := faceDetected s; faceCount := faceCount
     s; faceDistance := faceDistance s; ovalSize := ovalSize s; borderColor := borderColor
     s; isCapturing := isCapturing s; videoRef := videoRef s; canvasRef := canvasRef s;
     detectionCanvasRef := detectionCanvasRef s; streamRef := streamRef s; framesRef :=
     framesRef s; modelRef := modelRef s; detectionIntervalRef := detectionIntervalRef s;
     now := now s; liveTracks := liveTracks s; activeIntervals := activeIntervals s;
     requests := requests s |}.

Definition with_cameraReady (v : bool) (s : Page) : Page :=
  {| nik := nik s; method := method s; session := session s; result := result s; step :=
     step s; loading := loading s; error := error s; cameraReady := v; countdown :=
     countdown s; currentChallenge := currentChallenge s; challengeIndex := challengeIndex
     s; instruction := instruction s; faceDetected := faceDetected s; faceCount := faceCount
     s; faceDistance := faceDistance s; ovalSize := ovalSize s; borderColor := borderColor
     s; isCapturing := isCapturing s; videoRef := videoRef s; canvasRef := canvasRef s;
     detectionCanvasRef := detectionCanvasRef s; streamRef := streamRef s; framesRef :=
     framesRef s; modelRef := modelRef s; detectionIntervalRef := detectionIntervalRef s;
     now := now s; liveTracks := liveTracks s; activeIntervals := activeIntervals s;
     requests := requests s |}.

Definition with_countdown (v : option nat) (s : Page) : Page :=
  {| nik := nik s; method := method s; session := session s; result := result s; step :=
     step s; loading := loading s; error := error s; cameraReady := cameraReady s; countdown
     := v; currentChallenge := currentChallenge s; challengeIndex := challengeIndex s;
     instruction := instruction s; faceDetected := faceDetected s; faceCount := faceCount s;
     faceDistance := faceDistance s; ovalSize := ovalSize s; borderColor := borderColor s;
     isCapturing := isCapturing s; videoRef := videoRef s; canvasRef := canvasRef s;
     detectionCanvasRef := detectionCanvasRef s; streamRef := streamRef s; framesRef :=
     framesRef s; modelRef := modelRef s; detectionIntervalRef := detectionIntervalRef s;
     now := now s; liveTracks := liveTracks s; activeIntervals := activeIntervals s;
     requests := requests s |}.

Definition with_currentChallenge (v : option string) (s : Page) : Page :=
  {| nik := nik s; method := method s; session := session s; result := result s; step :=
     step s; loading := loading s; error := error s; cameraReady := cameraReady s; countdown
     := countdown s; currentChallenge := v; challengeIndex := challengeIndex s; instruction
     := instruction s; faceDetected := faceDetected s; faceCount := faceCount s;
     faceDistance := faceDistance s; ovalSize := ovalSize s; borderColor := borderColor s;
     isCapturing := isCapturing s; videoRef := videoRef s; canvasRef := canvasRef s;
     detectionCanvasRef := detectionCanvasRef s; streamRef := streamRef s; framesRef :=
     framesRef s; modelRef := modelRef s; detectionIntervalRef := detectionIntervalRef s;
     now := now s; liveTracks := liveTracks s; activeIntervals := activeIntervals s;
     requests := requests s |}.

Definition with_challengeIndex (v : nat) (s : Page) : Page :=
  {| nik := nik s; method := method s; session := session s; result := result s; step :=
     step s; loading := loading s; error := error s; cameraReady := cameraReady s; countdown
     := countdown s; currentChallenge := currentChallenge s; challengeIndex := v;
     instruction := instruction s; faceDetected := faceDetected s; faceCount := faceCount s;
     faceDistance := faceDistance s; ovalSize := ovalSize s; borderColor := borderColor s;
     isCapturing := isCapturing s; videoRef := videoRef s; canvasRef := canvasRef s;
     detectionCanvasRef := detectionCanvasRef s; streamRef := streamRef s; framesRef :=
     framesRef s; modelRef := modelRef s; detectionIntervalRef := detectionIntervalRef s;
     now := now s; liveTracks := liveTracks s; activeIntervals := activeIntervals s;
     requests := requests s |}.

Definition with_instruction (v : string) (s : Page) : Page :=
  {| nik := nik s; method := method s; session := session s; result := result s; step :=
     step s; loading := loading s; error := error s; cameraReady := cameraReady s; countdown
     := countdown s; currentChallenge := currentChallenge s; challengeIndex :=
     challengeIndex s; instruction := v; faceDetected := faceDetected s; faceCount :=
     faceCount s; faceDistance := faceDistance s; ovalSize := ovalSize s; borderColor :=
     borderColor s; isCapturing := isCapturing s; videoRef := videoRef s; canvasRef :=
     canvasRef s; detectionCanvasRef := detectionCanvasRef s; streamRef := streamRef s;
     framesRef := framesRef s; modelRef := modelRef s; detectionIntervalRef :=
     detectionIntervalRef s; now := now s; liveTracks := liveTracks s; activeIntervals :=
     activeIntervals s; requests := requests s |}.

Definition with_faceDetected (v : bool) (s : Page) : Page :=
  {| nik := nik s; method := method s; session := session s; result := result s; step :=
     step s; loading := loading s; error := error s; cameraReady := cameraReady s; countdown
     := countdown s; currentChallenge := currentChallenge s; challengeIndex :=
     challengeIndex s; instruction := instruction s; faceDetected := v; faceCount :=
     faceCount s; faceDistance := faceDistance s; ovalSize := ovalSize s; borderColor :=
     borderColor s; isCapturing := isCapturing s; videoRef := videoRef s; canvasRef :=
     canvasRef s; detectionCanvasRef := detectionCanvasRef s; streamRef := streamRef s;
     framesRef := framesRef s; modelRef := modelRef s; detectionIntervalRef :=
     detectionIntervalRef s; now := now s; liveTracks := liveTracks s; activeIntervals :=
     activeIntervals s; requests := requests s |}.

Definition with_faceCount (v : nat) (s : Page) : Page :=
  {| nik := nik s; method := method s; session := session s; result := result s; step :=
     step s; loading := loading s; error := error s; cameraReady := cameraReady s; countdown
     := countdown s; currentChallenge := currentChallenge s; challengeIndex :=
     challengeIndex s; instruction := instruction s; faceDetected := faceDetected s;
     faceCount := v; faceDistance := faceDistance s; ovalSize := ovalSize s; borderColor :=
     borderColor s; isCapturing := isCapturing s; videoRef := videoRef s; canvasRef :=
     canvasRef s; detectionCanvasRef := detectionCanvasRef s; streamRef := streamRef s;
     framesRef := framesRef s; modelRef := modelRef s; detectionIntervalRef :=
     detectionIntervalRef s; now := now s; liveTracks := liveTracks s; activeIntervals :=
     activeIntervals s; requests := requests s |}.

Definition with_faceDistance (v : option Distance) (s : Page) : Page :=
  {| nik := nik s; method := method s; session := session s; result := result s; step :=
     step s; loading := loading s; error := error s; cameraReady := cameraReady s; countdown
     := countdown s; currentChallenge := currentChallenge s; challengeIndex :=
     challengeIndex s; instruction := instruction s; faceDetected := faceDetected s;
     faceCount := faceCount s; faceDistance := v; ovalSize := ovalSize s; borderColor :=
     borderColor s; isCapturing := isCapturing s; videoRef := videoRef s; canvasRef :=
     canvasRef s; detectionCanvasRef := detectionCanvasRef s; streamRef := streamRef s;
     framesRef := framesRef s; modelRef := modelRef s; detectionIntervalRef :=
     detectionIntervalRef s; now := now s; liveTracks := liveTracks s; activeIntervals :=
     activeIntervals s; requests := requests s |}.

Definition with_ovalSize (v : num) (s : Page) : Page :=
  {| nik := nik s; method := method s; session := session s; result := result s; step :=
     step s; loading := loading s; error := error s; cameraReady := cameraReady s; countdown
     := countdown s; currentChallenge := currentChallenge s; challengeIndex :=
     challengeIndex s; instruction := instruction s; faceDetected := faceDetected s;
     faceCount := faceCount s; faceDistance := faceDistance s; ovalSize := v; borderColor :=
     borderColor s; isCapturing := isCapturing s; videoRef := videoRef s; canvasRef :=
     canvasRef s; detectionCanvasRef := detectionCanvasRef s; streamRef := streamRef s;
     framesRef := framesRef s; modelRef := modelRef s; detectionIntervalRef :=
     detectionIntervalRef s; now := now s; liveTracks := liveTracks s; activeIntervals :=
     activeIntervals s; requests := requests s |}.

Definition with_borderColor (v : Color) (s : Page) : Page :=
  {| nik := nik s; method := method s; session := session s; result := result s; step :=
     step s; loading := loading s; error := error s; cameraReady := cameraReady s; countdown
     := countdown s; currentChallenge := currentChallenge s; challengeIndex :=
     challengeIndex s; instruction := instruction s; faceDetected := faceDetected s;
     faceCount := faceCount s; faceDistance := faceDistance s; ovalSize := ovalSize s;
     borderColor := v; isCapturing := isCapturing s; videoRef := videoRef s; canvasRef :=
     canvasRef s; detectionCanvasRef := detectionCanvasRef s; streamRef := streamRef s;
     framesRef := framesRef s; modelRef := modelRef s; detectionIntervalRef :=
     detectionIntervalRef s; now := now s; liveTracks := liveTracks s; activeIntervals :=
     activeIntervals s; requests := requests s |}.

Definition with_isCapturing (v : bool) (s : Page) : Page :=
  {| nik := nik s; method := method s; session := session s; result := result s; step :=
     step s; loading := loading s; error := error s; cameraReady := cameraReady s; countdown
     := countdown s; currentChallenge := currentChallenge s; challengeIndex :=
     challengeIndex s; instruction := instruction s; faceDetected := faceDetected s;
     faceCount := faceCount s; faceDistance := faceDistance s; ovalSize := ovalSize s;
     borderColor := borderColor s; isCapturing := v; videoRef := videoRef s; canvasRef :=
     canvasRef s; detectionCanvasRef := detectionCanvasRef s; streamRef := streamRef s;
     framesRef := framesRef s; modelRef := modelRef s; detectionIntervalRef :=
     detectionIntervalRef s; now := now s; liveTracks := liveTracks s; activeIntervals :=
     activeIntervals s; requests := requests s |}.

Definition with_canvasRef (v : option Canvas.t) (s : Page) : Page :=
  {| nik := nik s; method := method s; session := session s; result := result s; step :=
     step s; loading := loading s; error := error s; cameraReady := cameraReady s; countdown
     := countdown s; currentChallenge := currentChallenge s; challengeIndex :=
     challengeIndex s; instruction := instruction s; faceDetected := faceDetected s;
     faceCount := faceCount s; faceDistance := faceDistance s; ovalSize := ovalSize s;
     borderColor := borderColor s; isCapturing := isCapturing s; videoRef := videoRef s;
     canvasRef := v; detectionCanvasRef := detectionCanvasRef s; streamRef := streamRef s;
     framesRef := framesRef s; modelRef := modelRef s; detectionIntervalRef :=
     detectionIntervalRef s; now := now s; liveTracks := liveTracks s; activeIntervals :=
     activeIntervals s; requests := requests s |}.

Definition with_detectionCanvasRef (v : option Canvas.t) (s : Page) : Page :=
  {| nik := nik s; method := method s; session := session s; result := result s; step :=
     step s; loading := loading s; error := error s; cameraReady := cameraReady s; countdown
     := countdown s; currentChallenge := currentChallenge s; challengeIndex :=
     challengeIndex s; instruction := instruction s; faceDetected := faceDetected s;
     faceCount := faceCount s; faceDistance := faceDistance s; ovalSize := ovalSize s;
     borderColor := borderColor s; isCapturing := isCapturing s; videoRef := videoRef s;
     canvasRef := canvasRef s; detectionCanvasRef := v; streamRef := streamRef s; framesRef
     := framesRef s; modelRef := modelRef s; detectionIntervalRef := detectionIntervalRef s;
     now := now s; liveTracks := liveTracks s; activeIntervals := activeIntervals s;
     requests := requests s |}.

Definition with_streamRef (v : option MediaStream) (s : Page) : Page :=
  {| nik := nik s; method := method s; session := session s; result := result s; step :=
     step s; loading := loading s; error := error s; cameraReady := cameraReady s; countdown
     := countdown s; currentChallenge := currentChallenge s; challengeIndex :=
     challengeIndex s; instruction := instruction s; faceDetected := faceDetected s;
     faceCount := faceCount s; faceDistance := faceDistance s; ovalSize := ovalSize s;
     borderColor := borderColor s; isCapturing := isCapturing s; videoRef := videoRef s;
     canvasRef := canvasRef s; detectionCanvasRef := detectionCanvasRef s; streamRef := v;
     framesRef := framesRef s; modelRef := modelRef s; detectionIntervalRef :=
     detectionIntervalRef s; now := now s; liveTracks := liveTracks s; activeIntervals :=
     activeIntervals s; requests := requests s |}.

Definition with_framesRef (v : list Frame) (s : Page) : Page :=
  {| nik := nik s; method := method s; session := session s; result := result s; step :=
     step s; loading := loading s; error := error s; cameraReady := cameraReady s; countdown
     := countdown s; currentChallenge := currentChallenge s; challengeIndex :=
     challengeIndex s; instruction := instruction s; faceDetected := faceDetected s;
     faceCount := faceCount s; faceDistance := faceDistance s; ovalSize := ovalSize s;
     borderColor := borderColor s; isCapturing := isCapturing s; videoRef := videoRef s;
     canvasRef := canvasRef s; detectionCanvasRef := detectionCanvasRef s; streamRef :=
     streamRef s; framesRef := v; modelRef := modelRef s; detectionIntervalRef :=
     detectionIntervalRef s; now := now s; liveTracks := liveTracks s; activeIntervals :=
     activeIntervals s; requests := requests s |}.

Definition with_detectionIntervalRef (v : option positive) (s : Page) : Page :=
  {| nik := nik s; method := method s; session := session s; result := result s; step :=
     step s; loading := loading s; error := error s; cameraReady := cameraReady s; countdown
     := countdown s; currentChallenge := currentChallenge s; challengeIndex :=
     challengeIndex s; instruction := instruction s; faceDetected := faceDetected s;
     faceCount := faceCount s; faceDistance := faceDistance s; ovalSize := ovalSize s;
     borderColor := borderColor s; isCapturing := isCapturing s; videoRef := videoRef s;
     canvasRef := canvasRef s; detectionCanvasRef := detectionCanvasRef s; streamRef :=
     streamRef s; framesRef := framesRef s; modelRef := modelRef s; detectionIntervalRef :=
     v; now := now s; liveTracks := liveTracks s; activeIntervals := activeIntervals s;
     requests := requests s |}.

Definition with_now (v : Z) (s : Page) : Page :=
  {| nik := nik s; method := method s; session := session s; result := result s; step :=
     step s; loading := loading s; error := error s; cameraReady := cameraReady s; countdown
     := countdown s; currentChallenge := currentChallenge s; challengeIndex :=
     challengeIndex s; instruction := instruction s; faceDetected := faceDetected s;
     faceCount := faceCount s; faceDistance := faceDistance s; ovalSize := ovalSize s;
     borderColor := borderColor s; isCapturing := isCapturing s; videoRef := videoRef s;
     canvasRef := canvasRef s; detectionCanvasRef := detectionCanvasRef s; streamRef :=
     streamRef s; framesRef := framesRef s; modelRef := modelRef s; detectionIntervalRef :=
     detectionIntervalRef s; now := v; liveTracks := liveTracks s; activeIntervals :=
     activeIntervals s; requests := requests s |}.

Definition with_liveTracks (v : list nat) (s : Page) : Page :=
  {| nik := nik s; method := method s; session := session s; result := result s; step :=
     step s; loading := loading s; error := error s; cameraReady := cameraReady s; countdown
     := countdown s; currentChallenge := currentChallenge s; challengeIndex :=
     challengeIndex s; instruction := instruction s; faceDetected := faceDetected s;
     faceCount := faceCount s; faceDistance := faceDistance s; ovalSize := ovalSize s;
     borderColor := borderColor s; isCapturing := isCapturing s; videoRef := videoRef s;
     canvasRef := canvasRef s; detectionCanvasRef := detectionCanvasRef s; streamRef :=
     streamRef s; framesRef := framesRef s; modelRef := modelRef s; detectionIntervalRef :=
     detectionIntervalRef s; now := now s; liveTracks := v; activeIntervals :=
     activeIntervals s; requests := requests s |}.

Definition with_activeIntervals (v : list positive) (s : Page) : Page :=
  {| nik := nik s; method := method s; session := session s; result := result s; step :=
     step s; loading := loading s; error := error s; cameraReady := cameraReady s; countdown
     := countdown s; currentChallenge := currentChallenge s; challengeIndex :=
     challengeIndex s; instruction := instruction s; faceDetected := faceDetected s;
     faceCount := faceCount s; faceDistance := faceDistance s; ovalSize := ovalSize s;
     borderColor := borderColor s; isCapturing := isCapturing s; videoRef := videoRef s;
     canvasRef := canvasRef s; detectionCanvasRef := detectionCanvasRef s; streamRef :=
     streamRef s; framesRef := framesRef s; modelRef := modelRef s; detectionIntervalRef :=
     detectionIntervalRef s; now := now s; liveTracks := liveTracks s; activeIntervals := v;
     requests := requests s |}.

Definition with_requests (v : list VerifyRequest) (s : Page) : Page :=
  {| nik := nik s; method := method s; session := session s; result := result s; step :=
     step s; loading := loading s; error := error s; cameraReady := cameraReady s; countdown
     := countdown s; currentChallenge := currentChallenge s; challengeIndex :=
     challengeIndex s; instruction := instruction s; faceDetected := faceDetected s;
     faceCount := faceCount s; faceDistance := faceDistance s; ovalSize := ovalSize s;
     borderColor := borderColor s; isCapturing := isCapturing s; videoRef := videoRef s;
     canvasRef := canvasRef s; detectionCanvasRef := detectionCanvasRef s; streamRef :=
     streamRef s; framesRef := framesRef s; modelRef := modelRef s; detectionIntervalRef :=
     detectionIntervalRef s; now := now s; liveTracks := liveTracks s; activeIntervals :=
     activeIntervals s; requests := v |}.

Definition with_videoRef (v : option Video) (s : Page) : Page :=
  {| nik := nik s; method := method s; session := session s; result := result s; step :=
     step s; loading := loading s; error := error s; cameraReady := cameraReady s; countdown
     := countdown s; currentChallenge := currentChallenge s; challengeIndex :=
     challengeIndex s; instruction := instruction s; faceDetected := faceDetected s;
     faceCount := faceCount s; faceDistance := faceDistance s; ovalSize := ovalSize s;
     borderColor := borderColor s; isCapturing := isCapturing s; videoRef := v; canvasRef :=
     canvasRef s; detectionCanvasRef := detectionCanvasRef s; streamRef := streamRef s;
     framesRef := framesRef s; modelRef := modelRef s; detectionIntervalRef :=
     detectionIntervalRef s; now := now s; liveTracks := liveTracks s; activeIntervals :=
     activeIntervals s; requests := requests s |}.

(** ** Handlers as state transformers *)

Definition Act (A : Type) : Type := Page -> A * Page.

Definition ret {A : Type} (a : A) : Act A := fun s => (a, s).

Definition bind {A B : Type} (c : Act A) (k : A -> Act B) : Act B :=
  fun s => let (a, s') := c s in k a s'.

Definition get : Act Page := fun s => (s, s).

Definition modify (f : Page -> Page) : Act unit := fun s => (tt, f s).

(** The state a handler leaves behind. *)
Definition exec {A : Type} (c : Act A) (s : Page) : Page := snd (c s).

Declare Scope act_scope.
Delimit Scope act_scope with act.
Bind Scope act_scope with Act.

Notation "x <- c ;; k" := (bind c (fun x => k))
  (at level 61, c at next level, right associativity) : act_scope.
Notation "c ;; k" := (bind c (fun _ => k))
  (at level 61, right associativity) : act_scope.

Local Open Scope act_scope.
Local Open Scope string_scope.

(** The hook setters and the assignments to [.current] of the refs. *)
Definition setSession (v : option LivenessSession.t) : Act unit := modify (with_session v).
Definition setResult (v : option LivenessResult.t) : Act unit := modify (with_result v).
Definition setStep (v : Step) : Act unit := modify (with_step v).
Definition setError (v : option string) : Act unit := modify (with_error v).
Definition setCameraReady (v : bool) : Act unit := modify (with_cameraReady v).
Definition setCountdown (v : option nat) : Act unit := modify (with_countdown v).
Definition setCurrentChallenge (v : option string) : Act unit := modify (with_currentChallenge v).
Definition setChallengeIndex (v : nat) : Act unit := modify (with_challengeIndex v).
Definition setInstruction (v : string) : Act unit := modify (with_instruction v).
Definition setFaceDetected (v : bool) : Act unit := modify (with_faceDetected v).
Definition setFaceCount (v : nat) : Act unit := modify (with_faceCount v).
Definition setFaceDistance (v : option Distance) : Act unit := modify (with_faceDistance v).
Definition setOvalSize (v : num) : Act unit := modify (with_ovalSize v).
Definition setBorderColor (v : Color) : Act unit := modify (with_borderColor v).
Definition setIsCapturing (v : bool) : Act unit := modify (with_isCapturing v).
Definition assignFrames (v : list Frame) : Act unit := modify (with_framesRef v).
Definition assignStream (v : option MediaStream) : Act unit := modify (with_streamRef v).
Definition assignDetectionInterval (v : option positive) : Act unit :=
  modify (with_detectionIntervalRef v).

(** [await new Promise(r => setTimeout(r, ms))]. *)
Definition sleep (ms : Z) : Act unit := modify (fun s => with_now (now s + ms)%Z s).

(** [track.stop()] and [clearInterval(id)]. *)
Definition stopTrack (track : nat) : Act unit :=
  modify (fun s => with_liveTracks (remove Nat.eq_dec track (liveTracks s)) s).

Definition clearInterval (id : positive) : Act unit :=
  modify (fun s => with_activeIntervals (remove Pos.eq_dec id (activeIntervals s)) s).

Fixpoint forEach {A : Type} (f : A -> Act unit) (l : list A) : Act unit :=
  match l with
  | [] => ret tt
  | a :: l' => f a ;; forEach f l'
  end.

(** [a || d] on a string that may be undefined. *)
Definition orElse (a : option string) (d : string) : string :=
  match a with
  | Some v => if String.eqb v "" then d else v
  | None => d
  end.

(** [a || d] on a number that may be undefined. *)
Definition orNum (a : option num) (d : num) : num :=
  match a with
  | Some v => if Num.truthy v then v else d
  | None => d
  end.

(** Challenge display names: the own properties of the table. *)
Definition CHALLENGE_NAMES : list (string * string) :=
  [ ("blink", "Kedipkan mata Anda");
    ("smile", "Tersenyumlah");
    ("nod", "Anggukkan kepala Anda");
    ("turnRight", "Putar kepala ke kanan");
    ("turnLeft", "Putar kepala ke kiri") ].

Fixpoint lookup (key : string) (table : list (string * string)) : option string :=
  match table with
  | [] => None
  | (k, v) :: rest => if String.eqb key k then Some v else lookup key rest
  end.

(** *** Face detection *)

(** The face size relative to the video frame, from the two corners of
    the box and the size of the sampled canvas. *)
Definition faceRatio (face : Prediction.t) (canvasWidth canvasHeight : N) : num :=
  let start := Prediction.topLeft face in
  let end_ := Prediction.bottomRight face in
  let width := (fst end_ - fst start)%num in
  let height := (snd end_ - snd start)%num in
  let faceArea := (width * height)%num in
  let videoArea := (Num.of_N canvasWidth * Num.of_N canvasHeight)%num in
  (faceArea / videoArea)%num.

Definition detectFace (outcome : Estimate) : Act (option FaceDetection.t) :=
  s <- get ;;
  match videoRef s, modelRef s, detectionCanvasRef s with
  | Some video, true, Some canvas =>
    if negb (Canvas.context2d canvas) then ret None else
    (* the canvas takes the size of the video and the frame is drawn on it *)
    let canvas :=
      {| Canvas.width := videoWidth video;
         Canvas.height := videoHeight video;
         Canvas.context2d := Canvas.context2d canvas |} in
    modify (with_detectionCanvasRef (Some canvas)) ;;
    match outcome with
    | Throws => ret None
    | Faces predictions =>
      if (List.length predictions =? 0)%nat then
        setFaceDetected false ;;
        setFaceCount 0 ;;
        setFaceDistance None ;;
        ret None
      else if (1 <? List.length predictions)%nat then
        setFaceCount (List.length predictions) ;;
        setBorderColor red ;;
        setInstruction "Pastikan hanya satu wajah dalam bingkai" ;;
        ret None
      else
        match predictions with
        | [] => ret None
        | face :: _ =>
          let start := Prediction.topLeft face in
          let end_ := Prediction.bottomRight face in
          let width := (fst end_ - fst start)%num in
          let height := (snd end_ - snd start)%num in
          let faceRatio := faceRatio face (Canvas.width canvas) (Canvas.height canvas) in
          choice <-
            (if (faceRatio <? Num.lit 0.15)%num then
               setInstruction "Terlalu jauh, dekatkan wajah Anda" ;;
               setBorderColor white ;;
               ret (too_far, Fin 60)
             else if (faceRatio >? Num.lit 0.35)%num then
               setInstruction "Terlalu dekat, mundur sedikit" ;;
               setBorderColor white ;;
               ret (too_close, Fin 85)
             else
               setInstruction "Wajah terdeteksi" ;;
               setBorderColor green ;;
               ret (good, (60%Q + (faceRatio - Num.lit 0.15) / Num.lit 0.2 * 25%Q)%num)) ;;
          let (distance, newOvalSize) := choice : Distance * num in
          setFaceDetected true ;;
          setFaceCount 1 ;;
          setFaceDistance (Some distance) ;;
          setOvalSize newOvalSize ;;
          ret (Some {| FaceDetection.x := fst start;
                       FaceDetection.y := snd start;
                       FaceDetection.width := width;
                       FaceDetection.height := height;
                       FaceDetection.confidence :=
                         orNum (Prediction.probability face)
                               (orNum (Prediction.confidence face) (Fin 0)) |})
        end
    end
  | _, _, _ => ret None
  end.

(** *** Camera *)

Definition stopCamera : Act unit :=
  s <- get ;;
  match streamRef s with
  | Some stream => forEach stopTrack stream ;; assignStream None
  | None => ret tt
  end ;;
  match detectionIntervalRef s with
  | Some id => clearInterval id ;; assignDetectionInterval None
  | None => ret tt
  end ;;
  setCameraReady false ;;
  setFaceDetected false.

(** What a hook makes of a property that an object literal inherits from
    [Object.prototype] when it is handed one as its new state. A built-in
    function such as [toString] is taken for an updater and applied to
    the state the hook holds. When the call throws, or when its result or
    the property itself (the prototype, for [__proto__]) is not something
    that can be displayed, rendering fails and the component is
    unmounted. *)
Inductive Inherited : Type :=
| Updater (text : string -> string)
| Fatal.

(** The component is unmounted: its clean-up stops the tracks of the
    stream it holds and clears the detection interval, and its refs to the
    elements are cleared. *)
Definition unmount : Act unit :=
  s <- get ;;
  match streamRef s with
  | Some stream => forEach stopTrack stream
  | None => ret tt
  end ;;
  match detectionIntervalRef s with
  | Some id => clearInterval id
  | None => ret tt
  end ;;
  modify (fun s => with_detectionCanvasRef None (with_canvasRef None (with_videoRef None s))).

Section Capture.

(** The encoded still image that the canvas yields for the video frame
    shown at a given time. *)
Variable toDataURL : Z -> string.

(** For the name of a property that the table of challenge names
    inherits from [Object.prototype], what the instruction hook makes of
    that property; nothing for any other name. *)
Variable inherited : string -> option Inherited.

Definition captureFrame (action : option string) : Act (option Frame) :=
  s <- get ;;
  match videoRef s, canvasRef s with
  | Some video, Some canvas =>
    if negb (Canvas.context2d canvas) then ret None else
    let canvas :=
      {| Canvas.width := videoWidth video;
         Canvas.height := videoHeight video;
         Canvas.context2d := Canvas.context2d canvas |} in
    modify (with_canvasRef (Some canvas)) ;;
    let imageData := toDataURL (now s) in
    ret (Some {| timestamp := now s;
                 action := action;
                 image := imageData;
                 faceBox := None |})
  | _, _ => ret None
  end.

Definition pushFrame (frame : option Frame) : Act unit :=
  match frame with
  | Some f => modify (fun s => with_framesRef (framesRef s ++ [f]) s)
  | None => ret tt
  end.

(** *** Submission *)

Definition submitVerification (net : FetchOutcome) : Act unit :=
  s <- get ;;
  match session s with
  | None => setError (Some "Tidak ada frame yang di-capture")
  | Some session =>
    if (List.length (framesRef s) =? 0)%nat then
      setError (Some "Tidak ada frame yang di-capture")
    else
      setStep step_processing ;;
      stopCamera ;;
      modify (fun s' =>
        with_requests
          (requests s' ++ [ {| req_sessionId := LivenessSession.sessionId session;
                               req_frames := framesRef s |} ]) s') ;;
      match net with
      | Json data =>
        (if ApiResponse.success data then
           setResult (ApiResponse.data data)
         else
           setResult (Some
             {| LivenessResult.sessionId := LivenessSession.sessionId session;
                LivenessResult.nik := LivenessSession.nik session;
                LivenessResult.method := method_name (LivenessSession.method session);
                LivenessResult.isLive := false;
                LivenessResult.confidence := Fin 0;
                LivenessResult.file := None;
                LivenessResult.failureReason :=
                  Some (orElse (ApiResponse.message data) "Verification failed");
                LivenessResult.errorCode := ApiResponse.error_code data |})) ;;
        setStep step_result
      | Rejected message =>
        setError (Some (orElse message "Terjadi kesalahan saat verifikasi")) ;;
        setStep step_result
      end
  end.

(** *** The two capture modes *)

(** [count] rounds of the passive loop. *)
Fixpoint passiveLoop (count : nat) : Act unit :=
  match count with
  | O => ret tt
  | S rest =>
    frame <- captureFrame None ;;
    pushFrame frame ;;
    sleep 400 ;;
    passiveLoop rest
  end.

Definition runPassiveVerification (net : FetchOutcome) : Act unit :=
  setInstruction "Tetap diam, sedang memverifikasi..." ;;
  setBorderColor green ;;
  assignFrames [] ;;
  passiveLoop 5 ;;
  submitVerification net.

(** [setInstruction(CHALLENGE_NAMES[challenge] || challenge)]: the hook
    gets the name that the table holds for the challenge, or the inherited
    property when the table holds none, or else the identifier itself. *)
Definition showChallenge (challenge : string) : Act unit :=
  match lookup challenge CHALLENGE_NAMES, inherited challenge with
  | None, Some (Updater text) =>
    modify (fun s => with_instruction (text (instruction s)) s)
  | None, Some Fatal => unmount
  | own, _ => setInstruction (orElse own challenge)
  end.

(** The active loop from index [i] on, over the challenges that remain. *)
Fixpoint activeLoop (i : nat) (challenges : list string) : Act unit :=
  match challenges with
  | [] => ret tt
  | challenge :: rest =>
    setChallengeIndex i ;;
    setCurrentChallenge (Some challenge) ;;
    showChallenge challenge ;;
    setBorderColor white ;;
    sleep 2500 ;;
    frame <- captureFrame (Some challenge) ;;
    pushFrame frame ;;
    activeLoop (S i) rest
  end.

Definition runActiveVerification (net : FetchOutcome) : Act unit :=
  s <- get ;;
  match session s with
  | None => ret tt
  | Some session =>
    match LivenessSession.challenges session with
    | None => ret tt
    | Some challenges =>
      assignFrames [] ;;
      activeLoop 0 challenges ;;
      setCurrentChallenge None ;;
      submitVerification net
    end
  end.

(** *** Starting a verification *)

Definition isGood (d : option Distance) : bool :=
  match d with
  | Some good => true
  | _ => false
  end.

(** The test that refuses to start a capture. *)
Definition captureBlocked (s : Page) : bool :=
  negb (faceDetected s) || negb (isGood (faceDistance s)) || negb (faceCount s =? 1)%nat.

Fixpoint countdownLoop (i : nat) : Act unit :=
  match i with
  | O => ret tt
  | S rest =>
    setCountdown (Some i) ;;
    sleep 1000 ;;
    countdownLoop rest
  end.

Definition startVerification (net : FetchOutcome) : Act unit :=
  s <- get ;;
  match session s with
  | None => ret tt
  | Some _ =>
    if captureBlocked s then
      setError (Some "Pastikan wajah terdeteksi dengan baik dan posisi tepat di tengah")
    else
      setIsCapturing true ;;
      setInstruction "Bersiap..." ;;
      setCountdown (Some 3%nat) ;;
      countdownLoop 3 ;;
      setCountdown None ;;
      match method s with
      | passive => runPassiveVerification net
      | active => runActiveVerification net
      end ;;
      setIsCapturing false
  end.

(** *** Reset *)

Definition handleReset : Act unit :=
  stopCamera ;;
  setSession None ;;
  setResult None ;;
  setError None ;;
  setStep step_input ;;
  assignFrames [] ;;
  setChallengeIndex 0 ;;
  setCurrentChallenge None ;;
  setFaceDetected false ;;
  setFaceCount 0 ;;
  setFaceDistance None ;;
  setOvalSize (Fin 60) ;;
  setBorderColor white ;;
  setIsCapturing false.

End Capture.

(** ** Reading the guidance state *)

(** The size of the sample a detection tick works on, when the tick gets
    as far as running the detector: the video element, the loaded model
    and the detection canvas with its 2d context are all there. *)
Definition frameSize (s : Page) : option (N * N) :=
  match videoRef s, modelRef s, detectionCanvasRef s with
  | Some video, true, Some canvas =>
    if Canvas.context2d canvas then Some (videoWidth video, videoHeight video) else None
  | _, _, _ => None
  end.

(** The page once the detection canvas has taken the size of the sample. *)
Definition sampled (w h : N) (s : Page) : Page :=
  with_detectionCanvasRef
    (Some {| Canvas.width := w; Canvas.height := h; Canvas.context2d := true |}) s.

(** The capture-eligibility predicate: the start of a capture is not
    refused. *)
Definition canCapture (s : Page) : bool := negb (captureBlocked s).

(** The overlay size the specification gives for a face ratio in the good
    band, as an exact rational. *)
Definition overlayFor (faceRatio : Q) : Q := (60 + ((faceRatio - 0.15) / 0.20) * 25)%Q.

(** The same formula as the page evaluates it, each operation rounded. *)
Definition overlayOf (faceRatio : num) : num :=
  (60%Q + ((faceRatio - Num.lit 0.15) / Num.lit 0.2) * 25%Q)%num.

(** The binary64 numbers that the literals [0.15], [0.35] and [0.2]
    denote: the two thresholds and the width of the band. *)
Definition bandLow : Q := 5404319552844595 # 36028797018963968.
Definition bandHigh : Q := 3152519739159347 # 9007199254740992.
Definition bandWidth : Q := 3602879701896397 # 18014398509481984.

(** The rational that a number denotes, 0 for what is not finite. *)
Definition finite (a : num) : Q :=
  match a with
  | Fin q => q
  | _ => 0%Q
  end.

(** The upper threshold after each of the first three operations of the
    formula. *)
Definition bandSpan : Q :=
  Eval vm_compute in finite (Binary64.round (bandHigh + - bandLow)).
Definition bandShare : Q :=
  Eval vm_compute in finite (Binary64.round (bandSpan / bandWidth)).
Definition bandRise : Q :=
  Eval vm_compute in finite (Binary64.round (bandShare * 25)).

(** The ratio lies in the good band, bounds included. *)
Definition inBand (faceRatio : num) : bool :=
  Num.leb (Num.lit 0.15) faceRatio && Num.leb faceRatio (Num.lit 0.35).

(** A still can be captured: the video element and the capture canvas
    with its 2d context are there. *)
Definition captureReady (s : Page) : bool :=
  match videoRef s, canvasRef s with
  | Some _, Some canvas => Canvas.context2d canvas
  | _, _ => false
  end.

(** The tracks that stay live once every track of a stream is stopped. *)
Definition stopAll (stream : MediaStream) (live : list nat) : list nat :=
  fold_left (fun acc track => remove Nat.eq_dec track acc) stream live.

(** The page once the camera is stopped. *)
Definition cameraStopped (s : Page) : Page :=
  with_faceDetected false
    (with_cameraReady false
      (with_detectionIntervalRef None
        (with_activeIntervals
          (match detectionIntervalRef s with
           | Some id => remove Pos.eq_dec id (activeIntervals s)
           | None => activeIntervals s
           end)
          (with_streamRef None
            (with_liveTracks
              (match streamRef s with
               | Some stream => stopAll stream (liveTracks s)
               | None => liveTracks s
               end) s))))).

(** The page a reset leaves: the input step with no session, no result, no
    error, no frames, the guidance state of a fresh page, the camera
    stopped; the form fields, the instruction text, the countdown and the
    DOM elements are not touched. *)
Definition pageAfterReset (s : Page) : Page :=
  {| nik := nik s;
     method := method s;
     session := None;
     result := None;
     step := step_input;
     loading := loading s;
     error := None;
     cameraReady := false;
     countdown := countdown s;
     currentChallenge := None;
     challengeIndex := 0;
     instruction := instruction s;
     faceDetected := false;
     faceCount := 0;
     faceDistance := None;
     ovalSize := Fin 60;
     borderColor := white;
     isCapturing := false;
     videoRef := videoRef s;
     canvasRef := canvasRef s;
     detectionCanvasRef := detectionCanvasRef s;
     streamRef := None;
     framesRef := [];
     modelRef := modelRef s;
     detectionIntervalRef := None;
     now := now s;
     liveTracks :=
       match streamRef s with
       | Some stream => stopAll stream (liveTracks s)
       | None => liveTracks s
       end;
     activeIntervals :=
       match detectionIntervalRef s with
       | Some id => remove Pos.eq_dec id (activeIntervals s)
       | None => activeIntervals s
       end;
     requests := requests s |}.

(** The message of an empty frame buffer. *)
Definition noFrames : string := "Tidak ada frame yang di-capture".

(** The page once the request has gone out: the processing step, the
    camera stopped, the request logged. *)
Definition submitted (session : LivenessSession.t) (s : Page) : Page :=
  let s1 := cameraStopped (with_step step_processing s) in
  with_requests
    (requests s1 ++ [ {| req_sessionId := LivenessSession.sessionId session;
                         req_frames := framesRef s |} ]) s1.

(** The result the page builds from a response that reports a failure. *)
Definition failureResult (session : LivenessSession.t) (data : ApiResponse.t)
  : LivenessResult.t :=
  {| LivenessResult.sessionId := LivenessSession.sessionId session;
     LivenessResult.nik := LivenessSession.nik session;
     LivenessResult.method := method_name (LivenessSession.method session);
     LivenessResult.isLive := false;
     LivenessResult.confidence := Fin 0;
     LivenessResult.file := None;
     LivenessResult.failureReason :=
       Some (orElse (ApiResponse.message data) "Verification failed");
     LivenessResult.errorCode := ApiResponse.error_code data |}.

(** The message of a refused capture. *)
Definition notInPosition : string :=
  "Pastikan wajah terdeteksi dengan baik dan posisi tepat di tengah".

Section Expected.

Variable toDataURL : Z -> string.
Variable inherited : string -> option Inherited.

(** The frame a successful capture at time [t] yields. *)
Definition still (t : Z) (tag : option string) : Frame :=
  {| timestamp := t; action := tag; image := toDataURL t; faceBox := None |}.

(** The untagged frames of [count] captures that start at [t], 400 ms
    apart. *)
Fixpoint passiveShots (t : Z) (count : nat) : list Frame :=
  match count with
  | O => []
  | S rest => still t None :: passiveShots (t + 400) rest
  end.

(** The tagged frames of the challenges prompted from [t] on, each
    captured 2500 ms after its prompt. *)
Fixpoint activeShots (t : Z) (challenges : list string) : list Frame :=
  match challenges with
  | [] => []
  | challenge :: rest =>
    still (t + 2500) (Some challenge) :: activeShots (t + 2500) rest
  end.

(** The prompt of the challenge can be shown. *)
Definition showable (challenge : string) : bool :=
  match lookup challenge CHALLENGE_NAMES, inherited challenge with
  | None, Some Fatal => false
  | _, _ => true
  end.

(** The text that the prompt of a challenge leaves in the instruction
    hook, which held [shown]. *)
Definition promptFor (challenge shown : string) : string :=
  match lookup challenge CHALLENGE_NAMES, inherited challenge with
  | None, Some (Updater text) => text shown
  | own, _ => orElse own challenge
  end.

(** What happens on the camera screen between two renders: a detection
    tick, or a press on the capture button. *)
Inductive Event : Type :=
| Tick (outcome : Estimate)
| Press (net : FetchOutcome).

Definition fire (e : Event) : Act unit :=
  match e with
  | Tick outcome => (detectFace outcome ;; ret tt)%act
  | Press net => startVerification toDataURL inherited net
  end.

Fixpoint fireAll (es : list Event) (s : Page) : Page :=
  match es with
  | [] => s
  | e :: rest => fireAll rest (exec (fire e) s)
  end.

(** The event is a tick that sees exactly one face at good distance. *)
Definition goodTick (e : Event) (s : Page) : bool :=
  match e, frameSize s with
  | Tick (Faces [face]), Some (w, h) =>
    negb (faceRatio face w h <? Num.lit 0.15)%num
    && negb (faceRatio face w h >? Num.lit 0.35)%num
  | _, _ => false
  end.

(** No event of the run is such a tick. *)
Fixpoint noGoodTick (es : list Event) (s : Page) : bool :=
  match es with
  | [] => true
  | e :: rest => negb (goodTick e s) && noGoodTick rest (exec (fire e) s)
  end.

End Expected.

(** ** Sample data *)

Definition sampleSession (m : Method) (cs : option (list string)) : LivenessSession.t :=
  {| LivenessSession.sessionId := "sess-1";
     LivenessSession.nik := "3275035402950020";
     LivenessSession.method := m;
     LivenessSession.challenges := cs;
     LivenessSession.expiresAt := "2026-01-01T00:00:00Z" |}.

(** The camera screen right after the camera has started, at 1280 x 720. *)
Definition cameraPage (m : Method) (cs : option (list string)) : Page :=
  {| nik := "3275035402950020";
     method := m;
     session := Some (sampleSession m cs);
     result := None;
     step := step_camera;
     loading := false;
     error := None;
     cameraReady := true;
     countdown := None;
     currentChallenge := None;
     challengeIndex := 0;
     instruction := "Posisikan wajah dalam bingkai oval";
     faceDetected := false;
     faceCount := 0;
     faceDistance := None;
     ovalSize := Fin 60;
     borderColor := white;
     isCapturing := false;
     videoRef := Some {| videoWidth := 1280; videoHeight := 720 |};
     canvasRef := Some {| Canvas.width := 300; Canvas.height := 150; Canvas.context2d := true |};
     detectionCanvasRef :=
       Some {| Canvas.width := 300; Canvas.height := 150; Canvas.context2d := true |};
     streamRef := Some [1%nat];
     framesRef := [];
     modelRef := true;
     detectionIntervalRef := Some 7%positive;
     now := 1000;
     liveTracks := [1%nat];
     activeIntervals := [7%positive];
     requests := [] |}.

(** A box of the given size with its corner at (400, 120). *)
Definition faceBoxOf (w h : Q) : Prediction.t :=
  {| Prediction.topLeft := (Fin 400, Fin 120);
     Prediction.bottomRight := (Fin (400 + w), Fin (120 + h));
     Prediction.probability := Some (Num.lit 0.99);
     Prediction.confidence := None |}.

Definition sampleImage (t : Z) : string := "data:image/jpeg;base64".

(** A browser in which the instruction hook handed [toString] shows the
    text that the call of it returns, and handed [valueOf] fails to
    render. *)
Definition sampleInherited (key : string) : option Inherited :=
  if String.eqb key "toString" then Some (Updater (fun _ => "[object Undefined]"))
  else if String.eqb key "valueOf" then Some Fatal
  else None.

(** The camera screen after a tick has seen one face that fills a quarter
    of the frame. *)
Definition guidedPage (m : Method) (cs : option (list string)) : Page :=
  exec (detectFace (Faces [faceBoxOf 480 480])) (cameraPage m cs).


(** ** The intake form, the camera start and the screens

    The handlers and render expressions of the page that the capture flow
    above is entered through and read from. *)

Definition with_nik (v : string) (s : Page) : Page :=
  {| nik := v; method := method s; session := session s; result := result s; step := step s;
     loading := loading s; error := error s; cameraReady := cameraReady s; countdown :=
     countdown s; currentChallenge := currentChallenge s; challengeIndex := challengeIndex
     s; instruction := instruction s; faceDetected := faceDetected s; faceCount := faceCount
     s; faceDistance := faceDistance s; ovalSize := ovalSize s; borderColor := borderColor
     s; isCapturing := isCapturing s; videoRef := videoRef s; canvasRef := canvasRef s;
     detectionCanvasRef := detectionCanvasRef s; streamRef := streamRef s; framesRef :=
     framesRef s; modelRef := modelRef s; detectionIntervalRef := detectionIntervalRef s;
     now := now s; liveTracks := liveTracks s; activeIntervals := activeIntervals s;
     requests := requests s |}.

Definition with_method (v : Method) (s : Page) : Page :=
  {| nik := nik s; method := v; session := session s; result := result s; step := step s;
     loading := loading s; error := error s; cameraReady := cameraReady s; countdown :=
     countdown s; currentChallenge := currentChallenge s; challengeIndex := challengeIndex
     s; instruction := instruction s; faceDetected := faceDetected s; faceCount := faceCount
     s; faceDistance := faceDistance s; ovalSize := ovalSize s; borderColor := borderColor
     s; isCapturing := isCapturing s; videoRef := videoRef s; canvasRef := canvasRef s;
     detectionCanvasRef := detectionCanvasRef s; streamRef := streamRef s; framesRef :=
     framesRef s; modelRef := modelRef s; detectionIntervalRef := detectionIntervalRef s;
     now := now s; liveTracks := liveTracks s; activeIntervals := activeIntervals s;
     requests := requests s |}.

Definition with_loading (v : bool) (s : Page) : Page :=
  {| nik := nik s; method := method s; session := session s; result := result s; step :=
     step s; loading := v; error := error s; cameraReady := cameraReady s; countdown :=
     countdown s; currentChallenge := currentChallenge s; challengeIndex := challengeIndex
     s; instruction := instruction s; faceDetected := faceDetected s; faceCount := faceCount
     s; faceDistance := faceDistance s; ovalSize := ovalSize s; borderColor := borderColor
     s; isCapturing := isCapturing s; videoRef := videoRef s; canvasRef := canvasRef s;
     detectionCanvasRef := detectionCanvasRef s; streamRef := streamRef s; framesRef :=
     framesRef s; modelRef := modelRef s; detectionIntervalRef := detectionIntervalRef s;
     now := now s; liveTracks := liveTracks s; activeIntervals := activeIntervals s;
     requests := requests s |}.

Definition setNik (v : string) : Act unit := modify (with_nik v).
Definition setMethod (v : Method) : Act unit := modify (with_method v).
Definition setLoading (v : bool) : Act unit := modify (with_loading v).

(** *** The NIK field *)

(** The characters that the pattern [\D] does not match. *)
Definition isDigit (c : ascii) : bool :=
  (48 <=? nat_of_ascii c)%nat && (nat_of_ascii c <=? 57)%nat.

(** [value.replace(/\D/g, '')]. *)
Fixpoint stripNonDigits (value : string) : string :=
  match value with
  | EmptyString => EmptyString
  | String c rest =>
    if isDigit c then String c (stripNonDigits rest) else stripNonDigits rest
  end.

(** The change handler of the NIK input. *)
Definition onNikChange (value : string) : Act unit :=
  setNik (substring 0 16 (stripNonDigits value)).

(** The create button is disabled. *)
Definition createDisabled (s : Page) : bool :=
  loading s || negb (String.length (nik s) =? 16)%nat.

(** *** Starting the camera *)

(** What awaiting [getUserMedia] and then [play] gives: the request for
    the camera throws, or it yields a stream whose tracks are live, and
    playing it on the video element succeeds or throws. *)
Inductive CameraOutcome : Type :=
| CameraRefused
| CameraGranted (stream : MediaStream) (plays : bool).

Definition cameraError : string :=
  "Tidak dapat mengakses kamera. Pastikan izin kamera diberikan.".

(** The elements that the camera screen renders. *)
Record CameraScreen : Type := {
  screenVideo : Video;
  screenCanvas : Canvas.t;
  screenDetectionCanvas : Canvas.t
}.

(** The element a ref holds once its element is rendered: the one that is
    there already, or the one that is mounted. *)
Definition mounted {A : Type} (current : option A) (element : A) : option A :=
  match current with
  | Some e => Some e
  | None => Some element
  end.

(** React commits the render of the page. On the camera step the video
    and the two canvases are rendered, and their refs hold them; on every
    other step they are not, and the refs are cleared. *)
Definition commit (screen : CameraScreen) : Act unit :=
  modify (fun s =>
    match step s with
    | step_camera =>
      with_detectionCanvasRef
        (mounted (detectionCanvasRef s) (screenDetectionCanvas screen))
        (with_canvasRef (mounted (canvasRef s) (screenCanvas screen))
           (with_videoRef (mounted (videoRef s) (screenVideo screen)) s))
    | _ => with_detectionCanvasRef None (with_canvasRef None (with_videoRef None s))
    end).

Definition startCamera (screen : CameraScreen) (cam : CameraOutcome) : Act unit :=
  (* while the camera is awaited, the render that is pending is committed *)
  commit screen ;;
  match cam with
  | CameraRefused => setError (Some cameraError)
  | CameraGranted stream plays =>
    modify (fun s => with_liveTracks (liveTracks s ++ stream) s) ;;
    assignStream (Some stream) ;;
    s <- get ;;
    match videoRef s with
    | Some _ =>
      if plays then
        setCameraReady true ;;
        setInstruction "Posisikan wajah dalam bingkai oval" ;;
        setBorderColor white ;;
        setOvalSize (Fin 60)
      else setError (Some cameraError)
    | None => ret tt
    end
  end.

(** *** Creating the session *)

(** The body of the session request. *)
Record SessionRequest : Type := {
  req_nik : string;
  req_method : Method
}.

(** The decoded body of the session response. *)
Module SessionResponse.
Record t : Type := {
  success : bool;
  data : option LivenessSession.t;
  message : option string
}.
End SessionResponse.

(** What awaiting the session call and the decoding of its body gives. *)
Inductive SessionOutcome : Type :=
| SessionRejected (message : option string)
| SessionJson (data : SessionResponse.t).

(** The value of the action is the list of session requests it has sent. *)
Definition createSession (net : SessionOutcome) (screen : CameraScreen) (cam : CameraOutcome)
  : Act (list SessionRequest) :=
  s <- get ;;
  if String.eqb (nik s) "" || negb (String.length (nik s) =? 16)%nat then
    setError (Some "NIK harus 16 digit") ;;
    ret []
  else
    setLoading true ;;
    setError None ;;
    let request := {| req_nik := nik s; req_method := method s |} in
    (* try: the value is the message of the exception thrown, if any *)
    thrown <-
      match net with
      | SessionRejected message => ret (Some message)
      | SessionJson data =>
        if negb (SessionResponse.success data) then
          ret (Some (Some (orElse (SessionResponse.message data)
                                  "Failed to create session")))
        else
          setSession (SessionResponse.data data) ;;
          setStep step_camera ;;
          assignFrames [] ;;
          startCamera screen cam ;;
          ret None
      end ;;
    (* catch *)
    match thrown with
    | Some message => setError (Some (orElse message "Terjadi kesalahan"))
    | None => ret tt
    end ;;
    (* finally *)
    setLoading false ;;
    ret [request].

(** *** The detection loop *)

(** The effect that owns the detection interval is running. *)
Definition detectionActive (s : Page) : bool :=
  negb (match step s with step_camera => false | _ => true end
        || negb (cameraReady s) || isCapturing s).

(** *** The camera and result screens *)

Definition isSome {A : Type} (o : option A) : bool :=
  match o with
  | Some _ => true
  | None => false
  end.

(** The capture button is disabled. *)
Definition captureDisabled (s : Page) : bool :=
  negb (cameraReady s) || isSome (countdown s) || negb (faceDetected s)
  || negb (isGood (faceDistance s)) || negb (faceCount s =? 1)%nat || isCapturing s.

(** The label of the capture button. *)
Definition captureLabel (s : Page) : string :=
  if negb (cameraReady s) then "Menunggu kamera..."
  else if negb (faceDetected s) then "Tunggu wajah terdeteksi..."
  else if negb (isGood (faceDistance s)) then "Posisikan wajah dengan benar..."
  else if negb (faceCount s =? 1)%nat then "Pastikan hanya satu wajah..."
  else if isCapturing s then "Memproses..."
  else "Mulai Capture".

(** The three panels of the result screen: the error panel with its
    message, the success panel with the result it shows, the failure panel
    with its reason and the error code it shows, if any. *)
Inductive ResultPanel : Type :=
| ErrorPanel (message : string)
| SuccessPanel (r : LivenessResult.t)
| FailurePanel (reason : string) (code : option string).

Definition truthyString (a : option string) : bool :=
  match a with
  | Some v => negb (String.eqb v "")
  | None => false
  end.

Definition resultPanel (s : Page) : ResultPanel :=
  if truthyString (error s) && negb (isSome (result s)) then
    ErrorPanel (orElse (error s) "")
  else
    match result s with
    | Some r =>
      if LivenessResult.isLive r then SuccessPanel r
      else FailurePanel
             (orElse (LivenessResult.failureReason r)
                     "Wajah tidak terdeteksi sebagai orang asli")
             (if truthyString (LivenessResult.errorCode r)
              then LivenessResult.errorCode r else None)
    | None => FailurePanel "Wajah tidak terdeteksi sebagai orang asli" None
    end.

(** *** The provider and product pages *)

(** The health label of a provider score. *)
Inductive Health : Type := Excellent | GoodHealth | Fair | Poor.

(** [a >= b] on numbers. *)
Definition geb (a b : num) : bool :=
  match a, b with
  | Fin x, Fin y => Qle_bool y x
  | PInf, Fin _ => true
  | PInf, PInf => true
  | Fin _, NInf => true
  | NInf, NInf => true
  | PInf, NInf => true
  | _, _ => false
  end.

Definition getHealthStatus (score : num) : Health :=
  if geb score (Fin 95) then Excellent
  else if geb score (Fin 80) then GoodHealth
  else if geb score (Fin 60) then Fair
  else Poor.

(** The pagination state of the product list. *)
Record Pagination : Type := {
  page : Z;
  limit : Z;
  totalItems : Z;
  totalPages : Z
}.

Definition withPage (p : Z) (prev : Pagination) : Pagination :=
  {| page := p; limit := limit prev;
     totalItems := totalItems prev; totalPages := totalPages prev |}.

(** The pager is rendered. *)
Definition pagerShown (pg : Pagination) : bool := (1 <? totalPages pg)%Z.

Definition previousDisabled (pg : Pagination) : bool := (page pg <=? 1)%Z.

Definition nextDisabled (pg : Pagination) : bool := (totalPages pg <=? page pg)%Z.

(** A click on a pager button; a disabled button does not fire. *)
Definition clickPrevious (pg : Pagination) : Pagination :=
  if previousDisabled pg then pg else withPage (page pg - 1) pg.

Definition clickNext (pg : Pagination) : Pagination :=
  if nextDisabled pg then pg else withPage (page pg + 1) pg.

(** The page goes back to 1 when a filter changes or the filters are
    cleared. *)
Definition afterFilterChange (pg : Pagination) : Pagination := withPage 1 pg.

(** The reply to a fetch of the list that carries pagination data: the
    two totals are replaced, the page number and the page size stay. *)
Definition afterReply (items pages : Z) (prev : Pagination) : Pagination :=
  {| page := page prev; limit := limit prev; totalItems := items; totalPages := pages |}.

(** The two ends of the range shown: [Showing first to last of total]. *)
Definition showingFirst (pg : Pagination) : Z := ((page pg - 1) * limit pg + 1)%Z.

Definition showingLast (pg : Pagination) : Z :=
  Z.min (page pg * limit pg) (totalItems pg).

(** ** Reading the intake form and the capture runs *)

(** Every character of the string is a digit. *)
Fixpoint allDigits (value : string) : bool :=
  match value with
  | EmptyString => true
  | String c rest => isDigit c && allDigits rest
  end.

(** The capture canvas once it has taken the size of the video. *)
Definition resized (video : Video) (canvas : Canvas.t) : Canvas.t :=
  {| Canvas.width := videoWidth video;
     Canvas.height := videoHeight video;
     Canvas.context2d := Canvas.context2d canvas |}.

(** A reading of the page that the capture of a still does not affect: it
    is blind to the frame buffer, the clock and the capture canvas. *)
Definition blindToCapture {A : Type} (f : Page -> A) : Prop :=
  (forall v s, f (with_framesRef v s) = f s) /\
  (forall v s, f (with_now v s) = f s) /\
  (forall v s, f (with_canvasRef v s) = f s).

(** A reading that the prompt of a challenge does not affect either. *)
Definition blindToPrompt {A : Type} (f : Page -> A) : Prop :=
  blindToCapture f /\
  (forall v s, f (with_challengeIndex v s) = f s) /\
  (forall v s, f (with_currentChallenge v s) = f s) /\
  (forall v s, f (with_instruction v s) = f s) /\
  (forall v s, f (with_borderColor v s) = f s).

(** The page when the countdown of a capture has run out. *)
Definition afterCountdown (s : Page) : Page :=
  exec (setIsCapturing true ;;
        setInstruction "Bersiap..." ;;
        setCountdown (Some 3%nat) ;;
        countdownLoop 3 ;;
        setCountdown None) s.

(** The rank of a health label, worst first. *)
Definition healthRank (h : Health) : nat :=
  match h with
  | Poor => 0
  | Fair => 1
  | GoodHealth => 2
  | Excellent => 3
  end.

(** What acts on the pagination state: a click on one of the two buttons
    of the pager, a change of the filters, and the reply to one of the
    fetches that every change of the page number or of the filters sets
    off, with the totals that the server reports. A fetch that fails, or
    whose reply carries no pagination data, changes nothing. *)
Inductive PagerAction : Type :=
| Previous
| Next
| FilterChange
| Reply (items pages : Z).

Definition pagerStep (pg : Pagination) (a : PagerAction) : Pagination :=
  match a with
  | Previous => if pagerShown pg then clickPrevious pg else pg
  | Next => if pagerShown pg then clickNext pg else pg
  | FilterChange => afterFilterChange pg
  | Reply items pages => afterReply items pages pg
  end.

Definition isReply (a : PagerAction) : bool :=
  match a with
  | Reply _ _ => true
  | _ => false
  end.

Definition isNaN (a : num) : bool :=
  match a with
  | NaN => true
  | _ => false
  end.

(** The overlay size is a number between 60 and 85. *)
Definition ovalInRange (s : Page) : Prop :=
  exists q : Q, ovalSize s = Fin q /\ (60 <= q <= 85)%Q.

(** The order of the distance classes, from far to close. *)
Definition distanceRank (d : option Distance) : nat :=
  match d with
  | Some too_far => 0
  | Some good => 1
  | Some too_close => 2
  | None => 0
  end.

(** The session call fails: it throws, or the server answers without
    success. *)
Definition sessionFails (net : SessionOutcome) : bool :=
  match net with
  | SessionRejected _ => true
  | SessionJson data => negb (SessionResponse.success data)
  end.

(** The message the page shows when the session call fails. *)
Definition sessionErrorMessage (net : SessionOutcome) : string :=
  match net with
  | SessionRejected message => orElse message "Terjadi kesalahan"
  | SessionJson data =>
    orElse (Some (orElse (SessionResponse.message data) "Failed to create session"))
           "Terjadi kesalahan"
  end.

(** The request the page sends for its NIK and method. *)
Definition sessionRequestOf (s : Page) : SessionRequest :=
  {| req_nik := nik s; req_method := method s |}.

(** The camera comes up: the stream is granted and plays on the video. *)
Definition cameraComesUp (cam : CameraOutcome) : bool :=
  match cam with
  | CameraGranted _ plays => plays
  | CameraRefused => false
  end.

(** The error code the failure panel shows. *)
Definition shownCode (code : option string) : option string :=
  if truthyString code then code else None.

(** The page as the component first renders it, with the detector
    loaded. *)
Definition formPage : Page :=
  {| nik := "";
     method := passive;
     session := None;
     result := None;
     step := step_input;
     loading := false;
     error := None;
     cameraReady := false;
     countdown := None;
     currentChallenge := None;
     challengeIndex := 0;
     instruction := "Posisikan wajah dalam bingkai oval";
     faceDetected := false;
     faceCount := 0;
     faceDistance := None;
     ovalSize := Fin 60;
     borderColor := white;
     isCapturing := false;
     videoRef := None;
     canvasRef := None;
     detectionCanvasRef := None;
     streamRef := None;
     framesRef := [];
     modelRef := true;
     detectionIntervalRef := None;
     now := 0;
     liveTracks := [];
     activeIntervals := [];
     requests := [] |}.

(** The form after a 19-character value has been typed into its NIK
    field. *)
Definition typedPage : Page := exec (onNikChange "3275-0354-0295-0020") formPage.

(** The elements of a camera screen whose video is 1280 x 720. *)
Definition sampleScreen : CameraScreen :=
  {| screenVideo := {| videoWidth := 1280; videoHeight := 720 |};
     screenCanvas :=
       {| Canvas.width := 300; Canvas.height := 150; Canvas.context2d := true |};
     screenDetectionCanvas :=
       {| Canvas.width := 300; Canvas.height := 150; Canvas.context2d := true |} |}.

Definition sampleGrant : SessionResponse.t :=
  {| SessionResponse.success := true;
     SessionResponse.data := Some (sampleSession passive None);
     SessionResponse.message := None |}.

(** The page once the session is granted and the render of the camera
    step is committed. *)
Definition sessionStored (data : SessionResponse.t) (screen : CameraScreen) (s : Page)
  : Page :=
  exec (commit screen)
    (with_framesRef []
       (with_step step_camera
          (with_session (SessionResponse.data data)
             (with_error None (with_loading true s))))).

(** The page once the session is granted and the camera has come up. *)
Definition cameraOpened (data : SessionResponse.t) (screen : CameraScreen)
  (stream : MediaStream) (s : Page) : Page :=
  let s1 := sessionStored data screen s in
  with_loading false
    (with_ovalSize (Fin 60)
       (with_borderColor white
          (with_instruction "Posisikan wajah dalam bingkai oval"
             (with_cameraReady true
                (with_streamRef (Some stream)
                   (with_liveTracks (liveTracks s1 ++ stream) s1)))))).

(** A prediction whose box has its corner at ([x], [y]) and the size
    [bw] by [bh]. *)
Definition boxAt (x y bw bh : Q) (probability confidence : option num) : Prediction.t :=
  {| Prediction.topLeft := (Fin x, Fin y);
     Prediction.bottomRight := (Fin (x + bw), Fin (y + bh));
     Prediction.probability := probability;
     Prediction.confidence := confidence |}.

(** A run of detection ticks. *)
Fixpoint tickAll (outcomes : list Estimate) (s : Page) : Page :=
  match outcomes with
  | [] => s
  | outcome :: rest => tickAll rest (exec (detectFace outcome) s)
  end.

(** The ratio of a face that the tick sees alone is a number. *)
Definition numericRatio (w h : N) (outcome : Estimate) : bool :=
  match outcome with
  | Faces [face] => negb (isNaN (faceRatio face w h))
  | _ => true
  end.

(** A page on which a value that is too short has been typed. *)
Definition shortPage : Page := exec (onNikChange "12345") formPage.

Definition sampleRefusal : SessionResponse.t :=
  {| SessionResponse.success := false;
     SessionResponse.data := None;
     SessionResponse.message := Some "NIK tidak terdaftar" |}.

Definition samplePager : Pagination :=
  {| page := 1; limit := 20; totalItems := 45; totalPages := 3 |}.
(** ** Properties of the rounding *)

Local Open Scope Q_scope.

Lemma Qltb_true (a b : Q) : Qltb a b = true <-> a < b.
Proof.
  unfold Qltb. rewrite negb_true_iff. split.
  - intros H. apply Qnot_le_lt. intros Hle. apply Qle_bool_iff in Hle. congruence.
  - intros H. destruct (Qle_bool b a) eqn:E; [|reflexivity].
    apply Qle_bool_iff in E. exfalso. exact (Qlt_not_le _ _ H E).
Qed.

Lemma Qltb_false (a b : Q) : Qltb a b = false <-> b <= a.
Proof.
  unfold Qltb. rewrite negb_false_iff. apply Qle_bool_iff.
Qed.

Module Binary64Facts.

Import Binary64.

Lemma pow2_pos (e : Z) : 0 < pow2 e.
Proof. apply Qpower_0_lt. reflexivity. Qed.

Lemma pow2_add (a b : Z) : pow2 (a + b) == pow2 a * pow2 b.
Proof. apply Qpower_plus. discriminate. Qed.

Lemma pow2_le (a b : Z) : (a <= b)%Z -> pow2 a <= pow2 b.
Proof. intros H. apply Qpower_le_compat_l; [exact H | discriminate]. Qed.

Lemma pow2_lt (a b : Z) : (a < b)%Z -> pow2 a < pow2 b.
Proof. intros H. apply Qpower_lt_compat_l; [exact H | reflexivity]. Qed.

Lemma pow2_lt_inv (a b : Z) : pow2 a < pow2 b -> (a < b)%Z.
Proof. intros H. apply (Qpower_lt_compat_l_inv 2); [exact H | reflexivity]. Qed.

Lemma pow2_nonneg (a : Z) : (0 <= a)%Z -> pow2 a == inject_Z (2 ^ a).
Proof. intros H. unfold pow2. symmetry. exact (Zpower_Qpower 2 a H). Qed.

Lemma pow2_sub (a b : Z) :
  (0 <= a)%Z -> (0 <= b)%Z -> pow2 (a - b) == inject_Z (2 ^ a) / inject_Z (2 ^ b).
Proof.
  intros Ha Hb. rewrite <- (pow2_nonneg a Ha), <- (pow2_nonneg b Hb).
  unfold pow2. apply Qpower_minus. discriminate.
Qed.

Lemma binade_spec (x : Q) : 0 < x -> pow2 (binade x) <= x /\ x < pow2 (binade x + 1).
Proof.
  intros Hx. destruct x as [n d]. unfold binade. cbn [Qnum Qden].
  assert (Hn : (0 < n)%Z) by (unfold Qlt in Hx; cbn in Hx; lia).
  pose proof (Z.log2_spec n Hn) as [Hn1 Hn2].
  pose proof (Z.log2_spec (Zpos d) (Pos2Z.is_pos d)) as [Hd1 Hd2].
  pose proof (Z.log2_nonneg n) as Ha. pose proof (Z.log2_nonneg (Zpos d)) as Hb.
  set (a := Z.log2 n) in *. set (b := Z.log2 (Zpos d)) in *.
  assert (HA : (0 < 2 ^ a)%Z) by (apply Z.pow_pos_nonneg; lia).
  assert (HB : (0 < 2 ^ b)%Z) by (apply Z.pow_pos_nonneg; lia).
  assert (Hup : n # d < pow2 (a - b + 1)).
  { replace (a - b + 1)%Z with (Z.succ a - b)%Z by lia.
    rewrite pow2_sub by lia.
    apply Qlt_shift_div_l; [unfold Qlt, inject_Z; cbn [Qnum Qden]; lia|].
    unfold Qlt, Qmult, inject_Z; cbn [Qnum Qden]. nia. }
  assert (Hlo : pow2 (a - b - 1) <= n # d).
  { replace (a - b - 1)%Z with (a - Z.succ b)%Z by lia.
    rewrite pow2_sub by lia.
    apply Qle_shift_div_r; [unfold Qlt, inject_Z; cbn [Qnum Qden]; lia|].
    unfold Qle, Qmult, inject_Z; cbn [Qnum Qden]. nia. }
  destruct (Qltb (n # d) (pow2 (a - b))) eqn:E.
  - apply Qltb_true in E. replace (a - b - 1 + 1)%Z with (a - b)%Z by lia.
    split; [exact Hlo | exact E].
  - apply Qltb_false in E. split; [exact E | exact Hup].
Qed.

Lemma binade_unique (x : Q) (e : Z) :
  0 < x -> pow2 e <= x -> x < pow2 (e + 1) -> binade x = e.
Proof.
  intros Hx Hlo Hup. destruct (binade_spec x Hx) as [Blo Bup].
  assert (H1 : (e < binade x + 1)%Z)
    by (apply pow2_lt_inv; eapply Qle_lt_trans; eassumption).
  assert (H2 : (binade x < e + 1)%Z)
    by (apply pow2_lt_inv; eapply Qle_lt_trans; eassumption).
  lia.
Qed.

Lemma binade_le (x y : Q) : 0 < x -> x <= y -> (binade x <= binade y)%Z.
Proof.
  intros Hx Hxy.
  assert (Hy : 0 < y) by (eapply Qlt_le_trans; eassumption).
  destruct (binade_spec x Hx) as [Xlo _]. destruct (binade_spec y Hy) as [_ Yup].
  assert (H : (binade x < binade y + 1)%Z).
  { apply pow2_lt_inv. eapply Qle_lt_trans; [exact Xlo|].
    eapply Qle_lt_trans; eassumption. }
  lia.
Qed.

Lemma binade_comp (x y : Q) : 0 < x -> x == y -> binade x = binade y.
Proof.
  intros Hx Hxy. assert (Hy : 0 < y) by (rewrite <- Hxy; exact Hx).
  destruct (binade_spec y Hy) as [Ylo Yup].
  apply binade_unique; [exact Hx | rewrite Hxy; exact Ylo | rewrite Hxy; exact Yup].
Qed.

Lemma nearestEven_floor (x : Q) : (Qfloor x <= nearestEven x <= Qfloor x + 1)%Z.
Proof.
  unfold nearestEven.
  destruct (Qcompare (x - inject_Z (Qfloor x)) (1 # 2)); [destruct (Z.even (Qfloor x))| |]; lia.
Qed.

Lemma nearestEven_Z (n : Z) : nearestEven (inject_Z n) = n.
Proof.
  unfold nearestEven. rewrite Qfloor_Z.
  destruct (Qcompare_spec (inject_Z n - inject_Z n) (1 # 2)) as [H|H|H].
  - exfalso. lra.
  - reflexivity.
  - exfalso. lra.
Qed.

Lemma nearestEven_comp (x y : Q) : x == y -> nearestEven x = nearestEven y.
Proof.
  intros H. unfold nearestEven. rewrite (Qfloor_comp x y H).
  assert (E : x - inject_Z (Qfloor y) == y - inject_Z (Qfloor y)) by (rewrite H; reflexivity).
  rewrite (Qcompare_comp _ _ E _ _ (Qeq_refl (1 # 2))). reflexivity.
Qed.

Lemma nearestEven_mono (x y : Q) : x <= y -> (nearestEven x <= nearestEven y)%Z.
Proof.
  intros H. pose proof (Qfloor_resp_le x y H) as Hf.
  pose proof (nearestEven_floor x) as Bx. pose proof (nearestEven_floor y) as By.
  destruct (Z.eq_dec (Qfloor x) (Qfloor y)) as [E|E]; [|lia].
  unfold nearestEven in *. rewrite E in *.
  destruct (Qcompare_spec (x - inject_Z (Qfloor y)) (1 # 2)) as [Hx|Hx|Hx];
    destruct (Qcompare_spec (y - inject_Z (Qfloor y)) (1 # 2)) as [Hy|Hy|Hy];
    try lia; try (exfalso; lra); destruct (Z.even (Qfloor y)); lia.
Qed.

Lemma nearestEven_upper (x : Q) (n : Z) : x <= inject_Z n -> (nearestEven x <= n)%Z.
Proof. intros H. rewrite <- (nearestEven_Z n). apply nearestEven_mono, H. Qed.

Lemma nearestEven_lower (x : Q) (n : Z) : inject_Z n <= x -> (n <= nearestEven x)%Z.
Proof. intros H. rewrite <- (nearestEven_Z n). apply nearestEven_mono, H. Qed.

Lemma ulp_pos (x : Q) : 0 < ulp x.
Proof. apply pow2_pos. Qed.

Lemma grid_upper (x : Q) (k : Z) : x <= inject_Z k * ulp x -> grid x <= inject_Z k * ulp x.
Proof.
  intros H. unfold grid. apply Qmult_le_compat_r; [|apply Qlt_le_weak, ulp_pos].
  rewrite <- Zle_Qle. apply nearestEven_upper.
  apply Qle_shift_div_r; [apply ulp_pos | exact H].
Qed.

Lemma grid_lower (x : Q) (k : Z) : inject_Z k * ulp x <= x -> inject_Z k * ulp x <= grid x.
Proof.
  intros H. unfold grid. apply Qmult_le_compat_r; [|apply Qlt_le_weak, ulp_pos].
  rewrite <- Zle_Qle. apply nearestEven_lower.
  apply Qle_shift_div_l; [apply ulp_pos | exact H].
Qed.

Lemma grid_nonneg (x : Q) : 0 <= x -> 0 <= grid x.
Proof.
  intros H. assert (E : 0 == inject_Z 0 * ulp x) by ring.
  rewrite E. apply grid_lower. rewrite <- E. exact H.
Qed.

Lemma pow2_split (e : Z) (k : Z) : (0 <= k)%Z -> pow2 (e - 52 + k) == inject_Z (2 ^ k) * pow2 (e - 52).
Proof.
  intros Hk. rewrite pow2_add, (pow2_nonneg k Hk). ring.
Qed.

Lemma grid_mono (x y : Q) : 0 < x -> x <= y -> grid x <= grid y.
Proof.
  intros Hx Hxy.
  assert (Hy : 0 < y) by (eapply Qlt_le_trans; eassumption).
  pose proof (binade_le x y Hx Hxy) as Hb.
  destruct (binade_spec x Hx) as [_ Xup]. destruct (binade_spec y Hy) as [Ylo _].
  destruct (Z.eq_dec (Z.max (binade x) (-1022)) (Z.max (binade y) (-1022))) as [E|E].
  - unfold grid, ulp. rewrite E.
    apply Qmult_le_compat_r; [|apply Qlt_le_weak, pow2_pos].
    rewrite <- Zle_Qle. apply nearestEven_mono.
    apply Qmult_le_compat_r; [exact Hxy|].
    apply Qlt_le_weak, Qinv_lt_0_compat, pow2_pos.
  - set (ex := Z.max (binade x) (-1022)) in *.
    assert (Ey : Z.max (binade y) (-1022) = binade y) by lia.
    assert (Hlt : (ex + 1 <= binade y)%Z) by lia.
    apply Qle_trans with (pow2 (ex + 1)).
    + assert (S : pow2 (ex + 1) == inject_Z (2 ^ 53) * ulp x).
      { unfold ulp. fold ex. rewrite <- pow2_split by lia. 
        replace (ex - 52 + 53)%Z with (ex + 1)%Z by lia. reflexivity. }
      rewrite S. apply grid_upper. rewrite <- S.
      apply Qlt_le_weak. eapply Qlt_le_trans; [exact Xup|]. apply pow2_le. lia.
    + apply Qle_trans with (pow2 (binade y)); [apply pow2_le; exact Hlt|].
      assert (S : pow2 (binade y) == inject_Z (2 ^ 52) * ulp y).
      { unfold ulp. rewrite Ey. rewrite <- pow2_split by lia.
        replace (binade y - 52 + 52)%Z with (binade y) by lia. reflexivity. }
      rewrite S. apply grid_lower. rewrite <- S. exact Ylo.
Qed.

Lemma roundPos_mono (x y : Q) : 0 < x -> x <= y -> leq (roundPos x) (roundPos y).
Proof.
  intros Hx Hxy. pose proof (grid_mono x y Hx Hxy) as G.
  unfold roundPos. fold (grid x). fold (grid y).
  destruct (Qle_bool (pow2 1024) (Qred (grid x))) eqn:Ex;
    destruct (Qle_bool (pow2 1024) (Qred (grid y))) eqn:Ey; unfold leq; trivial.
  - apply Qle_bool_iff in Ex. rewrite Qred_correct in Ex.
    assert (Hy : pow2 1024 <= Qred (grid y))
      by (rewrite Qred_correct; eapply Qle_trans; eassumption).
    apply Qle_bool_iff in Hy. congruence.
  - rewrite !Qred_correct. exact G.
Qed.

Lemma roundPos_nonneg (x : Q) : 0 < x -> leq (Fin 0) (roundPos x).
Proof.
  intros Hx. unfold roundPos. fold (grid x).
  destruct (Qle_bool (pow2 1024) (Qred (grid x))); unfold leq; trivial.
  rewrite Qred_correct. apply grid_nonneg, Qlt_le_weak, Hx.
Qed.

Lemma leq_opp (a b : num) : leq a b -> leq (opp b) (opp a).
Proof.
  destruct a, b; cbn [opp leq]; trivial. intros H. lra.
Qed.

Lemma leq_trans (a b c : num) : leq a b -> leq b c -> leq a c.
Proof.
  destruct a, b, c; cbn [leq]; trivial; try contradiction. intros; lra.
Qed.

Lemma leq_refl_round (x : Q) : leq (round x) (round x).
Proof.
  unfold round. destruct (Qcompare x 0).
  - unfold leq. lra.
  - unfold roundPos. destruct (Qle_bool _ _); unfold opp, leq; trivial; lra.
  - unfold roundPos. destruct (Qle_bool _ _); unfold leq; trivial; lra.
Qed.

Lemma round_mono (x y : Q) : x <= y -> leq (round x) (round y).
Proof.
  intros H. unfold round.
  destruct (Qcompare_spec x 0) as [Hx|Hx|Hx]; destruct (Qcompare_spec y 0) as [Hy|Hy|Hy];
    try (exfalso; lra).
  - unfold leq. lra.
  - apply roundPos_nonneg, Hy.
  - apply (leq_opp (Fin 0)), roundPos_nonneg. lra.
  - apply leq_opp, roundPos_mono; lra.
  - apply leq_trans with (Fin 0).
    + apply (leq_opp (Fin 0)), roundPos_nonneg. lra.
    + apply roundPos_nonneg, Hy.
  - apply roundPos_mono; assumption.
Qed.

Lemma round_between (lo x hi a b : Q) :
  lo <= x -> x <= hi -> round lo = Fin a -> round hi = Fin b ->
  exists q, round x = Fin q /\ a <= q /\ q <= b.
Proof.
  intros H1 H2 Ea Eb.
  pose proof (round_mono lo x H1) as L1. pose proof (round_mono x hi H2) as L2.
  rewrite Ea in L1. rewrite Eb in L2.
  destruct (round x) as [q| | |]; cbn [leq] in L1, L2; try contradiction.
  exists q. auto.
Qed.

Lemma round_fin_mono (x y a b : Q) :
  x <= y -> round x = Fin a -> round y = Fin b -> a <= b.
Proof.
  intros H Ea Eb. pose proof (round_mono x y H) as L. rewrite Ea, Eb in L. exact L.
Qed.

Lemma roundPos_comp (x y : Q) : 0 < x -> x == y -> roundPos x = roundPos y.
Proof.
  intros Hx E. unfold roundPos, grid, ulp. rewrite (binade_comp x y Hx E).
  set (u := pow2 (Z.max (binade y) (-1022) - 52)).
  rewrite (nearestEven_comp (x / u) (y / u)) by (rewrite E; reflexivity).
  reflexivity.
Qed.

Lemma round_comp (x y : Q) : x == y -> round x = round y.
Proof.
  intros E. unfold round. rewrite (Qcompare_comp x y E 0 0 (Qeq_refl 0)).
  destruct (Qcompare_spec y 0) as [Hy|Hy|Hy].
  - reflexivity.
  - rewrite (roundPos_comp (- x) (- y)); [reflexivity | lra | rewrite E; reflexivity].
  - apply roundPos_comp; [lra | exact E].
Qed.

(** The distance between a number and what it is rounded to. *)
Lemma nearestEven_close (t : Q) :
  - (1 # 2) <= inject_Z (nearestEven t) - t <= 1 # 2.
Proof.
  pose proof (Qfloor_le t) as Hlo. pose proof (Qlt_floor t) as Hhi.
  rewrite inject_Z_plus in Hhi. change (inject_Z 1) with 1 in Hhi.
  unfold nearestEven.
  destruct (Qcompare_spec (t - inject_Z (Qfloor t)) (1 # 2)) as [H|H|H].
  - destruct (Z.even (Qfloor t)).
    + split; lra.
    + rewrite inject_Z_plus. change (inject_Z 1) with 1. split; lra.
  - split; lra.
  - rewrite inject_Z_plus. change (inject_Z 1) with 1. split; lra.
Qed.

Lemma grid_close (x : Q) : - (ulp x * (1 # 2)) <= grid x - x <= ulp x * (1 # 2).
Proof.
  pose proof (ulp_pos x) as Hu. pose proof (nearestEven_close (x / ulp x)) as [Hlo Hhi].
  assert (E : grid x - x == (inject_Z (nearestEven (x / ulp x)) - x / ulp x) * ulp x).
  { unfold grid. field. intros F. rewrite F in Hu. exact (Qlt_irrefl 0 Hu). }
  rewrite E. set (d := inject_Z (nearestEven (x / ulp x)) - x / ulp x) in *.
  split.
  - assert (H : - (1 # 2) * ulp x <= d * ulp x)
      by (apply Qmult_le_compat_r; [exact Hlo | apply Qlt_le_weak, Hu]).
    lra.
  - assert (H : d * ulp x <= (1 # 2) * ulp x)
      by (apply Qmult_le_compat_r; [exact Hhi | apply Qlt_le_weak, Hu]).
    lra.
Qed.

Lemma ulp_bound (x : Q) (k : Z) :
  0 < x -> x < pow2 k -> (-1021 <= k)%Z -> ulp x * (1 # 2) <= pow2 (k - 54).
Proof.
  intros Hx Hk Hmin. destruct (binade_spec x Hx) as [Blo _].
  assert (Hb : (binade x < k)%Z)
    by (apply pow2_lt_inv; eapply Qle_lt_trans; eassumption).
  assert (H : ulp x <= pow2 (k - 53)) by (apply pow2_le; lia).
  assert (S : pow2 (k - 53) == 2 * pow2 (k - 54)).
  { replace (k - 53)%Z with (1 + (k - 54))%Z by lia. rewrite pow2_add. reflexivity. }
  lra.
Qed.

Lemma roundPos_close (x q : Q) (k : Z) :
  0 < x -> x < pow2 k -> (-1021 <= k)%Z -> roundPos x = Fin q ->
  - pow2 (k - 54) <= q - x <= pow2 (k - 54).
Proof.
  intros Hx Hk Hmin. unfold roundPos.
  destruct (Qle_bool (pow2 1024) (Qred (grid x))); [discriminate|].
  intros E. assert (Eq : Qred (grid x) = q) by congruence. rewrite <- Eq.
  pose proof (Qred_correct (grid x)) as R.
  pose proof (grid_close x) as [Hlo Hhi]. pose proof (ulp_bound x k Hx Hk Hmin) as Hu.
  split; lra.
Qed.

Lemma round_close (x q : Q) (k : Z) :
  - pow2 k < x -> x < pow2 k -> (-1021 <= k)%Z -> round x = Fin q ->
  - pow2 (k - 54) <= q - x <= pow2 (k - 54).
Proof.
  intros Hlo Hhi Hmin. pose proof (pow2_pos (k - 54)) as Hp. unfold round.
  destruct (Qcompare_spec x 0) as [Hx|Hx|Hx].
  - intros E. injection E as <-. split; lra.
  - destruct (roundPos (- x)) as [y| | |] eqn:Ey; cbn [opp]; try discriminate.
    intros E. injection E as <-.
    destruct (roundPos_close (- x) y k) as [H1 H2]; [lra | lra | exact Hmin | exact Ey |].
    split; lra.
  - intros E. apply (roundPos_close x q k); assumption.
Qed.

End Binary64Facts.

(** ** Properties of the guidance engine *)

Arguments faceRatio : simpl never.
Arguments Num.ltb : simpl never.
Arguments Num.gtb : simpl never.
Arguments Num.add : simpl never.
Arguments Num.sub : simpl never.
Arguments Num.mul : simpl never.
Arguments Num.div : simpl never.
Arguments Num.lit : simpl never.
Arguments Num.of_N : simpl never.
Arguments Binary64.round : simpl never.

(** Splits [frameSize s = Some (w, h)] into what the tick reads. *)
Ltac detector_ready H :=
  unfold frameSize in H;
  match type of H with
  | context [videoRef ?s] =>
    destruct (videoRef s) as [?video|] eqn:?; [|discriminate H];
    destruct (modelRef s) eqn:?; [|discriminate H];
    destruct (detectionCanvasRef s) as [?canvas|] eqn:?; [|discriminate H];
    destruct (Canvas.context2d canvas) eqn:?; [|discriminate H];
    injection H as <- <-
  end.

Ltac run_detectFace H :=
  unfold exec, detectFace, bind, get; detector_ready H; cbn.

Lemma detectFace_none (s : Page) (outcome : Estimate) :
  frameSize s = None -> exec (detectFace outcome) s = s.
Proof.
  intros H. unfold exec, detectFace, bind, get, frameSize in *.
  destruct (videoRef s); [|reflexivity].
  destruct (modelRef s); [|reflexivity].
  destruct (detectionCanvasRef s) as [canvas|]; [|reflexivity].
  destruct (Canvas.context2d canvas); [discriminate H|reflexivity].
Qed.

Lemma detectFace_throws (s : Page) [w h : N] :
  frameSize s = Some (w, h) -> exec (detectFace Throws) s = sampled w h s.
Proof. intros H. run_detectFace H. reflexivity. Qed.

Lemma detectFace_zero (s : Page) [w h : N] :
  frameSize s = Some (w, h) ->
  exec (detectFace (Faces [])) s =
  with_faceDistance None (with_faceCount 0 (with_faceDetected false (sampled w h s))).
Proof. intros H. run_detectFace H. reflexivity. Qed.

Lemma detectFace_many (s : Page) [w h : N] (predictions : list Prediction.t) :
  frameSize s = Some (w, h) ->
  (1 < List.length predictions)%nat ->
  exec (detectFace (Faces predictions)) s =
  with_instruction "Pastikan hanya satu wajah dalam bingkai"
    (with_borderColor red (with_faceCount (List.length predictions) (sampled w h s))).
Proof.
  intros H Hn. run_detectFace H.
  destruct predictions as [|p1 [|p2 rest]]; cbn in Hn; try lia.
  reflexivity.
Qed.

Lemma detectFace_too_far (s : Page) [w h : N] (face : Prediction.t) :
  frameSize s = Some (w, h) ->
  (faceRatio face w h <? Num.lit 0.15)%num = true ->
  exec (detectFace (Faces [face])) s =
  with_ovalSize (Fin 60)
    (with_faceDistance (Some too_far)
      (with_faceCount 1
        (with_faceDetected true
          (with_borderColor white
            (with_instruction "Terlalu jauh, dekatkan wajah Anda" (sampled w h s)))))).
Proof. intros H Hr. run_detectFace H. rewrite Hr. reflexivity. Qed.

Lemma detectFace_too_close (s : Page) [w h : N] (face : Prediction.t) :
  frameSize s = Some (w, h) ->
  (faceRatio face w h <? Num.lit 0.15)%num = false ->
  (faceRatio face w h >? Num.lit 0.35)%num = true ->
  exec (detectFace (Faces [face])) s =
  with_ovalSize (Fin 85)
    (with_faceDistance (Some too_close)
      (with_faceCount 1
        (with_faceDetected true
          (with_borderColor white
            (with_instruction "Terlalu dekat, mundur sedikit" (sampled w h s)))))).
Proof. intros H Hr Hr'. run_detectFace H. rewrite Hr, Hr'. reflexivity. Qed.

Lemma detectFace_good (s : Page) [w h : N] (face : Prediction.t) :
  frameSize s = Some (w, h) ->
  (faceRatio face w h <? Num.lit 0.15)%num = false ->
  (faceRatio face w h >? Num.lit 0.35)%num = false ->
  exec (detectFace (Faces [face])) s =
  with_ovalSize (overlayOf (faceRatio face w h))
    (with_faceDistance (Some good)
      (with_faceCount 1
        (with_faceDetected true
          (with_borderColor green
            (with_instruction "Wajah terdeteksi" (sampled w h s)))))).
Proof. intros H Hr Hr'. run_detectFace H. rewrite Hr, Hr'. reflexivity. Qed.

(** The literals of the guidance. *)
Lemma lit_0_15 : Num.lit 0.15 = Fin bandLow.
Proof. vm_compute. reflexivity. Qed.

Lemma lit_0_35 : Num.lit 0.35 = Fin bandHigh.
Proof. vm_compute. reflexivity. Qed.

Lemma lit_0_2 : Num.lit 0.2 = Fin bandWidth.
Proof. vm_compute. reflexivity. Qed.

Lemma inBand_finite (r : Q) : inBand (Fin r) = true <-> bandLow <= r <= bandHigh.
Proof.
  unfold inBand. rewrite lit_0_15, lit_0_35, andb_true_iff. cbn [Num.leb].
  rewrite !Qle_bool_iff. reflexivity.
Qed.

Lemma inBand_tests (a : num) :
  inBand a = true -> (a <? Num.lit 0.15)%num = false /\ (a >? Num.lit 0.35)%num = false.
Proof.
  unfold inBand, Num.gtb, Num.ltb. rewrite lit_0_15, lit_0_35.
  destruct a as [r| | |]; cbn [Num.leb]; try discriminate.
  rewrite andb_true_iff, !Qle_bool_iff. intros [Hlo Hhi].
  split; apply Qltb_false; assumption.
Qed.

(** The formula at a finite ratio, one rounded operation after the
    other. *)
Lemma overlayOf_steps (r t1 t2 t3 : Q) :
  Binary64.round (r + - bandLow) = Fin t1 ->
  Binary64.round (t1 / bandWidth) = Fin t2 ->
  Binary64.round (t2 * 25) = Fin t3 ->
  overlayOf (Fin r) = Binary64.round (60 + t3).
Proof.
  intros E1 E2 E3. unfold overlayOf. rewrite lit_0_15, lit_0_2.
  change (Fin r - Fin bandLow)%num with (Binary64.round (r + - bandLow)). rewrite E1.
  change (Fin t1 / Fin bandWidth)%num with (Binary64.round (t1 / bandWidth)). rewrite E2.
  change (Fin t2 * Fin 25)%num with (Binary64.round (t2 * 25)). rewrite E3.
  reflexivity.
Qed.

(** The intermediate results of the formula for a ratio in the band. *)
Lemma overlayOf_chain (r : Q) :
  bandLow <= r <= bandHigh ->
  exists t1 t2 t3 q : Q,
    Binary64.round (r + - bandLow) = Fin t1 /\
    Binary64.round (t1 / bandWidth) = Fin t2 /\
    Binary64.round (t2 * 25) = Fin t3 /\
    Binary64.round (60 + t3) = Fin q /\
    (0 <= t1 <= bandSpan) /\ (0 <= t2 <= bandShare) /\ (0 <= t3 <= bandRise) /\
    (60 <= q <= 85).
Proof.
  intros [Hlo Hhi].
  destruct (Binary64Facts.round_between (bandLow + - bandLow) (r + - bandLow)
              (bandHigh + - bandLow) 0 bandSpan) as [t1 [E1 B1]];
    [lra | lra | vm_compute; reflexivity | vm_compute; reflexivity |].
  assert (Hw : 0 <= / bandWidth) by (vm_compute; discriminate).
  destruct (Binary64Facts.round_between (0 / bandWidth) (t1 / bandWidth)
              (bandSpan / bandWidth) 0 bandShare) as [t2 [E2 B2]];
    [apply Qmult_le_compat_r; [lra | exact Hw]
    |apply Qmult_le_compat_r; [lra | exact Hw]
    |vm_compute; reflexivity | vm_compute; reflexivity |].
  destruct (Binary64Facts.round_between (0 * 25) (t2 * 25) (bandShare * 25) 0 bandRise)
    as [t3 [E3 B3]];
    [lra | lra | vm_compute; reflexivity | vm_compute; reflexivity |].
  destruct (Binary64Facts.round_between (60 + 0) (60 + t3) (60 + bandRise) 60 85)
    as [q [E4 B4]];
    [lra | lra | vm_compute; reflexivity | vm_compute; reflexivity |].
  exists t1, t2, t3, q. repeat split; try assumption; lra.
Qed.

(** For a ratio in the band the formula gives a number between 60 and
    85. *)
Lemma overlayOf_bounds (r : Q) :
  bandLow <= r <= bandHigh -> exists q : Q, overlayOf (Fin r) = Fin q /\ 60 <= q <= 85.
Proof.
  intros H. destruct (overlayOf_chain r H) as [t1 [t2 [t3 [q [E1 [E2 [E3 [E4 [_ [_ [_ B]]]]]]]]]]].
  exists q. split; [|exact B]. rewrite (overlayOf_steps r t1 t2 t3 E1 E2 E3). exact E4.
Qed.

(** And it never decreases when the ratio grows. *)
Lemma overlayOf_mono (r1 r2 q1 q2 : Q) :
  bandLow <= r1 -> r1 <= r2 -> r2 <= bandHigh ->
  overlayOf (Fin r1) = Fin q1 -> overlayOf (Fin r2) = Fin q2 -> q1 <= q2.
Proof.
  intros Hlo Hle Hhi.
  destruct (overlayOf_chain r1) as [a1 [a2 [a3 [a [A1 [A2 [A3 [A4 _]]]]]]]]; [split; lra|].
  destruct (overlayOf_chain r2) as [b1 [b2 [b3 [b [B1 [B2 [B3 [B4 _]]]]]]]]; [split; lra|].
  rewrite (overlayOf_steps r1 a1 a2 a3 A1 A2 A3), (overlayOf_steps r2 b1 b2 b3 B1 B2 B3), A4, B4.
  intros Q1 Q2. injection Q1 as <-. injection Q2 as <-.
  assert (H1 : a1 <= b1)
    by (apply (Binary64Facts.round_fin_mono (r1 + - bandLow) (r2 + - bandLow)); [lra|assumption..]).
  assert (Hw : 0 <= / bandWidth) by (vm_compute; discriminate).
  assert (H2 : a2 <= b2)
    by (apply (Binary64Facts.round_fin_mono (a1 / bandWidth) (b1 / bandWidth));
        [apply Qmult_le_compat_r; assumption | assumption..]).
  assert (H3 : a3 <= b3)
    by (apply (Binary64Facts.round_fin_mono (a2 * 25) (b2 * 25)); [lra|assumption..]).
  apply (Binary64Facts.round_fin_mono (60 + a3) (60 + b3)); [lra|assumption..].
Qed.

Lemma overlayFor_eq (r : Q) : overlayFor r == 125 * r + (165 # 4).
Proof. unfold overlayFor. field. Qed.

(** The rounded formula stays within 10^-13 of the exact one. *)
Lemma overlayOf_near_formula (r q : Q) :
  bandLow <= r <= bandHigh -> overlayOf (Fin r) = Fin q ->
  - (1 # 10000000000000) <= q - overlayFor r <= 1 # 10000000000000.
Proof.
  intros H Hq.
  destruct (overlayOf_chain r H)
    as [t1 [t2 [t3 [q' [E1 [E2 [E3 [E4 [B1 [B2 [B3 B4]]]]]]]]]]].
  rewrite (overlayOf_steps r t1 t2 t3 E1 E2 E3), E4 in Hq.
  assert (Eq : q' = q) by congruence. subst q'.
  assert (D : forall t, t / bandWidth == t * (18014398509481984 # 3602879701896397))
    by (intros t; reflexivity).
  rewrite (Binary64Facts.round_comp _ _ (D t1)) in E2. clear D.
  assert (X1 : - Binary64.pow2 (-2) < r + - bandLow /\ r + - bandLow < Binary64.pow2 (-2))
    by (change (Binary64.pow2 (-2)) with (1 # 4); unfold bandLow, bandHigh in *; split; lra).
  assert (X2 : - Binary64.pow2 1 < t1 * (18014398509481984 # 3602879701896397) /\
               t1 * (18014398509481984 # 3602879701896397) < Binary64.pow2 1)
    by (change (Binary64.pow2 1) with 2; unfold bandSpan in *; split; lra).
  assert (X3 : - Binary64.pow2 5 < t2 * 25 /\ t2 * 25 < Binary64.pow2 5)
    by (change (Binary64.pow2 5) with 32; unfold bandShare in *; split; lra).
  assert (X4 : - Binary64.pow2 7 < 60 + t3 /\ 60 + t3 < Binary64.pow2 7)
    by (change (Binary64.pow2 7) with 128; unfold bandRise in *; split; lra).
  destruct (Binary64Facts.round_close _ _ (-2) (proj1 X1) (proj2 X1) ltac:(lia) E1) as [L1 U1].
  destruct (Binary64Facts.round_close _ _ 1 (proj1 X2) (proj2 X2) ltac:(lia) E2) as [L2 U2].
  destruct (Binary64Facts.round_close _ _ 5 (proj1 X3) (proj2 X3) ltac:(lia) E3) as [L3 U3].
  destruct (Binary64Facts.round_close _ _ 7 (proj1 X4) (proj2 X4) ltac:(lia) E4) as [L4 U4].
  clear X1 X2 X3 X4 E1 E2 E3 E4.
  unfold bandLow, bandHigh, bandSpan, bandShare, bandRise in *.
  change (Binary64.pow2 (-2 - 54)) with (1 # 72057594037927936) in L1, U1.
  change (Binary64.pow2 (1 - 54)) with (1 # 9007199254740992) in L2, U2.
  change (Binary64.pow2 (5 - 54)) with (1 # 562949953421312) in L3, U3.
  change (Binary64.pow2 (7 - 54)) with (1 # 140737488355328) in L4, U4.
  rewrite overlayFor_eq. split; lra.
Qed.

(** The formula reads the ratio as a number, not as a fraction. *)
Lemma overlayOf_comp (r r' : Q) : r == r' -> overlayOf (Fin r) = overlayOf (Fin r').
Proof.
  intros E. unfold overlayOf. rewrite lit_0_15.
  change (Fin r - Fin bandLow)%num with (Binary64.round (r + - bandLow)).
  change (Fin r' - Fin bandLow)%num with (Binary64.round (r' + - bandLow)).
  rewrite (Binary64Facts.round_comp (r + - bandLow) (r' + - bandLow)); [reflexivity|].
  rewrite E. reflexivity.
Qed.

(** One tick with one face whose ratio is in the good band. *)
Lemma detectFace_in_band (s : Page) [w h : N] (face : Prediction.t) :
  frameSize s = Some (w, h) ->
  inBand (faceRatio face w h) = true ->
  let s' := exec (detectFace (Faces [face])) s in
  faceDistance s' = Some good /\
  ovalSize s' = overlayOf (faceRatio face w h).
Proof.
  intros H Hb. cbv zeta. destruct (inBand_tests _ Hb) as [Hlo Hhi].
  rewrite (detectFace_good s face H Hlo Hhi). split; reflexivity.
Qed.

(** C1. A tick that sees exactly one face whose ratio lies in
    [0.15, 0.35] classifies the distance as good and sets the overlay size
    to [60 + ((faceRatio - 0.15) / 0.20) * 25]. The page evaluates the
    formula as it evaluates every number, in binary64, and the result is
    within 10^-13 of the exact value of the formula. Of two such ticks,
    the one with the larger ratio never gets the smaller overlay; the
    overlay stays within [60, 85]; and a ratio of 0.25 gives exactly
    72.5. *)
Theorem detectFace_good_overlay :
  forall (s1 s2 : Page) (w1 h1 w2 h2 : N) (face1 face2 : Prediction.t) (r1 r2 : Q),
    frameSize s1 = Some (w1, h1) ->
    frameSize s2 = Some (w2, h2) ->
    faceRatio face1 w1 h1 = Fin r1 ->
    faceRatio face2 w2 h2 = Fin r2 ->
    inBand (Fin r1) = true -> inBand (Fin r2) = true -> r1 <= r2 ->
    let s1' := exec (detectFace (Faces [face1])) s1 in
    let s2' := exec (detectFace (Faces [face2])) s2 in
    exists q1 q2 : Q,
      faceDistance s1' = Some good /\ ovalSize s1' = Fin q1 /\
      faceDistance s2' = Some good /\ ovalSize s2' = Fin q2 /\
      Fin q1 = overlayOf (Fin r1) /\
      Fin q2 = overlayOf (Fin r2) /\
      - (1 # 10000000000000) <= q1 - (60 + ((r1 - 0.15) / 0.20) * 25) <= 1 # 10000000000000 /\
      - (1 # 10000000000000) <= q2 - (60 + ((r2 - 0.15) / 0.20) * 25) <= 1 # 10000000000000 /\
      60 <= q1 /\ q1 <= q2 /\ q2 <= 85 /\
      (r1 == 0.25 -> q1 == 72.5).
Proof.
  intros s1 s2 w1 h1 w2 h2 face1 face2 r1 r2 H1 H2 Hr1 Hr2 Hb1 Hb2 Hle.
  assert (B1 := proj1 (inBand_finite r1) Hb1). assert (B2 := proj1 (inBand_finite r2) Hb2).
  destruct (overlayOf_bounds r1 B1) as [q1 [Hq1 R1]].
  destruct (overlayOf_bounds r2 B2) as [q2 [Hq2 R2]].
  rewrite <- Hr1 in Hb1. rewrite <- Hr2 in Hb2.
  destruct (detectFace_in_band s1 face1 H1 Hb1) as [Hd1 Ho1].
  destruct (detectFace_in_band s2 face2 H2 Hb2) as [Hd2 Ho2].
  rewrite Hr1, Hq1 in Ho1. rewrite Hr2, Hq2 in Ho2.
  cbv zeta. exists q1, q2.
  split; [exact Hd1|]. split; [exact Ho1|]. split; [exact Hd2|]. split; [exact Ho2|].
  split; [symmetry; exact Hq1|]. split; [symmetry; exact Hq2|].
  split; [exact (overlayOf_near_formula r1 q1 B1 Hq1)|].
  split; [exact (overlayOf_near_formula r2 q2 B2 Hq2)|].
  split; [apply R1|].
  split; [apply (overlayOf_mono r1 r2 q1 q2); [apply B1 | exact Hle | apply B2 | exact Hq1 | exact Hq2]|].
  split; [apply R2|].
  intros E. rewrite (overlayOf_comp r1 0.25 E) in Hq1.
  assert (Hv : overlayOf (Fin 0.25) = Fin (145 # 2)) by (vm_compute; reflexivity).
  rewrite Hv in Hq1. injection Hq1 as <-. reflexivity.
Qed.

(** C8 (as the page does it). A tick that sees no face clears
    [faceDetected], sets [faceCount] to 0 and the distance to null, and
    writes nothing else: the instruction, the border colour and the
    overlay size keep the values they had. *)
Theorem detectFace_no_face :
  forall (s : Page) (w h : N),
    frameSize s = Some (w, h) ->
    let s' := exec (detectFace (Faces [])) s in
    s' = with_faceDistance None (with_faceCount 0 (with_faceDetected false (sampled w h s))) /\
    faceDetected s' = false /\
    faceCount s' = 0%nat /\
    faceDistance s' = None /\
    instruction s' = instruction s /\
    borderColor s' = borderColor s /\
    ovalSize s' = ovalSize s.
Proof.
  intros s w h H. cbv zeta. rewrite (detectFace_zero s H).
  repeat split; reflexivity.
Qed.

(** The ratio test of the far branch excludes the close one and back. *)
Lemma gtb_not_ltb (a : num) :
  (a >? Num.lit 0.35)%num = true -> (a <? Num.lit 0.15)%num = false.
Proof.
  unfold Num.gtb, Num.ltb. rewrite lit_0_15, lit_0_35.
  destruct a as [q| | |]; try reflexivity; try discriminate.
  intros Hq. apply Qltb_true in Hq. apply Qltb_false.
  unfold bandLow, bandHigh in *. lra.
Qed.

(** C9. A tick that sees exactly one face: with a ratio below 0.15 the
    distance is too far, the overlay 60, the colour neutral and the
    instruction asks to move closer; with a ratio above 0.35 the distance
    is too close, the overlay 85, the colour neutral and the instruction
    asks to move back. The ratio is the one the page has computed and the
    thresholds are the numbers its literals denote, compared as the page
    compares them. The same holds for the two infinite ratios that a
    zero-sized sample gives. A ratio of 0.10 gives too far with overlay
    60. *)
Theorem detectFace_out_of_band :
  forall (s : Page) (w h : N) (face : Prediction.t),
    frameSize s = Some (w, h) ->
    let s' := exec (detectFace (Faces [face])) s in
    let far :=
      faceDistance s' = Some too_far /\ ovalSize s' = Fin 60 /\
      borderColor s' = white /\ instruction s' = "Terlalu jauh, dekatkan wajah Anda" in
    let close :=
      faceDistance s' = Some too_close /\ ovalSize s' = Fin 85 /\
      borderColor s' = white /\ instruction s' = "Terlalu dekat, mundur sedikit" in
    ((faceRatio face w h <? Num.lit 0.15)%num = true -> far) /\
    ((faceRatio face w h >? Num.lit 0.35)%num = true -> close) /\
    (forall r : Q, faceRatio face w h = Fin r -> r < bandLow -> far) /\
    (forall r : Q, faceRatio face w h = Fin r -> bandHigh < r -> close) /\
    (faceRatio face w h = NInf -> far) /\
    (faceRatio face w h = PInf -> close) /\
    (faceRatio face w h = Num.lit 0.10 ->
       faceDistance s' = Some too_far /\ ovalSize s' = Fin 60).
Proof.
  intros s w h face H. cbv zeta.
  assert (Far : (faceRatio face w h <? Num.lit 0.15)%num = true ->
                exec (detectFace (Faces [face])) s =
                with_ovalSize (Fin 60)
                  (with_faceDistance (Some too_far)
                    (with_faceCount 1
                      (with_faceDetected true
                        (with_borderColor white
                          (with_instruction "Terlalu jauh, dekatkan wajah Anda"
                             (sampled w h s)))))))
    by (intros Hr; apply detectFace_too_far; assumption).
  assert (Close : (faceRatio face w h >? Num.lit 0.35)%num = true ->
                exec (detectFace (Faces [face])) s =
                with_ovalSize (Fin 85)
                  (with_faceDistance (Some too_close)
                    (with_faceCount 1
                      (with_faceDetected true
                        (with_borderColor white
                          (with_instruction "Terlalu dekat, mundur sedikit"
                             (sampled w h s)))))))
    by (intros Hr; apply detectFace_too_close;
        [assumption | apply gtb_not_ltb; assumption | assumption]).
  repeat apply conj.
  - intros Hr. rewrite Far; [repeat split; reflexivity | exact Hr].
  - intros Hr. rewrite Close; [repeat split; reflexivity | exact Hr].
  - intros r Hr Hlt. rewrite Far; [repeat split; reflexivity|].
    rewrite Hr, lit_0_15. apply Qltb_true. exact Hlt.
  - intros r Hr Hgt. rewrite Close; [repeat split; reflexivity|].
    rewrite Hr, lit_0_35. apply Qltb_true. exact Hgt.
  - intros Hr. rewrite Far; [repeat split; reflexivity|].
    rewrite Hr, lit_0_15. reflexivity.
  - intros Hr. rewrite Close; [repeat split; reflexivity|].
    rewrite Hr, lit_0_35. reflexivity.
  - intros Hr. rewrite Far; [repeat split; reflexivity|].
    rewrite Hr. vm_compute. reflexivity.
Qed.

(** C10. A tick that sees more than one face updates the face count, the
    border colour and the instruction and nothing else of the guidance
    state: [faceDetected], the distance and the overlay size keep the
    values of the previous tick, so [faceDetected] stays true when it
    was. *)
Theorem detectFace_many_faces_frame :
  forall (s : Page) (w h : N) (predictions : list Prediction.t),
    frameSize s = Some (w, h) ->
    (1 < List.length predictions)%nat ->
    let s' := exec (detectFace (Faces predictions)) s in
    s' = with_instruction "Pastikan hanya satu wajah dalam bingkai"
           (with_borderColor red
             (with_faceCount (List.length predictions) (sampled w h s))) /\
    faceCount s' = List.length predictions /\
    borderColor s' = red /\
    instruction s' = "Pastikan hanya satu wajah dalam bingkai" /\
    faceDetected s' = faceDetected s /\
    faceDistance s' = faceDistance s /\
    ovalSize s' = ovalSize s /\
    (faceDetected s = true -> faceDetected s' = true).
Proof.
  intros s w h predictions H Hn. cbv zeta.
  rewrite (detectFace_many s predictions H Hn).
  repeat split; try reflexivity. intros Hd. exact Hd.
Qed.

(** ** Properties of the capture flow *)

Lemma stopAll_incl (stream : MediaStream) (live : list nat) (t : nat) :
  In t (stopAll stream live) -> In t live.
Proof.
  revert live. induction stream as [|a stream IH]; intros live Hin; [exact Hin|].
  change (In t (stopAll stream (remove Nat.eq_dec a live))) in Hin.
  apply IH in Hin. apply in_remove in Hin. tauto.
Qed.

Lemma stopAll_stops (stream : MediaStream) (live : list nat) (t : nat) :
  In t stream -> ~ In t (stopAll stream live).
Proof.
  revert live. induction stream as [|a stream IH]; intros live Hin; [destruct Hin|].
  destruct Hin as [->|Hin].
  - intros Habs.
    change (In t (stopAll stream (remove Nat.eq_dec t live))) in Habs.
    apply stopAll_incl in Habs. exact (remove_In _ _ _ Habs).
  - change (~ In t (stopAll stream (remove Nat.eq_dec a live))).
    apply IH. exact Hin.
Qed.

Lemma forEach_stopTrack (stream : MediaStream) (s : Page) :
  forEach stopTrack stream s = (tt, with_liveTracks (stopAll stream (liveTracks s)) s).
Proof.
  revert s. induction stream as [|a stream IH]; intros s.
  - destruct s; reflexivity.
  - change (forEach stopTrack (a :: stream) s)
      with (forEach stopTrack stream
                 (with_liveTracks (remove Nat.eq_dec a (liveTracks s)) s)).
    rewrite IH. reflexivity.
Qed.

Lemma stopCamera_eq (s : Page) : stopCamera s = (tt, cameraStopped s).
Proof.
  unfold stopCamera, cameraStopped, bind, get.
  destruct (streamRef s) as [stream|] eqn:Hs;
    destruct (detectionIntervalRef s) as [id|] eqn:Hi;
    rewrite ?forEach_stopTrack; try reflexivity;
    destruct s; cbn in *; subst; reflexivity.
Qed.

Lemma handleReset_eq (s : Page) : handleReset s = (tt, pageAfterReset s).
Proof.
  unfold handleReset, bind. rewrite stopCamera_eq. reflexivity.
Qed.

(** C6. From every state, reset leaves the input step, an empty frame
    buffer, no session, the guidance state cleared (no face detected, face
    count 0, no distance, overlay 60, neutral colour), the detection timer
    cleared and the camera released (no stream held, every track of the
    stream that was held stopped); and a second reset right after changes
    nothing. *)
Theorem handleReset_post :
  forall s : Page,
    let s' := exec handleReset s in
    s' = pageAfterReset s /\
    step s' = step_input /\
    framesRef s' = [] /\
    session s' = None /\
    faceDetected s' = false /\
    faceCount s' = 0%nat /\
    faceDistance s' = None /\
    ovalSize s' = Fin 60 /\
    borderColor s' = white /\
    detectionIntervalRef s' = None /\
    (forall id, detectionIntervalRef s = Some id -> ~ In id (activeIntervals s')) /\
    streamRef s' = None /\
    cameraReady s' = false /\
    (forall stream track,
        streamRef s = Some stream -> In track stream -> ~ In track (liveTracks s')) /\
    exec handleReset s' = s'.
Proof.
  intros s. cbv zeta. unfold exec. rewrite handleReset_eq. cbn [snd].
  repeat apply conj; try reflexivity.
  - intros id Hid. cbn. rewrite Hid. apply remove_In.
  - intros stream track Hs Hin. cbn. rewrite Hs. apply stopAll_stops. exact Hin.
Qed.

(** *** Submission *)

Lemma submitVerification_empty (s : Page) (net : FetchOutcome) :
  framesRef s = [] ->
  submitVerification net s = (tt, with_error (Some noFrames) s).
Proof.
  intros H. unfold submitVerification, bind, get. rewrite H.
  destruct (session s); reflexivity.
Qed.

Lemma submitVerification_sent (s : Page) (session0 : LivenessSession.t) (net : FetchOutcome) :
  session s = Some session0 ->
  framesRef s <> [] ->
  submitVerification net s =
  (tt,
   match net with
   | Json data =>
     with_step step_result
       (with_result
          (if ApiResponse.success data then ApiResponse.data data
           else Some (failureResult session0 data))
          (submitted session0 s))
   | Rejected message =>
     with_step step_result
       (with_error (Some (orElse message "Terjadi kesalahan saat verifikasi"))
          (submitted session0 s))
   end).
Proof.
  intros Hs Hf. unfold submitVerification, bind, get. rewrite Hs.
  assert (Hn : (List.length (framesRef s) =? 0)%nat = false)
    by (destruct (framesRef s); [congruence | reflexivity]).
  rewrite Hn. unfold setStep, modify at 1.
  rewrite stopCamera_eq.
  destruct net as [message|data]; [reflexivity|].
  destruct (ApiResponse.success data); reflexivity.
Qed.

(** C2 (as the page does it). With an empty frame buffer at submission
    time the page sets the message of the empty buffer and returns: no
    verify request is sent, and the step, the camera and everything else
    stay as they were, so the flow does not move to the result step. *)
Theorem submitVerification_empty_buffer :
  forall (s : Page) (net : FetchOutcome),
    framesRef s = [] ->
    let s' := exec (submitVerification net) s in
    s' = with_error (Some noFrames) s /\
    error s' = Some noFrames /\
    requests s' = requests s /\
    step s' = step s /\
    streamRef s' = streamRef s /\
    liveTracks s' = liveTracks s /\
    result s' = result s.
Proof.
  intros s net H. cbv zeta. unfold exec.
  rewrite submitVerification_empty by exact H.
  repeat split; reflexivity.
Qed.

(** C3 (as the page does it). With a session and a non-empty frame buffer
    the request is sent once and, whatever the settled call gives, the flow
    ends in the result step. A response that reports a failure becomes a
    result with [isLive = false], confidence 0, the failure reason filled
    (the message of the server, or a default) and the error code of the
    server when it sent one; a response that reports success stores the
    result of the server; a call that throws stores its message as the
    page error and leaves the result as it was. *)
Theorem submitVerification_ends_in_result :
  forall (s : Page) (session0 : LivenessSession.t) (net : FetchOutcome),
    session s = Some session0 ->
    framesRef s <> [] ->
    let s' := exec (submitVerification net) s in
    step s' = step_result /\
    requests s' =
      (requests s ++ [ {| req_sessionId := LivenessSession.sessionId session0;
                          req_frames := framesRef s |} ])%list /\
    match net with
    | Json data =>
      error s' = error s /\
      if ApiResponse.success data then result s' = ApiResponse.data data
      else exists r : LivenessResult.t,
          result s' = Some r /\
          LivenessResult.isLive r = false /\
          LivenessResult.confidence r = Fin 0 /\
          LivenessResult.sessionId r = LivenessSession.sessionId session0 /\
          LivenessResult.failureReason r =
            Some (orElse (ApiResponse.message data) "Verification failed") /\
          orElse (ApiResponse.message data) "Verification failed" <> ""%string /\
          LivenessResult.errorCode r = ApiResponse.error_code data
    | Rejected message =>
      result s' = result s /\
      error s' = Some (orElse message "Terjadi kesalahan saat verifikasi") /\
      orElse message "Terjadi kesalahan saat verifikasi" <> ""%string
    end.
Proof.
  intros s session0 net Hs Hf. cbv zeta. unfold exec.
  rewrite (submitVerification_sent s session0 net Hs Hf). cbn [snd].
  assert (Hne : forall (m : option string) (d : string),
             d <> ""%string -> orElse m d <> ""%string).
  { intros [m|] d Hd; cbn; [|exact Hd].
    destruct (String.eqb m "") eqn:E; [exact Hd|].
    apply String.eqb_neq. exact E. }
  destruct net as [message|data].
  - repeat split; try reflexivity. apply Hne. discriminate.
  - split; [reflexivity|]. split; [reflexivity|]. split; [reflexivity|].
    destruct (ApiResponse.success data); [reflexivity|].
    eexists. split; [reflexivity|].
    repeat split; try reflexivity. apply Hne. discriminate.
Qed.

(** *** The two capture modes *)

Section CaptureRuns.

Variable toDataURL : Z -> string.
Variable inherited : string -> option Inherited.

Lemma captureFrame_ready (tag : option string) (s : Page) :
  captureReady s = true ->
  exists s1 : Page,
    captureFrame toDataURL tag s = (Some (still toDataURL (now s) tag), s1) /\
    captureReady s1 = true /\
    framesRef s1 = framesRef s /\
    now s1 = now s /\
    session s1 = session s.
Proof.
  intros H. unfold captureReady in H. unfold captureFrame, bind, get.
  destruct (videoRef s) as [video|] eqn:Hv; [|discriminate].
  destruct (canvasRef s) as [canvas|] eqn:Hc; [|discriminate].
  rewrite H. cbn. eexists. split; [reflexivity|].
  unfold captureReady. cbn. rewrite Hv. repeat split; reflexivity.
Qed.

Lemma passiveLoop_step (count : nat) (s s1 : Page) (f : Frame) :
  captureFrame toDataURL None s = (Some f, s1) ->
  passiveLoop toDataURL (S count) s =
  passiveLoop toDataURL count
    (with_now (now s1 + 400) (with_framesRef (framesRef s1 ++ [f]) s1)).
Proof.
  intros H. cbn [passiveLoop]. unfold bind at 1. rewrite H. reflexivity.
Qed.

Lemma passiveLoop_frames (count : nat) :
  forall s : Page,
    captureReady s = true ->
    let s' := exec (passiveLoop toDataURL count) s in
    framesRef s' = (framesRef s ++ passiveShots toDataURL (now s) count)%list /\
    now s' = (now s + 400 * Z.of_nat count)%Z /\
    captureReady s' = true /\
    session s' = session s.
Proof.
  induction count as [|count IH]; intros s Hready; cbv zeta.
  - cbn -[Z.mul Z.add Z.of_nat]. rewrite app_nil_r. split; [reflexivity|]. split; [lia|]. split; [exact Hready|reflexivity].
  - destruct (captureFrame_ready None s Hready) as [s1 [Hc [Hr1 [Hf1 [Hn1 Hs1]]]]].
    unfold exec. erewrite passiveLoop_step by exact Hc.
    match goal with
    | |- context [passiveLoop toDataURL count ?s2] =>
      assert (Hready2 : captureReady s2 = true) by exact Hr1;
      destruct (IH s2 Hready2) as [IHf [IHn [IHr IHs]]]
    end.
    unfold exec in IHf, IHn, IHr, IHs.
    rewrite IHf, IHn, IHs. cbn -[Z.mul Z.add Z.of_nat]. rewrite Hf1, Hn1, Hs1.
    rewrite ?Hf1, ?Hn1 in IHr.
    rewrite <- app_assoc. split; [reflexivity|]. split; [lia|]. split; [exact IHr|reflexivity].
Qed.

(** Submission neither touches the frame buffer nor the clock. *)
Lemma submitVerification_keeps (net : FetchOutcome) (s : Page) :
  framesRef (exec (submitVerification net) s) = framesRef s /\
  now (exec (submitVerification net) s) = now s.
Proof.
  unfold exec. destruct (framesRef s) as [|f fs] eqn:Hf.
  - rewrite submitVerification_empty by exact Hf. cbn. rewrite Hf. split; reflexivity.
  - destruct (session s) as [session0|] eqn:Hs.
    + erewrite submitVerification_sent; [|exact Hs|congruence].
      destruct net as [message|data]; cbn; rewrite Hf; split; reflexivity.
    + unfold submitVerification, bind, get. rewrite Hs. cbn. rewrite Hf.
      split; reflexivity.
Qed.

(** C4. A passive run in which every capture succeeds leaves exactly five
    frames in the buffer, none of them tagged, stamped 400 ms apart from
    the start of the run on; the capture loop takes 5 x 400 ms = 2000 ms
    of waits. *)
Theorem runPassiveVerification_frames :
  forall (s : Page) (net : FetchOutcome),
    captureReady s = true ->
    let s' := exec (runPassiveVerification toDataURL net) s in
    let t := now s in
    framesRef s' =
      [ still toDataURL t None;
        still toDataURL (t + 400) None;
        still toDataURL (t + 800) None;
        still toDataURL (t + 1200) None;
        still toDataURL (t + 1600) None ] /\
    List.length (framesRef s') = 5%nat /\
    Forall (fun f => action f = None) (framesRef s') /\
    map timestamp (framesRef s') = [t; t + 400; t + 800; t + 1200; t + 1600]%Z /\
    now s' = (t + 2000)%Z.
Proof.
  intros s net Hready. cbv zeta.
  unfold runPassiveVerification.
  set (s0 := with_framesRef []
               (with_borderColor green
                  (with_instruction "Tetap diam, sedang memverifikasi..." s))).
  assert (Hrun : exec (runPassiveVerification toDataURL net) s =
                 exec (submitVerification net) (exec (passiveLoop toDataURL 5) s0)).
  { unfold exec, runPassiveVerification, bind. cbn [setInstruction setBorderColor assignFrames modify].
    fold s0. destruct (passiveLoop toDataURL 5 s0). reflexivity. }
  fold (runPassiveVerification toDataURL net). rewrite Hrun.
  destruct (submitVerification_keeps net (exec (passiveLoop toDataURL 5) s0)) as [Kf Kn].
  rewrite Kf, Kn.
  destruct (passiveLoop_frames 5 s0 Hready) as [Hf [Hn _]].
  rewrite Hf, Hn. change (framesRef s0) with (@nil Frame). change (now s0) with (now s).
  cbn [app passiveShots].
  replace (now s + 400 + 400)%Z with (now s + 800)%Z by lia.
  replace (now s + 800 + 400)%Z with (now s + 1200)%Z by lia.
  replace (now s + 1200 + 400)%Z with (now s + 1600)%Z by lia.
  split; [reflexivity|]. split; [reflexivity|].
  split; [repeat constructor|]. split; [reflexivity|]. lia.
Qed.

Lemma activeLoop_unfold (i : nat) (challenge : string) (rest : list string) :
  activeLoop toDataURL inherited i (challenge :: rest) =
  (setChallengeIndex i ;;
   setCurrentChallenge (Some challenge) ;;
   showChallenge inherited challenge ;;
   setBorderColor white ;;
   sleep 2500 ;;
   frame <- captureFrame toDataURL (Some challenge) ;;
   pushFrame frame ;;
   activeLoop toDataURL inherited (S i) rest)%act.
Proof. reflexivity. Qed.

Lemma showChallenge_shown (challenge : string) (s : Page) :
  showable inherited challenge = true ->
  showChallenge inherited challenge s =
  (tt, with_instruction (promptFor inherited challenge (instruction s)) s).
Proof.
  unfold showable, showChallenge, promptFor.
  destruct (lookup challenge CHALLENGE_NAMES) as [name|]; [reflexivity|].
  destruct (inherited challenge) as [[text|]|]; [reflexivity | discriminate | reflexivity].
Qed.

Lemma activeLoop_step (i : nat) (challenge : string) (rest : list string)
      (s s1 : Page) (f : Frame) :
  showable inherited challenge = true ->
  let shown :=
    with_now (now s + 2500)
      (with_borderColor white
        (with_instruction (promptFor inherited challenge (instruction s))
          (with_currentChallenge (Some challenge) (with_challengeIndex i s)))) in
  captureFrame toDataURL (Some challenge) shown = (Some f, s1) ->
  activeLoop toDataURL inherited i (challenge :: rest) s =
  activeLoop toDataURL inherited (S i) rest (with_framesRef (framesRef s1 ++ [f]) s1).
Proof.
  intros Hshow. cbv zeta. rewrite activeLoop_unfold.
  intros H.
  unfold bind at 1 2 3 4 5.
  unfold setChallengeIndex, setCurrentChallenge, setBorderColor, sleep, modify.
  rewrite (showChallenge_shown challenge _ Hshow).
  unfold bind at 1.
  change (instruction (with_currentChallenge (Some challenge) (with_challengeIndex i s)))
    with (instruction s).
  set (name := promptFor inherited challenge (instruction s)) in *. clearbody name.
  change (now (with_borderColor white
          (with_instruction name
             (with_currentChallenge (Some challenge) (with_challengeIndex i s)))))
    with (now s).
  rewrite H. reflexivity.
Qed.

Lemma activeLoop_frames (challenges : list string) :
  forallb (showable inherited) challenges = true ->
  forall (i : nat) (s : Page),
    captureReady s = true ->
    let s' := exec (activeLoop toDataURL inherited i challenges) s in
    framesRef s' = (framesRef s ++ activeShots toDataURL (now s) challenges)%list /\
    now s' = (now s + 2500 * Z.of_nat (List.length challenges))%Z /\
    captureReady s' = true /\
    session s' = session s.
Proof.
  induction challenges as [|challenge rest IH]; intros Hshow i s Hready; cbv zeta.
  - cbn -[Z.mul Z.add Z.of_nat]. rewrite app_nil_r.
    split; [reflexivity|]. split; [lia|]. split; [exact Hready|reflexivity].
  - set (shown :=
      with_now (now s + 2500)
        (with_borderColor white
          (with_instruction (promptFor inherited challenge (instruction s))
            (with_currentChallenge (Some challenge) (with_challengeIndex i s))))).
    assert (Hshown : captureReady shown = true) by exact Hready.
    destruct (captureFrame_ready (Some challenge) shown Hshown)
      as [s1 [Hc [Hr1 [Hf1 [Hn1 Hs1]]]]].
    cbn [forallb] in Hshow. apply andb_true_iff in Hshow. destruct Hshow as [Hshow Hrest].
    unfold exec. rewrite (activeLoop_step i challenge rest s s1 _ Hshow Hc).
    match goal with
    | |- context [activeLoop toDataURL inherited (S i) rest ?s2] =>
      assert (Hready2 : captureReady s2 = true) by exact Hr1;
      destruct (IH Hrest (S i) s2 Hready2) as [IHf [IHn [IHr IHs]]]
    end.
    unfold exec in IHf, IHn, IHr, IHs.
    rewrite IHf, IHn, IHs. cbn -[Z.mul Z.add Z.of_nat]. rewrite Hf1, Hn1, Hs1.
    change (framesRef shown) with (framesRef s).
    change (now shown) with (now s + 2500)%Z.
    change (session shown) with (session s).
    rewrite Hf1 in IHr. rewrite <- app_assoc.
    split; [reflexivity|]. split; [lia|]. split; [exact IHr|reflexivity].
Qed.


Lemma activeShots_tags (t : Z) (challenges : list string) :
  map action (activeShots toDataURL t challenges) = map Some challenges.
Proof.
  revert t. induction challenges as [|c rest IH]; intros t; [reflexivity|].
  cbn [activeShots map still action]. rewrite IH. reflexivity.
Qed.



(** *** Starting a capture *)

Lemma startVerification_blocked (net : FetchOutcome) (s : Page)
      (session0 : LivenessSession.t) :
  session s = Some session0 ->
  canCapture s = false ->
  startVerification toDataURL inherited net s = (tt, with_error (Some notInPosition) s).
Proof.
  intros Hs Hb. unfold canCapture in Hb. apply negb_false_iff in Hb.
  unfold startVerification, bind, get. rewrite Hs, Hb. reflexivity.
Qed.

Lemma startVerification_no_session (net : FetchOutcome) (s : Page) :
  session s = None -> startVerification toDataURL inherited net s = (tt, s).
Proof.
  intros Hs. unfold startVerification, bind, get. rewrite Hs. reflexivity.
Qed.

Lemma canCapture_count (s : Page) : faceCount s <> 1%nat -> canCapture s = false.
Proof.
  intros H. unfold canCapture, captureBlocked.
  apply Nat.eqb_neq in H. rewrite H. cbn. rewrite !orb_true_r. reflexivity.
Qed.

(** An event that is not a good tick leaves a refused capture refused. *)
Lemma fire_keeps_blocked (e : Event) (s : Page) :
  canCapture s = false ->
  goodTick e s = false ->
  canCapture (exec (fire toDataURL inherited e) s) = false.
Proof.
  intros Hb Hg. destruct e as [outcome|net].
  - assert (Hx : exec (fire toDataURL inherited (Tick outcome)) s = exec (detectFace outcome) s).
    { unfold exec, fire, bind. destruct (detectFace outcome s). reflexivity. }
    rewrite Hx. clear Hx. unfold goodTick in Hg.
    destruct (frameSize s) as [[w h]|] eqn:Hsize.
    + destruct outcome as [|predictions].
      * rewrite (detectFace_throws s Hsize). exact Hb.
      * destruct predictions as [|face [|face2 rest]].
        -- rewrite (detectFace_zero s Hsize). reflexivity.
        -- destruct (faceRatio face w h <? Num.lit 0.15)%num eqn:Hfar.
           ++ rewrite (detectFace_too_far s face Hsize Hfar). reflexivity.
           ++ destruct (faceRatio face w h >? Num.lit 0.35)%num eqn:Hclose; [|discriminate Hg].
              rewrite (detectFace_too_close s face Hsize Hfar Hclose). reflexivity.
        -- rewrite (detectFace_many s (face :: face2 :: rest) Hsize) by (cbn; lia).
           apply canCapture_count. cbn. lia.
    + rewrite (detectFace_none s outcome Hsize). exact Hb.
  - unfold exec, fire. destruct (session s) as [session0|] eqn:Hs.
    + erewrite startVerification_blocked by eassumption. exact Hb.
    + rewrite startVerification_no_session by assumption. exact Hb.
Qed.

Lemma fireAll_keeps_blocked (es : list Event) :
  forall s : Page,
    canCapture s = false ->
    noGoodTick toDataURL inherited es s = true ->
    canCapture (fireAll toDataURL inherited es s) = false.
Proof.
  induction es as [|e rest IH]; intros s Hb Hn; [exact Hb|].
  cbn [noGoodTick] in Hn. apply andb_true_iff in Hn. destruct Hn as [Hg Hn].
  apply negb_true_iff in Hg. cbn [fireAll].
  apply IH; [apply fire_keeps_blocked; assumption | exact Hn].
Qed.

(** C7. After a tick that has seen more than one face the capture is not
    eligible, whatever the distance recorded before. A press on the
    capture button in that state (a session is held on the camera screen)
    changes nothing but the error message. And through any later ticks
    and presses none of which is a tick that sees exactly one face at good
    distance, the capture stays not eligible. *)
Theorem many_faces_block_capture :
  forall (s : Page) (w h : N) (predictions : list Prediction.t),
    frameSize s = Some (w, h) ->
    (1 < List.length predictions)%nat ->
    let s' := exec (detectFace (Faces predictions)) s in
    canCapture s' = false /\
    (forall (net : FetchOutcome) (session0 : LivenessSession.t),
        session s' = Some session0 ->
        startVerification toDataURL inherited net s' = (tt, with_error (Some notInPosition) s') /\
        error (exec (startVerification toDataURL inherited net) s') = Some notInPosition) /\
    (forall es : list Event,
        noGoodTick toDataURL inherited es s' = true ->
        canCapture (fireAll toDataURL inherited es s') = false).
Proof.
  intros s w h predictions Hsize Hn. cbv zeta.
  assert (Hb : canCapture (exec (detectFace (Faces predictions)) s) = false).
  { rewrite (detectFace_many s predictions Hsize Hn).
    apply canCapture_count. cbn. lia. }
  split; [exact Hb|]. split.
  - intros net session0 Hs. unfold exec.
    erewrite startVerification_blocked by eassumption. split; reflexivity.
  - intros es Hes. apply fireAll_keeps_blocked; assumption.
Qed.

End CaptureRuns.

(** ** The properties on sample runs *)

Lemma detectFace_good_overlay_witness :
  let s := cameraPage passive None in
  let s1' := exec (detectFace (Faces [faceBoxOf 480 480])) s in
  let s2' := exec (detectFace (Faces [faceBoxOf 480 576])) s in
  faceRatio (faceBoxOf 480 480) 1280 720 = Num.lit 0.25 /\
  faceRatio (faceBoxOf 480 576) 1280 720 = Num.lit 0.3 /\
  exists q1 q2 : Q,
    faceDistance s1' = Some good /\ ovalSize s1' = Fin q1 /\
    faceDistance s2' = Some good /\ ovalSize s2' = Fin q2 /\
    q1 == 72.5 /\ q1 <= q2 /\ q2 <= 85.
Proof.
  cbv zeta.
  split; [vm_compute; reflexivity|]. split; [vm_compute; reflexivity|].
  assert (H1 : faceRatio (faceBoxOf 480 480) 1280 720 = Fin (1 # 4))
    by (vm_compute; reflexivity).
  assert (H2 : faceRatio (faceBoxOf 480 576) 1280 720 =
               Fin (5404319552844595 # 18014398509481984))
    by (vm_compute; reflexivity).
  assert (B1 : inBand (Fin (1 # 4)) = true) by (vm_compute; reflexivity).
  assert (B2 : inBand (Fin (5404319552844595 # 18014398509481984)) = true)
    by (vm_compute; reflexivity).
  assert (Hle : 1 # 4 <= 5404319552844595 # 18014398509481984)
    by (unfold Qle; cbn; lia).
  destruct (@detectFace_good_overlay
              (cameraPage passive None) (cameraPage passive None)
              1280 720 1280 720 (faceBoxOf 480 480) (faceBoxOf 480 576)
              (1 # 4) (5404319552844595 # 18014398509481984)
              eq_refl eq_refl H1 H2 B1 B2 Hle)
    as [q1 [q2 [D1 [O1 [D2 [O2 [_ [_ [_ [_ [_ [Le [B Quarter]]]]]]]]]]]]].
  exists q1, q2.
  split; [exact D1|]. split; [exact O1|]. split; [exact D2|]. split; [exact O2|].
  split; [apply Quarter; reflexivity|]. split; [exact Le | exact B].
Defined.

(** The overlay is a rounded number: for a box of 400 x 400 on a frame of
    1280 x 720 it is the binary64 number nearest to 62.951388888888886,
    not the rational 9065/144 that the formula gives for the ratio
    25/144. And two ratios that differ can get the same overlay: next to
    the box of 480 x 480, whose ratio is 0.25, a box one unit in the last
    place higher has a larger ratio and the overlay 72.5 as well. *)
Lemma overlay_is_rounded :
  let s := cameraPage passive None in
  let s1 := exec (detectFace (Faces [boxAt 0 0 400 400 None None])) s in
  let s2 := exec (detectFace (Faces [boxAt 0 0 480 480 None None])) s in
  let s3 :=
    exec (detectFace (Faces [boxAt 0 0 480 (480 + (1 # 17592186044416)) None None])) s in
  ovalSize s1 = Num.lit (62951388888888886 # 1000000000000000) /\
  ovalSize s1 <> Fin (Qred (overlayFor (25 # 144))) /\
  faceRatio (boxAt 0 0 480 480 None None) 1280 720 = Fin (1 # 4) /\
  faceRatio (boxAt 0 0 480 (480 + (1 # 17592186044416)) None None) 1280 720 =
    Fin (4503599627370497 # 18014398509481984) /\
  ovalSize s2 = Fin (145 # 2) /\
  ovalSize s3 = Fin (145 # 2).
Proof.
  cbv zeta. vm_compute. repeat split; discriminate.
Qed.

Lemma detectFace_out_of_band_witness :
  let s := cameraPage passive None in
  let far := exec (detectFace (Faces [faceBoxOf 240 384])) s in
  let close := exec (detectFace (Faces [faceBoxOf 720 600])) s in
  faceRatio (faceBoxOf 240 384) 1280 720 = Num.lit 0.10 /\
  (faceDistance far = Some too_far /\ ovalSize far = Fin 60) /\
  (faceDistance close = Some too_close /\ ovalSize close = Fin 85 /\
   borderColor close = white /\ instruction close = "Terlalu dekat, mundur sedikit").
Proof.
  cbv zeta.
  assert (Hfar : faceRatio (faceBoxOf 240 384) 1280 720 = Num.lit 0.10)
    by (vm_compute; reflexivity).
  assert (Hclose : (faceRatio (faceBoxOf 720 600) 1280 720 >? Num.lit 0.35)%num = true)
    by (vm_compute; reflexivity).
  split; [exact Hfar|]. split.
  - apply (proj2 (proj2 (proj2 (proj2 (proj2 (proj2
      (@detectFace_out_of_band (cameraPage passive None) 1280 720
         (faceBoxOf 240 384) eq_refl))))))).
    exact Hfar.
  - apply (proj1 (proj2
      (@detectFace_out_of_band (cameraPage passive None) 1280 720
         (faceBoxOf 720 600) eq_refl))).
    exact Hclose.
Defined.

(** The thresholds are compared with the ratio as computed: on a frame of
    1440 x 1080 a box of (480 - 2^-44) x 486, whose exact ratio is below
    3/20, has a computed ratio equal to the number that the literal 0.15
    denotes, and is classed as good. *)
Lemma ratio_rounds_onto_threshold :
  let s :=
    with_detectionCanvasRef
      (Some {| Canvas.width := 1440; Canvas.height := 1080; Canvas.context2d := true |})
      (with_videoRef (Some {| videoWidth := 1440; videoHeight := 1080 |})
         (cameraPage passive None)) in
  let face := boxAt 0 0 (480 - (1 # 17592186044416)) 486 None None in
  ((480 - (1 # 17592186044416)) * 486 / (1440 * 1080) < 3 # 20)%Q /\
  faceRatio face 1440 1080 = Num.lit 0.15 /\
  faceDistance (exec (detectFace (Faces [face])) s) = Some good /\
  borderColor (exec (detectFace (Faces [face])) s) = green.
Proof.
  cbv zeta. vm_compute. repeat split; reflexivity.
Qed.

(** The rounding agrees with the reference implementation of binary64 in
    the Standard Library on the operations of these samples. *)
Lemma round_agrees_with_reference :
  Binary64.ofSpecFloat (Binary64.referenceQuotient 15 100) = Num.lit 0.15 /\
  Binary64.ofSpecFloat (Binary64.referenceQuotient 35 100) = Num.lit 0.35 /\
  Binary64.ofSpecFloat (Binary64.referenceQuotient 2 10) = Num.lit 0.2 /\
  Binary64.ofSpecFloat (Binary64.referenceQuotient 1 3) = (Fin 1 / Fin 3)%num /\
  Binary64.ofSpecFloat (Binary64.referenceQuotient 160000 921600) =
    faceRatio (boxAt 0 0 400 400 None None) 1280 720 /\
  Binary64.ofSpecFloat (Binary64.referenceOverlay 160000 921600) =
    overlayOf (faceRatio (boxAt 0 0 400 400 None None) 1280 720) /\
  Binary64.ofSpecFloat (Binary64.referenceOverlay 276480 921600) =
    overlayOf (faceRatio (faceBoxOf 480 576) 1280 720) /\
  Binary64.ofSpecFloat (Binary64.referenceProduct (2 ^ 600) (2 ^ 600)) =
    (Num.of_N (2 ^ 600) * Num.of_N (2 ^ 600))%num /\
  Binary64.ofSpecFloat (Binary64.ofInteger (2 ^ 53 + 1)) = Num.of_N (2 ^ 53 + 1).
Proof.
  vm_compute. repeat split; reflexivity.
Qed.

Lemma detectFace_no_face_witness :
  let s1 := guidedPage passive None in
  let s2 := exec (detectFace (Faces [])) s1 in
  frameSize s1 = Some (1280, 720)%N /\
  faceDetected s2 = false /\ faceCount s2 = 0%nat /\ faceDistance s2 = None /\
  instruction s2 = instruction s1 /\ borderColor s2 = borderColor s1.
Proof.
  cbv zeta.
  assert (Hsize : frameSize (guidedPage passive None) = Some (1280, 720)%N)
    by (vm_compute; reflexivity).
  split; [exact Hsize|].
  destruct (@detectFace_no_face (guidedPage passive None) 1280 720 Hsize)
    as [_ [D [C [F [I [B _]]]]]].
  split; [exact D|]. split; [exact C|]. split; [exact F|]. split; [exact I | exact B].
Defined.

(** C8, as stated, fails: a tick that sees no face right after a tick that
    saw a well-placed face leaves the border green and the instruction
    that says a face is detected. *)
Lemma detectFace_no_face_keeps_green :
  let s1 := guidedPage passive None in
  let s2 := exec (detectFace (Faces [])) s1 in
  frameSize s1 = Some (1280, 720)%N /\
  faceDetected s2 = false /\
  borderColor s2 = green /\
  borderColor s2 <> white /\
  instruction s2 = "Wajah terdeteksi".
Proof.
  cbv zeta. vm_compute. repeat split; discriminate.
Qed.

Lemma detectFace_many_faces_frame_witness :
  let s := guidedPage passive None in
  let s' := exec (detectFace (Faces [faceBoxOf 480 480; faceBoxOf 100 100])) s in
  faceDetected s = true /\
  faceCount s' = 2%nat /\ borderColor s' = red /\
  faceDetected s' = true /\ faceDistance s' = Some good /\ ovalSize s' = ovalSize s.
Proof.
  cbv zeta.
  assert (Hsize : frameSize (guidedPage passive None) = Some (1280, 720)%N)
    by (vm_compute; reflexivity).
  assert (Hseen : faceDetected (guidedPage passive None) = true)
    by (vm_compute; reflexivity).
  assert (Hgood : faceDistance (guidedPage passive None) = Some good)
    by (vm_compute; reflexivity).
  split; [exact Hseen|].
  destruct (@detectFace_many_faces_frame (guidedPage passive None) 1280 720
              [faceBoxOf 480 480; faceBoxOf 100 100] Hsize (le_n 2))
    as [_ [C [B [_ [D [F [O K]]]]]]].
  split; [exact C|]. split; [exact B|]. split; [exact (K Hseen)|].
  split; [rewrite F; exact Hgood | exact O].
Defined.

Lemma many_faces_block_capture_witness :
  let s := guidedPage passive None in
  let s' := exec (detectFace (Faces [faceBoxOf 480 480; faceBoxOf 100 100])) s in
  let net := Rejected None in
  let es := [Tick (Faces [faceBoxOf 240 384]); Press net; Tick (Faces []); Tick Throws] in
  canCapture s = true /\
  canCapture s' = false /\
  exec (startVerification sampleImage sampleInherited net) s' = with_error (Some notInPosition) s' /\
  canCapture (fireAll sampleImage sampleInherited es s') = false.
Proof.
  cbv zeta.
  assert (Hsize : frameSize (guidedPage passive None) = Some (1280, 720)%N)
    by (vm_compute; reflexivity).
  split; [vm_compute; reflexivity|].
  destruct (@many_faces_block_capture sampleImage sampleInherited (guidedPage passive None) 1280 720
              [faceBoxOf 480 480; faceBoxOf 100 100] Hsize (le_n 2))
    as [B [P T]].
  split; [exact B|]. split.
  - assert (Hs : session (exec (detectFace (Faces [faceBoxOf 480 480; faceBoxOf 100 100]))
                            (guidedPage passive None)) =
                 Some (sampleSession passive None))
      by (vm_compute; reflexivity).
    exact (f_equal snd (proj1 (P (Rejected None) (sampleSession passive None) Hs))).
  - apply T. vm_compute. reflexivity.
Defined.

Lemma handleReset_sample :
  let s := exec handleReset (guidedPage passive None) in
  step s = step_input /\ session s = None /\ framesRef s = [] /\
  liveTracks s = [] /\ activeIntervals s = [] /\ exec handleReset s = s.
Proof. cbv zeta. vm_compute. repeat split; reflexivity. Qed.

Lemma submitVerification_empty_buffer_witness :
  let s := cameraPage passive None in
  let s' := exec (submitVerification (Rejected None)) s in
  framesRef s = [] /\
  s' = with_error (Some noFrames) s /\ requests s' = [] /\ step s' = step_camera.
Proof.
  cbv zeta. split; [reflexivity|].
  destruct (@submitVerification_empty_buffer (cameraPage passive None) (Rejected None)
              eq_refl) as [E [_ [R [S _]]]].
  split; [exact E|]. split; [exact R | exact S].
Defined.

(** C2, as stated, fails: an active run over an empty challenge list
    captures nothing, reaches submission with an empty buffer and stays on
    the camera step; no request is sent. *)
Lemma empty_buffer_stays_on_camera :
  let s := cameraPage active (Some []) in
  let s' := exec (runActiveVerification sampleImage sampleInherited (Rejected None)) s in
  framesRef s' = [] /\
  requests s' = [] /\
  error s' = Some noFrames /\
  step s' = step_camera /\
  step s' <> step_result.
Proof.
  cbv zeta. vm_compute. repeat split; discriminate.
Qed.

Lemma submitVerification_ends_in_result_witness :
  let s := with_framesRef [still sampleImage 1000 None] (cameraPage passive None) in
  let refused :=
    {| ApiResponse.success := false;
       ApiResponse.data := None;
       ApiResponse.message := Some "Face not live";
       ApiResponse.error_code := Some "LIVENESS_FAILED" |} in
  let s' := exec (submitVerification (Json refused)) s in
  step s' = step_result /\
  List.length (requests s') = 1%nat /\
  exists r : LivenessResult.t,
    result s' = Some r /\
    LivenessResult.isLive r = false /\
    LivenessResult.failureReason r = Some "Face not live" /\
    LivenessResult.errorCode r = Some "LIVENESS_FAILED".
Proof.
  cbv zeta.
  assert (Hne : framesRef (with_framesRef [still sampleImage 1000 None]
                             (cameraPage passive None)) <> [])
    by discriminate.
  destruct (@submitVerification_ends_in_result
              (with_framesRef [still sampleImage 1000 None] (cameraPage passive None))
              (sampleSession passive None)
              (Json {| ApiResponse.success := false;
                       ApiResponse.data := None;
                       ApiResponse.message := Some "Face not live";
                       ApiResponse.error_code := Some "LIVENESS_FAILED" |})
              eq_refl Hne)
    as [S [R [_ [r [Hr [L [_ [_ [F [_ C]]]]]]]]]].
  split; [exact S|]. split; [rewrite R; reflexivity|].
  exists r. repeat split; assumption.
Defined.

(** C3, as stated, fails: when the verify call throws, the flow ends in
    the result step with the message of the exception as page error and
    no result value at all. *)
Lemma network_failure_sets_no_result :
  let s := with_framesRef [still sampleImage 1000 None] (cameraPage passive None) in
  let s' := exec (submitVerification (Rejected (Some "Failed to fetch"))) s in
  session s <> None /\
  framesRef s <> [] /\
  step s' = step_result /\
  result s' = None /\
  error s' = Some "Failed to fetch".
Proof.
  cbv zeta. vm_compute. repeat split; discriminate.
Qed.

Lemma runPassiveVerification_frames_witness :
  let s' := exec (runPassiveVerification sampleImage (Rejected None))
                 (cameraPage passive None) in
  captureReady (cameraPage passive None) = true /\
  List.length (framesRef s') = 5%nat /\
  map action (framesRef s') = [None; None; None; None; None] /\
  map timestamp (framesRef s') = [1000; 1400; 1800; 2200; 2600]%Z /\
  now s' = 3000%Z.
Proof.
  cbv zeta. split; [reflexivity|].
  destruct (@runPassiveVerification_frames sampleImage (cameraPage passive None)
              (Rejected None) eq_refl) as [F [L [_ [T N]]]].
  split; [exact L|]. split; [rewrite F; reflexivity|]. split; [exact T | exact N].
Defined.


(** ** Properties of the intake form *)

(** One step of a handler. *)
Lemma bind_eq {A B : Type} (c : Act A) (k : A -> Act B) (s : Page) :
  bind c k s = k (fst (c s)) (snd (c s)).
Proof. unfold bind. destruct (c s). reflexivity. Qed.

(** Two pages with the same fields are the same page. *)
Lemma page_ext (a b : Page) :
  nik a = nik b ->
  method a = method b ->
  session a = session b ->
  result a = result b ->
  step a = step b ->
  loading a = loading b ->
  error a = error b ->
  cameraReady a = cameraReady b ->
  countdown a = countdown b ->
  currentChallenge a = currentChallenge b ->
  challengeIndex a = challengeIndex b ->
  instruction a = instruction b ->
  faceDetected a = faceDetected b ->
  faceCount a = faceCount b ->
  faceDistance a = faceDistance b ->
  ovalSize a = ovalSize b ->
  borderColor a = borderColor b ->
  isCapturing a = isCapturing b ->
  videoRef a = videoRef b ->
  canvasRef a = canvasRef b ->
  detectionCanvasRef a = detectionCanvasRef b ->
  streamRef a = streamRef b ->
  framesRef a = framesRef b ->
  modelRef a = modelRef b ->
  detectionIntervalRef a = detectionIntervalRef b ->
  now a = now b ->
  liveTracks a = liveTracks b ->
  activeIntervals a = activeIntervals b ->
  requests a = requests b ->
  a = b.
Proof.
  destruct a, b. cbn. intros. subst. reflexivity.
Qed.

Ltac page_eq := apply page_ext; cbn; try reflexivity.

Lemma stripNonDigits_allDigits (value : string) :
  allDigits (stripNonDigits value) = true.
Proof.
  induction value as [|c rest IH]; [reflexivity|].
  cbn [stripNonDigits]. destruct (isDigit c) eqn:E; [|exact IH].
  cbn [allDigits]. rewrite E. exact IH.
Qed.

Lemma stripNonDigits_fixed (value : string) :
  allDigits value = true -> stripNonDigits value = value.
Proof.
  induction value as [|c rest IH]; [reflexivity|].
  cbn [allDigits stripNonDigits]. intros H. apply andb_true_iff in H.
  destruct H as [Hc Hr]. rewrite Hc, (IH Hr). reflexivity.
Qed.

Lemma substring_allDigits (n : nat) (value : string) :
  allDigits value = true -> allDigits (substring 0 n value) = true.
Proof.
  revert value. induction n as [|n IH]; intros [|c rest] H; try reflexivity.
  cbn [allDigits] in H. apply andb_true_iff in H. destruct H as [Hc Hr].
  cbn [substring allDigits]. rewrite Hc. apply IH. exact Hr.
Qed.

Lemma substring_length_le (n : nat) (value : string) :
  (String.length (substring 0 n value) <= n)%nat.
Proof.
  revert value. induction n as [|n IH]; intros [|c rest]; cbn; try lia.
  specialize (IH rest). lia.
Qed.

Lemma substring_short (n : nat) (value : string) :
  (String.length value <= n)%nat -> substring 0 n value = value.
Proof.
  revert value. induction n as [|n IH]; intros [|c rest] H; cbn in *; try reflexivity;
    try lia.
  rewrite IH by lia. reflexivity.
Qed.

(** Whatever is typed or pasted into the NIK field, the field ends up
    holding digits only and at most 16 of them, and nothing else of the
    page changes; a value of at most 16 digits is stored as it is. *)
Theorem onNikChange_keeps_digits :
  forall (value : string) (s : Page),
    let s' := exec (onNikChange value) s in
    allDigits (nik s') = true /\
    (String.length (nik s') <= 16)%nat /\
    s' = with_nik (nik s') s /\
    (allDigits value = true -> (String.length value <= 16)%nat -> nik s' = value).
Proof.
  intros value s. cbv zeta. unfold exec, onNikChange, setNik, modify.
  cbn [snd with_nik nik].
  split; [apply substring_allDigits, stripNonDigits_allDigits|].
  split; [apply substring_length_le|]. split; [reflexivity|].
  intros Hd Hl. rewrite (stripNonDigits_fixed _ Hd). apply substring_short. exact Hl.
Qed.

(** *** Creating the session *)

Lemma createSession_short (net : SessionOutcome) (screen : CameraScreen)
  (cam : CameraOutcome) (s : Page) :
  String.length (nik s) <> 16%nat ->
  createSession net screen cam s = ([], with_error (Some "NIK harus 16 digit") s).
Proof.
  intros H. unfold createSession, bind, get.
  apply Nat.eqb_neq in H. rewrite H. rewrite orb_true_r. reflexivity.
Qed.

Lemma nik_guard_passes (s : Page) :
  String.length (nik s) = 16%nat ->
  String.eqb (nik s) "" || negb (String.length (nik s) =? 16)%nat = false.
Proof.
  intros H. rewrite H. cbn. rewrite orb_false_r.
  apply String.eqb_neq. intros E. rewrite E in H. discriminate H.
Qed.

(** A NIK that is not 16 characters long is refused on the spot: the page
    shows the length message, sends no session request and changes
    nothing else (it does not even enter the loading state). *)
Theorem createSession_rejects_short_nik :
  forall (net : SessionOutcome) (screen : CameraScreen) (cam : CameraOutcome) (s : Page),
    String.length (nik s) <> 16%nat ->
    fst (createSession net screen cam s) = [] /\
    exec (createSession net screen cam) s = with_error (Some "NIK harus 16 digit") s.
Proof.
  intros net screen cam s H. unfold exec.
  rewrite (createSession_short net screen cam s H).
  split; reflexivity.
Qed.


Lemma orElse_nonempty (a : option string) (d : string) :
  d <> "" -> orElse a d <> "".
Proof.
  intros Hd. destruct a as [v|]; cbn; [|exact Hd].
  destruct (String.eqb v "") eqn:E; [exact Hd|].
  apply String.eqb_neq. exact E.
Qed.

Lemma orElse_given (v d : string) : v <> "" -> orElse (Some v) d = v.
Proof.
  intros Hv. cbn. apply String.eqb_neq in Hv. rewrite Hv. reflexivity.
Qed.

Lemma createSession_failed (net : SessionOutcome) (screen : CameraScreen)
  (cam : CameraOutcome) (s : Page) :
  String.length (nik s) = 16%nat ->
  sessionFails net = true ->
  createSession net screen cam s =
  ([sessionRequestOf s],
   with_loading false
     (with_error (Some (sessionErrorMessage net))
        (with_error None (with_loading true s)))).
Proof.
  intros Hn Hf. unfold createSession, bind, get.
  rewrite (nik_guard_passes s Hn).
  destruct net as [message|data]; cbn in Hf.
  - reflexivity.
  - cbn [setLoading setError modify]. rewrite Hf. reflexivity.
Qed.

(** When the session call fails (it throws, or the server answers without
    success) exactly one request has been sent, carrying the NIK and the
    method of the form; the page shows a message that is never empty (the
    message of the server when it gave one), is no longer loading, and has
    neither stored a session, nor left its step, nor touched the camera. *)
Theorem createSession_failure_stays :
  forall (net : SessionOutcome) (screen : CameraScreen) (cam : CameraOutcome) (s : Page),
    String.length (nik s) = 16%nat ->
    sessionFails net = true ->
    let s' := exec (createSession net screen cam) s in
    fst (createSession net screen cam s) = [sessionRequestOf s] /\
    error s' = Some (sessionErrorMessage net) /\
    sessionErrorMessage net <> "" /\
    (forall (data : SessionResponse.t) (m : string),
        net = SessionJson data -> SessionResponse.message data = Some m -> m <> "" ->
        error s' = Some m) /\
    loading s' = false /\
    session s' = session s /\
    step s' = step s /\
    framesRef s' = framesRef s /\
    streamRef s' = streamRef s /\
    liveTracks s' = liveTracks s /\
    cameraReady s' = cameraReady s /\
    videoRef s' = videoRef s.
Proof.
  intros net screen cam s Hn Hf. cbv zeta. unfold exec.
  rewrite (createSession_failed net screen cam s Hn Hf). cbn [fst snd].
  split; [reflexivity|]. split; [reflexivity|].
  split.
  { destruct net as [message|data]; cbn [sessionErrorMessage];
      apply orElse_nonempty; discriminate. }
  split.
  { intros data m -> Hm Hne. apply String.eqb_neq in Hne.
    cbn [error with_loading with_error]. unfold sessionErrorMessage, orElse.
    rewrite Hm, Hne, Hne. reflexivity. }
  repeat split; reflexivity.
Qed.

Lemma createSession_succeeded (data : SessionResponse.t) (screen : CameraScreen)
  (cam : CameraOutcome) (s : Page) :
  String.length (nik s) = 16%nat ->
  SessionResponse.success data = true ->
  createSession (SessionJson data) screen cam s =
  ([sessionRequestOf s],
   with_loading false
     (exec (startCamera screen cam)
        (with_framesRef []
           (with_step step_camera
              (with_session (SessionResponse.data data)
                 (with_error None (with_loading true s))))))).
Proof.
  intros Hn Hs. unfold createSession, bind, get.
  rewrite (nik_guard_passes s Hn).
  cbn [setLoading setError setSession setStep assignFrames modify]. rewrite Hs.
  cbn [negb]. unfold exec.
  destruct (startCamera screen cam _) as [u s1]. reflexivity.
Qed.

(** On the camera step the commit mounts the video. *)
Lemma commit_mounts (screen : CameraScreen) (s : Page) :
  step s = step_camera ->
  exists video : Video,
    videoRef (exec (commit screen) s) = Some video /\
    videoRef (exec (commit screen) s) = mounted (videoRef s) (screenVideo screen).
Proof.
  intros Hs. unfold exec, commit, modify. cbn [snd]. rewrite Hs.
  cbn [videoRef with_detectionCanvasRef with_canvasRef with_videoRef].
  destruct (videoRef s) as [video|]; eexists; split; reflexivity.
Qed.

Lemma startCamera_started (screen : CameraScreen) (stream : MediaStream) (s : Page) :
  step s = step_camera ->
  startCamera screen (CameraGranted stream true) s =
  (tt,
   let s1 := exec (commit screen) s in
   with_ovalSize (Fin 60)
     (with_borderColor white
        (with_instruction "Posisikan wajah dalam bingkai oval"
           (with_cameraReady true
              (with_streamRef (Some stream)
                 (with_liveTracks (liveTracks s1 ++ stream) s1)))))).
Proof.
  intros Hs. destruct (commit_mounts screen s Hs) as [video [Hv _]].
  unfold startCamera. rewrite bind_eq. cbv zeta.
  change (snd (commit screen s)) with (exec (commit screen) s).
  set (s1 := exec (commit screen) s) in *. clearbody s1.
  unfold bind, get.
  cbn [modify assignStream setCameraReady setInstruction setBorderColor setOvalSize
       videoRef with_streamRef with_liveTracks].
  rewrite Hv. reflexivity.
Qed.

(** When the server grants the session and the camera comes up, the page
    holds the session of the server, is on the camera step with an empty
    frame buffer and with the video mounted, holds the stream with every
    one of its tracks live, has the camera ready and the guidance reset
    (instruction, neutral colour, overlay 60), shows no error and is no
    longer loading; the detection loop runs unless a capture is in
    progress. *)
Theorem createSession_opens_camera :
  forall (data : SessionResponse.t) (screen : CameraScreen) (stream : MediaStream)
         (s : Page),
    String.length (nik s) = 16%nat ->
    SessionResponse.success data = true ->
    let s' :=
      exec (createSession (SessionJson data) screen (CameraGranted stream true)) s in
    fst (createSession (SessionJson data) screen (CameraGranted stream true) s) =
      [sessionRequestOf s] /\
    s' = cameraOpened data screen stream s /\
    session s' = SessionResponse.data data /\
    step s' = step_camera /\
    framesRef s' = [] /\
    videoRef s' = mounted (videoRef s) (screenVideo screen) /\
    canvasRef s' = mounted (canvasRef s) (screenCanvas screen) /\
    detectionCanvasRef s' = mounted (detectionCanvasRef s) (screenDetectionCanvas screen) /\
    streamRef s' = Some stream /\
    (forall track, In track stream -> In track (liveTracks s')) /\
    cameraReady s' = true /\
    instruction s' = "Posisikan wajah dalam bingkai oval" /\
    borderColor s' = white /\
    ovalSize s' = Fin 60 /\
    error s' = None /\
    loading s' = false /\
    detectionActive s' = negb (isCapturing s).
Proof.
  intros data screen stream s Hn Hs. cbv zeta.
  assert (E : createSession (SessionJson data) screen (CameraGranted stream true) s =
    ([sessionRequestOf s], cameraOpened data screen stream s)).
  { rewrite (createSession_succeeded data screen (CameraGranted stream true) s Hn Hs).
    unfold exec at 1. rewrite startCamera_started by reflexivity.
    unfold cameraOpened, sessionStored. cbv zeta. cbn [snd]. reflexivity. }
  unfold exec. rewrite E. cbn [fst snd].
  split; [reflexivity|]. split; [reflexivity|].
  split; [reflexivity|]. split; [reflexivity|]. split; [reflexivity|].
  split; [reflexivity|]. split; [reflexivity|]. split; [reflexivity|].
  split; [reflexivity|].
  split; [intros track Hin; cbn; apply in_or_app; right; exact Hin|].
  repeat split; reflexivity.
Qed.

Lemma startCamera_refused (screen : CameraScreen) (s : Page) :
  startCamera screen CameraRefused s =
  (tt, with_error (Some cameraError) (exec (commit screen) s)).
Proof. reflexivity. Qed.

Lemma startCamera_silent (screen : CameraScreen) (stream : MediaStream) (s : Page) :
  step s = step_camera ->
  startCamera screen (CameraGranted stream false) s =
  (tt,
   let s1 := exec (commit screen) s in
   with_error (Some cameraError)
     (with_streamRef (Some stream)
        (with_liveTracks (liveTracks s1 ++ stream) s1))).
Proof.
  intros Hs. destruct (commit_mounts screen s Hs) as [video [Hv _]].
  unfold startCamera. rewrite bind_eq. cbv zeta.
  change (snd (commit screen s)) with (exec (commit screen) s).
  set (s1 := exec (commit screen) s) in *. clearbody s1.
  unfold bind, get.
  cbn [modify assignStream setError videoRef with_streamRef with_liveTracks].
  rewrite Hv. reflexivity.
Qed.

(** When the server grants the session but the camera does not come up
    (the request for it is refused, or the stream does not play), the page
    is on the camera step all the same, with the video mounted, the
    session stored, the camera message as its error and the camera
    readiness it had; with the camera not ready the capture button is
    disabled and the detection loop does not run. A stream that was
    granted is held with its tracks live. *)
Theorem createSession_camera_fails :
  forall (data : SessionResponse.t) (screen : CameraScreen) (cam : CameraOutcome)
         (s : Page),
    String.length (nik s) = 16%nat ->
    SessionResponse.success data = true ->
    cameraComesUp cam = false ->
    let s' := exec (createSession (SessionJson data) screen cam) s in
    step s' = step_camera /\
    session s' = SessionResponse.data data /\
    videoRef s' = mounted (videoRef s) (screenVideo screen) /\
    error s' = Some cameraError /\
    loading s' = false /\
    cameraReady s' = cameraReady s /\
    (cameraReady s = false -> captureDisabled s' = true /\ detectionActive s' = false) /\
    (cam = CameraRefused -> streamRef s' = streamRef s /\ liveTracks s' = liveTracks s) /\
    (forall stream plays,
        cam = CameraGranted stream plays ->
        streamRef s' = Some stream /\
        forall track, In track stream -> In track (liveTracks s')).
Proof.
  intros data screen cam s Hn Hs Hc. cbv zeta.
  assert (Hbutton : forall p : Page,
             cameraReady p = cameraReady s -> step p = step_camera ->
             cameraReady s = false ->
             captureDisabled p = true /\ detectionActive p = false).
  { intros p Hp Hstep Hr. unfold captureDisabled, detectionActive.
    rewrite Hp, Hr, Hstep. split; reflexivity. }
  unfold exec. rewrite (createSession_succeeded data screen cam s Hn Hs). cbn [snd].
  destruct cam as [|stream plays].
  - unfold exec. rewrite startCamera_refused. cbn [snd].
    split; [reflexivity|]. split; [reflexivity|]. split; [reflexivity|].
    split; [reflexivity|]. split; [reflexivity|]. split; [reflexivity|].
    split; [apply Hbutton; reflexivity|].
    split; [intros _; split; reflexivity|].
    intros stream plays E. discriminate E.
  - destruct plays; [discriminate Hc|].
    unfold exec. rewrite startCamera_silent by reflexivity. cbn [snd].
    split; [reflexivity|]. split; [reflexivity|]. split; [reflexivity|].
    split; [reflexivity|]. split; [reflexivity|]. split; [reflexivity|].
    split; [apply Hbutton; reflexivity|].
    split; [intros E; discriminate E|].
    intros stream0 plays0 E. injection E as <- _.
    split; [reflexivity|].
    intros track Hin. cbn. apply in_or_app. right. exact Hin.
Qed.

Lemma createSession_request (net : SessionOutcome) (screen : CameraScreen)
  (cam : CameraOutcome) (s : Page) :
  String.length (nik s) = 16%nat ->
  fst (createSession net screen cam s) = [sessionRequestOf s].
Proof.
  intros Hn. destruct (sessionFails net) eqn:Hf.
  - rewrite (createSession_failed net screen cam s Hn Hf). reflexivity.
  - destruct net as [message|data]; [discriminate Hf|].
    cbn in Hf. apply negb_false_iff in Hf.
    rewrite (createSession_succeeded data screen cam s Hn Hf). reflexivity.
Qed.

(** Whatever was typed into the NIK field, a session request that the
    page then sends carries exactly 16 digits as its NIK, and the method
    chosen on the form. *)
Theorem typed_nik_request_has_16_digits :
  forall (value : string) (net : SessionOutcome) (screen : CameraScreen)
         (cam : CameraOutcome) (s : Page) (request : SessionRequest),
    In request (fst (createSession net screen cam (exec (onNikChange value) s))) ->
    allDigits (req_nik request) = true /\
    String.length (req_nik request) = 16%nat /\
    req_method request = method s.
Proof.
  intros value net screen cam s request Hin.
  set (s1 := exec (onNikChange value) s) in *.
  destruct (Nat.eq_dec (String.length (nik s1)) 16) as [Hn|Hn].
  - rewrite (createSession_request net screen cam s1 Hn) in Hin.
    destruct Hin as [<-|[]]. cbn [sessionRequestOf req_nik req_method].
    split; [|split; [exact Hn|reflexivity]].
    subst s1. unfold exec, onNikChange, setNik, modify. cbn [snd with_nik nik].
    apply substring_allDigits, stripNonDigits_allDigits.
  - rewrite (createSession_short net screen cam s1 Hn) in Hin. destruct Hin.
Qed.

Lemma typed_nik_request_has_16_digits_witness :
  fst (createSession (SessionJson sampleGrant) sampleScreen CameraRefused typedPage) =
    [ {| req_nik := "3275035402950020"; req_method := passive |} ] /\
  allDigits "3275035402950020" = true /\
  String.length "3275035402950020" = 16%nat.
Proof.
  assert (Hreq : fst (createSession (SessionJson sampleGrant) sampleScreen CameraRefused
                        typedPage) =
                 [ {| req_nik := "3275035402950020"; req_method := passive |} ])
    by (vm_compute; reflexivity).
  split; [exact Hreq|].
  assert (Hin : In {| req_nik := "3275035402950020"; req_method := passive |}
                   (fst (createSession (SessionJson sampleGrant) sampleScreen CameraRefused
                           (exec (onNikChange "3275-0354-0295-0020") formPage))))
    by (left; vm_compute; reflexivity).
  destruct (typed_nik_request_has_16_digits
              "3275-0354-0295-0020" (SessionJson sampleGrant) sampleScreen CameraRefused
              formPage
              {| req_nik := "3275035402950020"; req_method := passive |} Hin)
    as [Hd [Hl _]].
  split; [exact Hd | exact Hl].
Defined.

(** *** Holding and releasing the camera *)

Lemma stopAll_keeps (stream : MediaStream) (live : list nat) (t : nat) :
  In t live -> ~ In t stream -> In t (stopAll stream live).
Proof.
  revert live. induction stream as [|a stream IH]; intros live Hin Hout; [exact Hin|].
  change (In t (stopAll stream (remove Nat.eq_dec a live))).
  apply IH.
  - apply in_in_remove; [|exact Hin]. intros ->. apply Hout. left. reflexivity.
  - intros H. apply Hout. right. exact H.
Qed.

Lemma cameraStopped_twice (s : Page) : cameraStopped (cameraStopped s) = cameraStopped s.
Proof. page_eq. Qed.

(** Stopping the camera stops the tracks of the stream the page holds and
    no others: a live track of another stream stays live, and no track
    becomes live. Stopping it again changes nothing. *)
Theorem stopCamera_spares_other_tracks :
  forall s : Page,
    let s' := exec stopCamera s in
    (forall track,
        In track (liveTracks s) ->
        (forall stream, streamRef s = Some stream -> ~ In track stream) ->
        In track (liveTracks s')) /\
    (forall track, In track (liveTracks s') -> In track (liveTracks s)) /\
    (forall stream track,
        streamRef s = Some stream -> In track stream -> ~ In track (liveTracks s')) /\
    exec stopCamera s' = s'.
Proof.
  intros s. cbv zeta. unfold exec. rewrite !stopCamera_eq. cbn [snd].
  split; [|split; [|split]].
  - intros track Hin Hout. cbn. destruct (streamRef s) as [stream|]; [|exact Hin].
    apply stopAll_keeps; [exact Hin | apply Hout; reflexivity].
  - intros track Hin. cbn in Hin. destruct (streamRef s) as [stream|]; [|exact Hin].
    apply stopAll_incl in Hin. exact Hin.
  - intros stream track Hs Hin. cbn. rewrite Hs. apply stopAll_stops. exact Hin.
  - apply cameraStopped_twice.
Qed.

Lemma startCamera_holds (screen : CameraScreen) (stream : MediaStream) (plays : bool)
  (s : Page) :
  let s' := exec (startCamera screen (CameraGranted stream plays)) s in
  streamRef s' = Some stream /\ liveTracks s' = (liveTracks s ++ stream)%list.
Proof.
  cbv zeta. unfold exec, startCamera. rewrite bind_eq. cbv zeta.
  assert (Hl : liveTracks (snd (commit screen s)) = liveTracks s)
    by (unfold commit, modify; cbn [snd]; destruct (step s); reflexivity).
  set (s1 := snd (commit screen s)) in *. clearbody s1.
  unfold bind, get. cbn.
  destruct (videoRef s1); [destruct plays|]; cbn; rewrite Hl; split; reflexivity.
Qed.

(** Every track of a stream that the creation of a session acquires is
    stopped by the reset that follows, whether or not the stream played;
    the reset ends on the input step with no session and no stream. *)
Theorem createSession_then_reset_releases :
  forall (data : SessionResponse.t) (screen : CameraScreen) (stream : MediaStream)
         (plays : bool) (s : Page),
    String.length (nik s) = 16%nat ->
    SessionResponse.success data = true ->
    let s1 :=
      exec (createSession (SessionJson data) screen (CameraGranted stream plays)) s in
    let s2 := exec handleReset s1 in
    (forall track, In track stream -> In track (liveTracks s1)) /\
    (forall track, In track stream -> ~ In track (liveTracks s2)) /\
    streamRef s2 = None /\
    session s2 = None /\
    step s2 = step_input.
Proof.
  intros data screen stream plays s Hn Hs. cbv zeta.
  set (p := with_framesRef []
              (with_step step_camera
                 (with_session (SessionResponse.data data)
                    (with_error None (with_loading true s))))).
  assert (E1 : exec (createSession (SessionJson data) screen (CameraGranted stream plays)) s =
               with_loading false (exec (startCamera screen (CameraGranted stream plays)) p)).
  { unfold exec at 1.
    rewrite (createSession_succeeded data screen (CameraGranted stream plays) s Hn Hs).
    reflexivity. }
  rewrite E1. clear E1.
  destruct (startCamera_holds screen stream plays p) as [Hh Hl].
  set (q := exec (startCamera screen (CameraGranted stream plays)) p) in *.
  split.
  { intros track Hin. cbn [liveTracks with_loading]. rewrite Hl.
    apply in_or_app. right. exact Hin. }
  unfold exec. rewrite handleReset_eq. cbn [snd].
  split; [|repeat split; reflexivity].
  intros track Hin. cbn [liveTracks pageAfterReset streamRef with_loading].
  rewrite Hh. apply stopAll_stops. exact Hin.
Qed.

(** With a session and a non-empty frame buffer, submission releases the
    camera before the verdict arrives: no stream is held, every track of
    the stream that was held is stopped, the detection timer is cleared,
    the camera is not ready; so no capture can start and no tick runs. *)
Theorem submitVerification_releases_camera :
  forall (s : Page) (session0 : LivenessSession.t) (net : FetchOutcome),
    session s = Some session0 ->
    framesRef s <> [] ->
    let s' := exec (submitVerification net) s in
    streamRef s' = None /\
    (forall stream track,
        streamRef s = Some stream -> In track stream -> ~ In track (liveTracks s')) /\
    detectionIntervalRef s' = None /\
    (forall id, detectionIntervalRef s = Some id -> ~ In id (activeIntervals s')) /\
    cameraReady s' = false /\
    faceDetected s' = false /\
    canCapture s' = false /\
    captureDisabled s' = true /\
    detectionActive s' = false.
Proof.
  intros s session0 net Hs Hf. cbv zeta. unfold exec.
  rewrite (submitVerification_sent s session0 net Hs Hf). cbn [snd].
  destruct net as [message|data].
  - split; [reflexivity|].
    split; [intros stream track Hst Hin; cbn; rewrite Hst; apply stopAll_stops; exact Hin|].
    split; [reflexivity|].
    split; [intros id Hid; cbn; rewrite Hid; apply remove_In|].
    repeat split; reflexivity.
  - split; [reflexivity|].
    split; [intros stream track Hst Hin; cbn; rewrite Hst; apply stopAll_stops; exact Hin|].
    split; [reflexivity|].
    split; [intros id Hid; cbn; rewrite Hid; apply remove_In|].
    repeat split; reflexivity.
Qed.

Lemma resultPanel_error (p : Page) (message : string) :
  error p = Some message -> message <> "" -> result p = None ->
  resultPanel p = ErrorPanel message.
Proof.
  intros He Hm Hr. unfold resultPanel. rewrite He, Hr.
  apply String.eqb_neq in Hm. cbn. rewrite Hm. reflexivity.
Qed.

Lemma resultPanel_result (p : Page) (r : LivenessResult.t) :
  result p = Some r ->
  resultPanel p =
  if LivenessResult.isLive r then SuccessPanel r
  else FailurePanel
         (orElse (LivenessResult.failureReason r)
                 "Wajah tidak terdeteksi sebagai orang asli")
         (shownCode (LivenessResult.errorCode r)).
Proof.
  intros Hr. unfold resultPanel. rewrite Hr. cbn [isSome negb].
  rewrite andb_false_r. reflexivity.
Qed.

Lemma resultPanel_no_result (p : Page) (r : LivenessResult.t) :
  result p = None -> resultPanel p <> SuccessPanel r.
Proof.
  intros Hr. unfold resultPanel. rewrite Hr.
  destruct (truthyString (error p) && negb (isSome None)); discriminate.
Qed.

(** The panel that the result screen shows after a submission. A call
    that threw, on a page that held no earlier result, gives the error
    panel with the message of the exception (or the default). A refusal of
    the server gives the failure panel with its message (or the default)
    and its error code. An answer of the server gives the success panel
    exactly when its result says live. And the success panel is never
    shown for anything but an answer of the server with a live result. *)
Theorem resultPanel_after_submission :
  forall (s : Page) (session0 : LivenessSession.t) (net : FetchOutcome),
    session s = Some session0 ->
    framesRef s <> [] ->
    result s = None ->
    let s' := exec (submitVerification net) s in
    match net with
    | Rejected message =>
      resultPanel s' = ErrorPanel (orElse message "Terjadi kesalahan saat verifikasi")
    | Json data =>
      if ApiResponse.success data then
        forall r, ApiResponse.data data = Some r ->
          resultPanel s' =
          if LivenessResult.isLive r then SuccessPanel r
          else FailurePanel
                 (orElse (LivenessResult.failureReason r)
                         "Wajah tidak terdeteksi sebagai orang asli")
                 (shownCode (LivenessResult.errorCode r))
      else
        resultPanel s' =
        FailurePanel (orElse (ApiResponse.message data) "Verification failed")
                     (shownCode (ApiResponse.error_code data))
    end /\
    (forall r, resultPanel s' = SuccessPanel r ->
       exists data, net = Json data /\ ApiResponse.success data = true /\
                    ApiResponse.data data = Some r /\ LivenessResult.isLive r = true).
Proof.
  intros s session0 net Hs Hf Hr. cbv zeta. unfold exec.
  rewrite (submitVerification_sent s session0 net Hs Hf). cbn [snd].
  destruct net as [message|data].
  - match goal with
    | |- context [resultPanel ?p] => set (after := p)
    end.
    assert (Hne : orElse message "Terjadi kesalahan saat verifikasi" <> "")
      by (apply orElse_nonempty; discriminate).
    assert (Hp : resultPanel after =
                 ErrorPanel (orElse message "Terjadi kesalahan saat verifikasi")).
    { apply resultPanel_error; [reflexivity | exact Hne | exact Hr]. }
    split; [exact Hp|]. intros r H. rewrite Hp in H. discriminate H.
  - destruct (ApiResponse.success data) eqn:Hsucc.
    + match goal with
      | |- context [resultPanel ?p] => set (after := p)
      end.
      assert (Hres : result after = ApiResponse.data data) by reflexivity.
      split.
      * intros r Hd. apply resultPanel_result. rewrite Hres. exact Hd.
      * intros r H. exists data. split; [reflexivity|]. split; [exact Hsucc|].
        destruct (ApiResponse.data data) as [r0|] eqn:Hd.
        -- rewrite (resultPanel_result after r0 Hres) in H.
           destruct (LivenessResult.isLive r0) eqn:Hl; [|discriminate H].
           injection H as <-. split; [reflexivity | exact Hl].
        -- exfalso. exact (resultPanel_no_result after r Hres H).
    + match goal with
      | |- context [resultPanel ?p] => set (after := p)
      end.
      assert (Hres : result after = Some (failureResult session0 data)) by reflexivity.
      assert (Hne : orElse (ApiResponse.message data) "Verification failed" <> "")
        by (apply orElse_nonempty; discriminate).
      assert (Hp : resultPanel after =
                   FailurePanel (orElse (ApiResponse.message data) "Verification failed")
                                (shownCode (ApiResponse.error_code data))).
      { rewrite (resultPanel_result after _ Hres).
        cbn [failureResult LivenessResult.isLive LivenessResult.failureReason
             LivenessResult.errorCode].
        rewrite (orElse_given _ _ Hne). reflexivity. }
      split; [exact Hp|]. intros r H. rewrite Hp in H. discriminate H.
Qed.

(** *** What a detection tick returns *)

Lemma orNum_not_NaN (a : option num) (d : num) : d <> NaN -> orNum a d <> NaN.
Proof.
  intros Hd. destruct a as [v|]; cbn; [|exact Hd].
  destruct v; cbn; try exact Hd; try discriminate.
  destruct (Qeq_bool q 0); [exact Hd | discriminate].
Qed.

(** A tick returns a detection exactly when the detector ran and saw one
    face; the detection then carries the corner and the size of the box,
    and a confidence that is never NaN: the first usable one of the two
    scores of the prediction, else 0. *)
Theorem detectFace_returns_single_face :
  forall (outcome : Estimate) (s : Page),
    (forall d, fst (detectFace outcome s) = Some d ->
       exists w h face,
         frameSize s = Some (w, h) /\ outcome = Faces [face] /\
         FaceDetection.x d = fst (Prediction.topLeft face) /\
         FaceDetection.y d = snd (Prediction.topLeft face) /\
         FaceDetection.width d =
           (fst (Prediction.bottomRight face) - fst (Prediction.topLeft face))%num /\
         FaceDetection.height d =
           (snd (Prediction.bottomRight face) - snd (Prediction.topLeft face))%num /\
         FaceDetection.confidence d <> NaN) /\
    (forall face, outcome = Faces [face] -> frameSize s <> None ->
       fst (detectFace outcome s) <> None).
Proof.
  intros outcome s. split.
  - intros d H. unfold detectFace, bind, get, frameSize in *.
    destruct (videoRef s) as [video|]; [|discriminate H].
    destruct (modelRef s); [|discriminate H].
    destruct (detectionCanvasRef s) as [canvas|]; [|discriminate H].
    destruct (Canvas.context2d canvas); [|discriminate H].
    cbn in H. destruct outcome as [|predictions]; [discriminate H|].
    destruct predictions as [|face [|face2 rest]]; cbn in H; try discriminate H.
    exists (videoWidth video), (videoHeight video), face.
    split; [reflexivity|]. split; [reflexivity|].
    destruct (faceRatio face (videoWidth video) (videoHeight video) <? Num.lit 0.15)%num;
      [|destruct (faceRatio face (videoWidth video) (videoHeight video) >? Num.lit 0.35)%num];
      cbn in H; injection H as <-; cbn;
      (repeat split; try reflexivity);
      apply orNum_not_NaN, orNum_not_NaN; discriminate.
  - intros face -> Hsize. unfold detectFace, bind, get, frameSize in *.
    destruct (videoRef s) as [video|]; [|congruence].
    destruct (modelRef s); [|congruence].
    destruct (detectionCanvasRef s) as [canvas|]; [|congruence].
    destruct (Canvas.context2d canvas); [|congruence].
    cbn.
    destruct (faceRatio face (videoWidth video) (videoHeight video) <? Num.lit 0.15)%num;
      [|destruct (faceRatio face (videoWidth video) (videoHeight video) >? Num.lit 0.35)%num];
      cbn; discriminate.
Qed.

(** ** Properties of whole capture runs *)

Section WholeRuns.

Variable toDataURL : Z -> string.
Variable inherited : string -> option Inherited.

Lemma captureFrame_blind {A : Type} (f : Page -> A) (tag : option string) (s : Page) :
  blindToCapture f -> f (snd (captureFrame toDataURL tag s)) = f s.
Proof.
  intros [_ [_ Hc]]. unfold captureFrame, bind, get.
  destruct (videoRef s); [|reflexivity].
  destruct (canvasRef s) as [canvas|]; [|reflexivity].
  destruct (Canvas.context2d canvas); [|reflexivity].
  cbn [negb modify ret snd]. apply Hc.
Qed.

Lemma pushFrame_blind {A : Type} (f : Page -> A) (frame : option Frame) (s : Page) :
  blindToCapture f -> f (snd (pushFrame frame s)) = f s.
Proof.
  intros [Hf _]. destruct frame; [|reflexivity]. cbn [pushFrame modify snd]. apply Hf.
Qed.

Lemma passiveLoop_next (count : nat) (s : Page) :
  exec (passiveLoop toDataURL (S count)) s =
  exec (passiveLoop toDataURL count)
    (exec (sleep 400)
       (snd (pushFrame (fst (captureFrame toDataURL None s))
                       (snd (captureFrame toDataURL None s))))).
Proof.
  unfold exec. cbn [passiveLoop]. unfold bind at 1.
  destruct (captureFrame toDataURL None s) as [frame s1]. cbn [fst snd].
  unfold bind at 1. destruct (pushFrame frame s1) as [u s2]. cbn [snd].
  unfold bind at 1. destruct (sleep 400 s2) as [u' s3]. reflexivity.
Qed.

(** The passive loop writes nothing but the frame buffer, the clock and
    the capture canvas. *)
Lemma passiveLoop_blind {A : Type} (f : Page -> A) (count : nat) :
  blindToCapture f ->
  forall s : Page, f (exec (passiveLoop toDataURL count) s) = f s.
Proof.
  intros Hb. induction count as [|count IH]; intros s; [reflexivity|].
  rewrite passiveLoop_next, IH.
  unfold exec, sleep, modify. cbn [snd].
  destruct Hb as [Hf [Hn Hc]]. rewrite Hn.
  rewrite (pushFrame_blind f _ _ (conj Hf (conj Hn Hc))).
  apply captureFrame_blind. exact (conj Hf (conj Hn Hc)).
Qed.

Lemma activeLoop_next (i : nat) (challenge : string) (rest : list string) (s : Page) :
  showable inherited challenge = true ->
  let shown :=
    with_now (now s + 2500)
      (with_borderColor white
        (with_instruction (promptFor inherited challenge (instruction s))
          (with_currentChallenge (Some challenge) (with_challengeIndex i s)))) in
  exec (activeLoop toDataURL inherited i (challenge :: rest)) s =
  exec (activeLoop toDataURL inherited (S i) rest)
    (snd (pushFrame (fst (captureFrame toDataURL (Some challenge) shown))
                    (snd (captureFrame toDataURL (Some challenge) shown)))).
Proof.
  intros Hshow. cbv zeta. unfold exec. rewrite activeLoop_unfold.
  unfold bind at 1 2 3 4 5.
  unfold setChallengeIndex, setCurrentChallenge, setBorderColor, sleep, modify.
  rewrite (showChallenge_shown inherited challenge _ Hshow).
  change (instruction (with_currentChallenge (Some challenge) (with_challengeIndex i s)))
    with (instruction s).
  generalize (promptFor inherited challenge (instruction s)) as name.
  intros name.
  change (now (with_borderColor white
          (with_instruction name
             (with_currentChallenge (Some challenge) (with_challengeIndex i s)))))
    with (now s).
  unfold bind at 1.
  destruct (captureFrame toDataURL (Some challenge) _) as [frame s1]. cbn [fst snd].
  unfold bind at 1. destruct (pushFrame frame s1) as [u s2]. reflexivity.
Qed.

(** The active loop writes nothing but the frame buffer, the clock, the
    capture canvas and the prompt of the challenge. *)
Lemma activeLoop_blind {A : Type} (f : Page -> A) (challenges : list string) :
  blindToPrompt f ->
  forallb (showable inherited) challenges = true ->
  forall (i : nat) (s : Page), f (exec (activeLoop toDataURL inherited i challenges) s) = f s.
Proof.
  intros Hb. induction challenges as [|challenge rest IH]; intros Hshow i s; [reflexivity|].
  cbn [forallb] in Hshow. apply andb_true_iff in Hshow. destruct Hshow as [Hshow Hrest].
  rewrite (activeLoop_next i challenge rest s Hshow), (IH Hrest).
  destruct Hb as [Hcap [Hi [Hc [Hin Hbc]]]].
  rewrite (pushFrame_blind f _ _ Hcap), (captureFrame_blind f _ _ Hcap).
  destruct Hcap as [_ [Hn _]]. rewrite Hn, Hbc, Hin, Hc, Hi. reflexivity.
Qed.

Lemma afterCountdown_eq (s : Page) :
  afterCountdown s =
  with_countdown None
    (with_now (now s + 3000)
       (with_instruction "Bersiap..." (with_isCapturing true s))).
Proof.
  apply page_ext; cbn -[Z.add]; try reflexivity. lia.
Qed.

Lemma captureDisabled_allows (s : Page) :
  captureDisabled s = false ->
  captureBlocked s = false /\ cameraReady s = true /\ countdown s = None /\
  isCapturing s = false.
Proof.
  unfold captureDisabled, captureBlocked. intros H.
  destruct (cameraReady s); [|discriminate H].
  destruct (countdown s); [discriminate H|].
  destruct (faceDetected s); [|discriminate H].
  destruct (isGood (faceDistance s)); [|discriminate H].
  destruct (faceCount s =? 1)%nat; [|discriminate H].
  destruct (isCapturing s); [discriminate H|].
  repeat split; reflexivity.
Qed.

Lemma startVerification_runs (net : FetchOutcome) (s : Page)
      (session0 : LivenessSession.t) :
  session s = Some session0 ->
  captureBlocked s = false ->
  startVerification toDataURL inherited net s =
  (tt,
   with_isCapturing false
     (exec (match method s with
            | passive => runPassiveVerification toDataURL net
            | active => runActiveVerification toDataURL inherited net
            end) (afterCountdown s))).
Proof.
  intros Hs Hb. unfold startVerification. rewrite bind_eq. cbv beta.
  change (snd (get s)) with s. change (fst (get s)) with s. rewrite Hs, Hb.
  unfold afterCountdown, exec.
  repeat (rewrite bind_eq; cbv beta).
  reflexivity.
Qed.


Lemma blind_countdown : blindToPrompt countdown.
Proof. repeat split; reflexivity. Qed.

Lemma blind_requests : blindToPrompt requests.
Proof. repeat split; reflexivity. Qed.

Lemma blind_streamRef : blindToPrompt streamRef.
Proof. repeat split; reflexivity. Qed.

Lemma blind_liveTracks : blindToPrompt liveTracks.
Proof. repeat split; reflexivity. Qed.

Lemma blind_step : blindToPrompt step.
Proof. repeat split; reflexivity. Qed.

Lemma blind_error : blindToPrompt error.
Proof. repeat split; reflexivity. Qed.

Lemma submitVerification_fields (s : Page) (session0 : LivenessSession.t)
      (net : FetchOutcome) :
  session s = Some session0 ->
  framesRef s <> [] ->
  let s' := exec (submitVerification net) s in
  step s' = step_result /\
  countdown s' = countdown s /\
  framesRef s' = framesRef s /\
  now s' = now s /\
  requests s' =
    (requests s ++ [ {| req_sessionId := LivenessSession.sessionId session0;
                        req_frames := framesRef s |} ])%list /\
  streamRef s' = None /\
  cameraReady s' = false /\
  liveTracks s' =
    match streamRef s with
    | Some stream => stopAll stream (liveTracks s)
    | None => liveTracks s
    end /\
  currentChallenge s' = currentChallenge s.
Proof.
  intros Hs Hf. cbv zeta. unfold exec.
  rewrite (submitVerification_sent s session0 net Hs Hf). cbn [snd].
  destruct net as [message|data]; repeat split; reflexivity.
Qed.

Lemma runPassiveVerification_eq (net : FetchOutcome) (s : Page) :
  exec (runPassiveVerification toDataURL net) s =
  exec (submitVerification net)
    (exec (passiveLoop toDataURL 5)
       (with_framesRef []
          (with_borderColor green
             (with_instruction "Tetap diam, sedang memverifikasi..." s)))).
Proof.
  unfold runPassiveVerification, exec.
  repeat (rewrite bind_eq; cbv beta). reflexivity.
Qed.

(** A press on the enabled capture button of a passive session, with
    every capture succeeding, runs the whole attempt: three seconds of
    countdown, five untagged frames 400 ms apart, one verify request that
    carries exactly these frames under the session id, the camera
    released, and the page on the result step with the capture flag and
    the countdown cleared; 5000 ms of waits in all. *)
Theorem startVerification_passive_run :
  forall (s : Page) (session0 : LivenessSession.t) (net : FetchOutcome),
    session s = Some session0 ->
    method s = passive ->
    captureDisabled s = false ->
    captureReady s = true ->
    let s' := exec (startVerification toDataURL inherited net) s in
    let shots := passiveShots toDataURL (now s + 3000) 5 in
    step s' = step_result /\
    isCapturing s' = false /\
    countdown s' = None /\
    framesRef s' = shots /\
    requests s' =
      (requests s ++ [ {| req_sessionId := LivenessSession.sessionId session0;
                          req_frames := shots |} ])%list /\
    now s' = (now s + 5000)%Z /\
    streamRef s' = None /\
    cameraReady s' = false /\
    (forall stream track,
        streamRef s = Some stream -> In track stream -> ~ In track (liveTracks s')).
Proof.
  intros s session0 net Hs Hm Hd Hready. cbv zeta.
  destruct (captureDisabled_allows s Hd) as [Hb _].
  assert (E : exec (startVerification toDataURL inherited net) s =
              with_isCapturing false
                (exec (runPassiveVerification toDataURL net) (afterCountdown s))).
  { unfold exec at 1. rewrite (startVerification_runs net s session0 Hs Hb), Hm.
    reflexivity. }
  rewrite E. clear E. rewrite runPassiveVerification_eq, afterCountdown_eq.
  set (s0 := with_framesRef [] _).
  assert (Hready0 : captureReady s0 = true) by exact Hready.
  assert (Hnow0 : now s0 = (now s + 3000)%Z) by reflexivity.
  assert (Hses0 : session s0 = Some session0) by exact Hs.
  assert (Hcd0 : countdown s0 = None) by reflexivity.
  assert (Hreq0 : requests s0 = requests s) by reflexivity.
  assert (Hstr0 : streamRef s0 = streamRef s) by reflexivity.
  assert (Hliv0 : liveTracks s0 = liveTracks s) by reflexivity.
  assert (Hfr0 : framesRef s0 = []) by reflexivity.
  clearbody s0.
  destruct (passiveLoop_frames toDataURL 5 s0 Hready0) as [Lf [Ln [_ Ls]]].
  pose proof (passiveLoop_blind countdown 5 (proj1 blind_countdown) s0) as Lcd.
  pose proof (passiveLoop_blind requests 5 (proj1 blind_requests) s0) as Lreq.
  pose proof (passiveLoop_blind streamRef 5 (proj1 blind_streamRef) s0) as Lstr.
  pose proof (passiveLoop_blind liveTracks 5 (proj1 blind_liveTracks) s0) as Lliv.
  set (sL := exec (passiveLoop toDataURL 5) s0) in *. clearbody sL.
  rewrite Hfr0, Hnow0 in Lf. cbn [app] in Lf. rewrite Hnow0 in Ln.
  assert (Hne : framesRef sL <> []) by (rewrite Lf; discriminate).
  assert (HsL : session sL = Some session0) by (rewrite Ls; exact Hses0).
  destruct (submitVerification_fields sL session0 net HsL Hne)
    as [Fstep [Fcd [Ffr [Fnow [Freq [Fstr [Fcam [Fliv _]]]]]]]].
  set (sF := exec (submitVerification net) sL) in *. clearbody sF.
  cbn [step isCapturing countdown framesRef requests now streamRef cameraReady
       liveTracks with_isCapturing].
  split; [exact Fstep|]. split; [reflexivity|].
  split; [rewrite Fcd, Lcd; exact Hcd0|].
  split; [rewrite Ffr; exact Lf|].
  split; [rewrite Freq, Lreq, Hreq0, Lf; reflexivity|].
  split; [rewrite Fnow, Ln; lia|].
  split; [exact Fstr|]. split; [exact Fcam|].
  intros stream track Hst Hin. rewrite Fliv, Lstr, Hstr0, Hst.
  apply stopAll_stops. exact Hin.
Qed.


Lemma runActiveVerification_eq (net : FetchOutcome) (s : Page)
      (session0 : LivenessSession.t) (challenges : list string) :
  session s = Some session0 ->
  LivenessSession.challenges session0 = Some challenges ->
  exec (runActiveVerification toDataURL inherited net) s =
  exec (submitVerification net)
    (with_currentChallenge None
       (exec (activeLoop toDataURL inherited 0 challenges) (with_framesRef [] s))).
Proof.
  intros Hs Hc. unfold runActiveVerification, exec. rewrite bind_eq. cbv beta.
  change (snd (get s)) with s. change (fst (get s)) with s. rewrite Hs, Hc.
  repeat (rewrite bind_eq; cbv beta). reflexivity.
Qed.

Lemma runActiveVerification_skipped (net : FetchOutcome) (s : Page) :
  (forall session0, session s = Some session0 ->
                    LivenessSession.challenges session0 = None) ->
  runActiveVerification toDataURL inherited net s = (tt, s).
Proof.
  intros H. unfold runActiveVerification. rewrite bind_eq. cbv beta.
  change (snd (get s)) with s. change (fst (get s)) with s.
  destruct (session s) as [session0|]; [|reflexivity].
  rewrite (H session0 eq_refl). reflexivity.
Qed.

(** A press on the enabled capture button of an active session with at
    least one challenge, with every capture succeeding (the elements of
    the camera screen are there and every prompt can be shown), runs the whole
    attempt: three seconds of countdown, then for each challenge of the
    session, in order, 2500 ms of wait and one frame tagged with it; one
    verify request that carries exactly these frames under the session id;
    the camera released; the page on the result step with the capture
    flag, the countdown and the current challenge cleared. *)
Theorem startVerification_active_run :
  forall (s : Page) (session0 : LivenessSession.t) (challenges : list string)
         (net : FetchOutcome),
    session s = Some session0 ->
    LivenessSession.challenges session0 = Some challenges ->
    challenges <> [] ->
    method s = active ->
    captureDisabled s = false ->
    captureReady s = true ->
    forallb (showable inherited) challenges = true ->
    let s' := exec (startVerification toDataURL inherited net) s in
    let shots := activeShots toDataURL (now s + 3000) challenges in
    step s' = step_result /\
    isCapturing s' = false /\
    countdown s' = None /\
    currentChallenge s' = None /\
    framesRef s' = shots /\
    map action shots = map Some challenges /\
    requests s' =
      (requests s ++ [ {| req_sessionId := LivenessSession.sessionId session0;
                          req_frames := shots |} ])%list /\
    now s' = (now s + 3000 + 2500 * Z.of_nat (List.length challenges))%Z /\
    streamRef s' = None /\
    cameraReady s' = false /\
    (forall stream track,
        streamRef s = Some stream -> In track stream -> ~ In track (liveTracks s')).
Proof.
  intros s session0 challenges net Hs Hc Hcs Hm Hd Hready Hshow. cbv zeta.
  destruct (captureDisabled_allows s Hd) as [Hb _].
  assert (E : exec (startVerification toDataURL inherited net) s =
              with_isCapturing false
                (exec (runActiveVerification toDataURL inherited net) (afterCountdown s))).
  { unfold exec at 1. rewrite (startVerification_runs net s session0 Hs Hb), Hm.
    reflexivity. }
  rewrite E. clear E.
  assert (Hsc : session (afterCountdown s) = Some session0)
    by (rewrite afterCountdown_eq; exact Hs).
  rewrite (runActiveVerification_eq net (afterCountdown s) session0 challenges Hsc Hc).
  rewrite afterCountdown_eq.
  set (s0 := with_framesRef [] _).
  assert (Hready0 : captureReady s0 = true) by exact Hready.
  assert (Hnow0 : now s0 = (now s + 3000)%Z) by reflexivity.
  assert (Hses0 : session s0 = Some session0) by exact Hs.
  assert (Hcd0 : countdown s0 = None) by reflexivity.
  assert (Hreq0 : requests s0 = requests s) by reflexivity.
  assert (Hstr0 : streamRef s0 = streamRef s) by reflexivity.
  assert (Hliv0 : liveTracks s0 = liveTracks s) by reflexivity.
  assert (Hfr0 : framesRef s0 = []) by reflexivity.
  clearbody s0.
  destruct (activeLoop_frames toDataURL inherited challenges Hshow 0 s0 Hready0)
    as [Lf [Ln [_ Ls]]].
  pose proof (activeLoop_blind countdown challenges blind_countdown Hshow 0%nat s0) as Lcd.
  pose proof (activeLoop_blind requests challenges blind_requests Hshow 0%nat s0) as Lreq.
  pose proof (activeLoop_blind streamRef challenges blind_streamRef Hshow 0%nat s0) as Lstr.
  pose proof (activeLoop_blind liveTracks challenges blind_liveTracks Hshow 0%nat s0) as Lliv.
  set (sL := exec (activeLoop toDataURL inherited 0 challenges) s0) in *. clearbody sL.
  rewrite Hfr0, Hnow0 in Lf. cbn [app] in Lf. rewrite Hnow0 in Ln.
  set (sC := with_currentChallenge None sL).
  assert (Cf : framesRef sC = framesRef sL) by reflexivity.
  assert (Cn : now sC = now sL) by reflexivity.
  assert (Cs : session sC = session sL) by reflexivity.
  assert (Ccd : countdown sC = countdown sL) by reflexivity.
  assert (Creq : requests sC = requests sL) by reflexivity.
  assert (Cstr : streamRef sC = streamRef sL) by reflexivity.
  assert (Cliv : liveTracks sC = liveTracks sL) by reflexivity.
  assert (Ccur : currentChallenge sC = None) by reflexivity.
  clearbody sC.
  assert (Hne : framesRef sC <> []).
  { rewrite Cf, Lf. destruct challenges; [congruence | discriminate]. }
  assert (HsC : session sC = Some session0) by (rewrite Cs, Ls; exact Hses0).
  destruct (submitVerification_fields sC session0 net HsC Hne)
    as [Fstep [Fcd [Ffr [Fnow [Freq [Fstr [Fcam [Fliv Fcur]]]]]]]].
  set (sF := exec (submitVerification net) sC) in *. clearbody sF.
  cbn [step isCapturing countdown currentChallenge framesRef requests now streamRef
       cameraReady liveTracks with_isCapturing].
  split; [exact Fstep|]. split; [reflexivity|].
  split; [rewrite Fcd, Ccd, Lcd; exact Hcd0|].
  split; [rewrite Fcur; exact Ccur|].
  split; [rewrite Ffr, Cf; exact Lf|].
  split; [apply activeShots_tags|].
  split; [rewrite Freq, Creq, Lreq, Hreq0, Cf, Lf; reflexivity|].
  split; [rewrite Fnow, Cn, Ln; reflexivity|].
  split; [exact Fstr|]. split; [exact Fcam|].
  intros stream track Hst Hin. rewrite Fliv, Cstr, Cliv, Lstr, Lliv, Hstr0, Hliv0, Hst.
  apply stopAll_stops. exact Hin.
Qed.

(** A press on the enabled capture button in active mode when the session
    has no challenge list, or an empty one: the countdown runs and the
    attempt ends there. No verify request is sent, the page stays on its
    step with the camera held, and the capture flag and the countdown are
    cleared so that the button works again; with an empty list the page
    also gets the message of the empty buffer. *)
Theorem startVerification_active_without_challenges :
  forall (s : Page) (session0 : LivenessSession.t) (net : FetchOutcome),
    session s = Some session0 ->
    LivenessSession.challenges session0 = None \/
    LivenessSession.challenges session0 = Some [] ->
    method s = active ->
    captureDisabled s = false ->
    let s' := exec (startVerification toDataURL inherited net) s in
    requests s' = requests s /\
    step s' = step s /\
    streamRef s' = streamRef s /\
    liveTracks s' = liveTracks s /\
    result s' = result s /\
    isCapturing s' = false /\
    countdown s' = None /\
    now s' = (now s + 3000)%Z /\
    (LivenessSession.challenges session0 = None ->
       framesRef s' = framesRef s /\ error s' = error s) /\
    (LivenessSession.challenges session0 = Some [] ->
       framesRef s' = [] /\ error s' = Some noFrames).
Proof.
  intros s session0 net Hs Hc Hm Hd. cbv zeta.
  destruct (captureDisabled_allows s Hd) as [Hb _].
  assert (E : exec (startVerification toDataURL inherited net) s =
              with_isCapturing false
                (exec (runActiveVerification toDataURL inherited net) (afterCountdown s))).
  { unfold exec at 1. rewrite (startVerification_runs net s session0 Hs Hb), Hm.
    reflexivity. }
  rewrite E. clear E.
  assert (Hsc : session (afterCountdown s) = Some session0)
    by (rewrite afterCountdown_eq; exact Hs).
  destruct Hc as [Hc|Hc].
  - unfold exec at 1 2 3 4 5 6 7 8 9 10 11.
    rewrite runActiveVerification_skipped.
    2:{ intros session1 H1. rewrite Hsc in H1. injection H1 as <-. exact Hc. }
    cbn [snd]. rewrite afterCountdown_eq.
    do 8 (split; [reflexivity|]).
    split; [intros _; split; reflexivity | intros Habs; congruence].
  - rewrite (runActiveVerification_eq net (afterCountdown s) session0 [] Hsc Hc).
    rewrite afterCountdown_eq. unfold exec. cbn [activeLoop ret snd].
    match goal with
    | |- context [submitVerification net ?p] => set (sC := p)
    end.
    assert (Hfr : framesRef sC = []) by reflexivity.
    rewrite (submitVerification_empty sC net Hfr). cbn [snd]. subst sC.
    do 8 (split; [reflexivity|]).
    split; [intros Habs; congruence | intros _; split; reflexivity].
Qed.

Lemma captureFrame_not_ready (tag : option string) (s : Page) :
  captureReady s = false -> captureFrame toDataURL tag s = (None, s).
Proof.
  intros H. unfold captureReady in H. unfold captureFrame, bind, get.
  destruct (videoRef s); [|reflexivity].
  destruct (canvasRef s) as [canvas|]; [|reflexivity].
  rewrite H. reflexivity.
Qed.

Lemma passiveLoop_not_ready (count : nat) :
  forall s : Page,
    captureReady s = false ->
    framesRef (exec (passiveLoop toDataURL count) s) = framesRef s /\
    now (exec (passiveLoop toDataURL count) s) = (now s + 400 * Z.of_nat count)%Z.
Proof.
  induction count as [|count IH]; intros s H.
  - split; [reflexivity|]. cbn [passiveLoop exec ret snd]. lia.
  - rewrite passiveLoop_next, (captureFrame_not_ready None s H).
    cbn [fst snd pushFrame ret]. 
    assert (H1 : captureReady (exec (sleep 400) s) = false) by exact H.
    destruct (IH (exec (sleep 400) s) H1) as [If In]. rewrite If, In.
    split; [reflexivity|].
    change (now (exec (sleep 400) s)) with (now s + 400)%Z. lia.
Qed.

(** A passive run on a page where no still can be captured (the video or
    the capture canvas is missing) waits its five times 400 ms, captures
    nothing and ends with the message of the empty buffer: no verify
    request is sent, the step does not change and the camera is not
    released. *)
Theorem runPassiveVerification_without_captures :
  forall (s : Page) (net : FetchOutcome),
    captureReady s = false ->
    let s' := exec (runPassiveVerification toDataURL net) s in
    framesRef s' = [] /\
    error s' = Some noFrames /\
    requests s' = requests s /\
    step s' = step s /\
    streamRef s' = streamRef s /\
    liveTracks s' = liveTracks s /\
    now s' = (now s + 2000)%Z.
Proof.
  intros s net H. cbv zeta. rewrite runPassiveVerification_eq.
  set (s0 := with_framesRef [] _).
  assert (H0 : captureReady s0 = false) by exact H.
  assert (Hreq0 : requests s0 = requests s) by reflexivity.
  assert (Hstep0 : step s0 = step s) by reflexivity.
  assert (Hstr0 : streamRef s0 = streamRef s) by reflexivity.
  assert (Hliv0 : liveTracks s0 = liveTracks s) by reflexivity.
  assert (Hnow0 : now s0 = now s) by reflexivity.
  assert (Hfr0 : framesRef s0 = []) by reflexivity.
  clearbody s0.
  destruct (passiveLoop_not_ready 5 s0 H0) as [Lf Ln].
  pose proof (passiveLoop_blind requests 5 (proj1 blind_requests) s0) as Lreq.
  pose proof (passiveLoop_blind step 5 (proj1 blind_step) s0) as Lstep.
  pose proof (passiveLoop_blind streamRef 5 (proj1 blind_streamRef) s0) as Lstr.
  pose proof (passiveLoop_blind liveTracks 5 (proj1 blind_liveTracks) s0) as Lliv.
  set (sL := exec (passiveLoop toDataURL 5) s0) in *. clearbody sL.
  rewrite Hfr0 in Lf.
  unfold exec. rewrite (submitVerification_empty sL net Lf).
  cbn [snd framesRef error requests step streamRef liveTracks now with_error].
  split; [exact Lf|]. split; [reflexivity|].
  split; [rewrite Lreq; exact Hreq0|]. split; [rewrite Lstep; exact Hstep0|].
  split; [rewrite Lstr; exact Hstr0|]. split; [rewrite Lliv; exact Hliv0|].
  rewrite Ln, Hnow0. lia.
Qed.

End WholeRuns.

(** ** More properties of the guidance engine *)

Lemma frameSize_detectFace (outcome : Estimate) (s : Page) :
  frameSize (exec (detectFace outcome) s) = frameSize s.
Proof.
  destruct (frameSize s) as [[w h]|] eqn:Hsize.
  - assert (Hsampled : frameSize (sampled w h s) = Some (w, h)).
    { unfold frameSize in *. cbn.
      destruct (videoRef s) as [video|]; [|discriminate Hsize].
      destruct (modelRef s); [|discriminate Hsize].
      destruct (detectionCanvasRef s) as [canvas|]; [|discriminate Hsize].
      destruct (Canvas.context2d canvas); [|discriminate Hsize].
      exact Hsize. }
    destruct outcome as [|predictions].
    + rewrite (detectFace_throws s Hsize). exact Hsampled.
    + destruct predictions as [|face [|face2 rest]].
      * rewrite (detectFace_zero s Hsize). exact Hsampled.
      * destruct (faceRatio face w h <? Num.lit 0.15)%num eqn:Hfar.
        -- rewrite (detectFace_too_far s face Hsize Hfar). exact Hsampled.
        -- destruct (faceRatio face w h >? Num.lit 0.35)%num eqn:Hclose.
           ++ rewrite (detectFace_too_close s face Hsize Hfar Hclose). exact Hsampled.
           ++ rewrite (detectFace_good s face Hsize Hfar Hclose). exact Hsampled.
      * rewrite (detectFace_many s (face :: face2 :: rest) Hsize) by (cbn; lia).
        exact Hsampled.
  - rewrite (detectFace_none s outcome Hsize). exact Hsize.
Qed.

Lemma detectFace_keeps_range (outcome : Estimate) (s : Page) :
  ovalInRange s ->
  (forall w h, frameSize s = Some (w, h) -> numericRatio w h outcome = true) ->
  ovalInRange (exec (detectFace outcome) s).
Proof.
  intros Hr Hnum.
  destruct (frameSize s) as [[w h]|] eqn:Hsize.
  - specialize (Hnum w h eq_refl).
    destruct outcome as [|predictions].
    + rewrite (detectFace_throws s Hsize). exact Hr.
    + destruct predictions as [|face [|face2 rest]].
      * rewrite (detectFace_zero s Hsize). exact Hr.
      * cbn [numericRatio] in Hnum.
        destruct (faceRatio face w h <? Num.lit 0.15)%num eqn:Hfar.
        -- rewrite (detectFace_too_far s face Hsize Hfar).
           exists 60. split; [reflexivity | lra].
        -- destruct (faceRatio face w h >? Num.lit 0.35)%num eqn:Hclose.
           ++ rewrite (detectFace_too_close s face Hsize Hfar Hclose).
              exists 85. split; [reflexivity | lra].
           ++ rewrite (detectFace_good s face Hsize Hfar Hclose).
              unfold Num.gtb in Hclose. rewrite lit_0_15 in Hfar. rewrite lit_0_35 in Hclose.
              destruct (faceRatio face w h) as [r| | |];
                try discriminate Hfar; try discriminate Hclose; try discriminate Hnum.
              apply Qltb_false in Hfar, Hclose.
              apply overlayOf_bounds. split; assumption.
      * rewrite (detectFace_many s (face :: face2 :: rest) Hsize) by (cbn; lia).
        exact Hr.
  - rewrite (detectFace_none s outcome Hsize). exact Hr.
Qed.

(** Through any run of detection ticks in which the ratio of every face
    seen alone is a number, the overlay size stays a number between 60
    and 85 once it is one (it starts at 60). *)
Theorem guidance_keeps_overlay_in_range :
  forall (outcomes : list Estimate) (s : Page),
    ovalInRange s ->
    (forall w h, frameSize s = Some (w, h) -> forallb (numericRatio w h) outcomes = true) ->
    ovalInRange (tickAll outcomes s).
Proof.
  induction outcomes as [|outcome rest IH]; intros s Hr Hnum; [exact Hr|].
  cbn [tickAll]. apply IH.
  - apply detectFace_keeps_range; [exact Hr|].
    intros w h Hsize. specialize (Hnum w h Hsize).
    cbn [forallb] in Hnum. apply andb_true_iff in Hnum. apply Hnum.
  - intros w h Hsize. rewrite frameSize_detectFace in Hsize.
    specialize (Hnum w h Hsize).
    cbn [forallb] in Hnum. apply andb_true_iff in Hnum. apply Hnum.
Qed.

(** The ratio of a box depends on its size only. *)
Lemma faceRatio_boxAt (x1 y1 x2 y2 bw bh : Q) (p1 c1 p2 c2 : option num) (w h : N) :
  faceRatio (boxAt x1 y1 bw bh p1 c1) w h = faceRatio (boxAt x2 y2 bw bh p2 c2) w h.
Proof.
  unfold faceRatio, boxAt. cbn [Prediction.topLeft Prediction.bottomRight fst snd].
  change (Fin (x1 + bw) - Fin x1)%num with (Binary64.round (x1 + bw + - x1)).
  change (Fin (x2 + bw) - Fin x2)%num with (Binary64.round (x2 + bw + - x2)).
  change (Fin (y1 + bh) - Fin y1)%num with (Binary64.round (y1 + bh + - y1)).
  change (Fin (y2 + bh) - Fin y2)%num with (Binary64.round (y2 + bh + - y2)).
  rewrite (Binary64Facts.round_comp (x1 + bw + - x1) (x2 + bw + - x2)) by ring.
  rewrite (Binary64Facts.round_comp (y1 + bh + - y1) (y2 + bh + - y2)) by ring.
  reflexivity.
Qed.

(** What a tick makes of a face seen alone depends on its ratio only. *)
Lemma detectFace_by_ratio (s : Page) (w h : N) (face1 face2 : Prediction.t) :
  frameSize s = Some (w, h) ->
  faceRatio face1 w h = faceRatio face2 w h ->
  exec (detectFace (Faces [face1])) s = exec (detectFace (Faces [face2])) s.
Proof.
  intros Hsize E.
  destruct (faceRatio face2 w h <? Num.lit 0.15)%num eqn:F2.
  - assert (F1 := F2). rewrite <- E in F1.
    rewrite (detectFace_too_far s face1 Hsize F1), (detectFace_too_far s face2 Hsize F2).
    reflexivity.
  - assert (F1 := F2). rewrite <- E in F1.
    destruct (faceRatio face2 w h >? Num.lit 0.35)%num eqn:C2.
    + assert (C1 := C2). rewrite <- E in C1.
      rewrite (detectFace_too_close s face1 Hsize F1 C1),
              (detectFace_too_close s face2 Hsize F2 C2).
      reflexivity.
    + assert (C1 := C2). rewrite <- E in C1.
      rewrite (detectFace_good s face1 Hsize F1 C1), (detectFace_good s face2 Hsize F2 C2).
      rewrite E. reflexivity.
Qed.

(** The guidance looks at the size of the face box only, never at where
    the box sits: two ticks on the same page that see one face each, with
    boxes of the same size at different places (and whatever scores),
    leave the same page: the same distance class, colour and instruction,
    the same eligibility for capture, and the same overlay size. *)
Theorem guidance_ignores_face_position :
  forall (s : Page) (w h : N) (x1 y1 x2 y2 bw bh : Q) (p1 c1 p2 c2 : option num),
    frameSize s = Some (w, h) ->
    let s1 := exec (detectFace (Faces [boxAt x1 y1 bw bh p1 c1])) s in
    let s2 := exec (detectFace (Faces [boxAt x2 y2 bw bh p2 c2])) s in
    s1 = s2 /\
    faceDistance s1 = faceDistance s2 /\
    borderColor s1 = borderColor s2 /\
    instruction s1 = instruction s2 /\
    canCapture s1 = canCapture s2 /\
    ovalSize s1 = ovalSize s2.
Proof.
  intros s w h x1 y1 x2 y2 bw bh p1 c1 p2 c2 Hsize. cbv zeta.
  rewrite (detectFace_by_ratio s w h _ _ Hsize
             (faceRatio_boxAt x1 y1 x2 y2 bw bh p1 c1 p2 c2 w h)).
  repeat split; reflexivity.
Qed.

(** The distance class follows the face ratio: of two ticks that see one
    face each, the one with the larger ratio is never classed as
    farther. *)
Theorem guidance_distance_is_monotone :
  forall (s1 s2 : Page) (w1 h1 w2 h2 : N) (face1 face2 : Prediction.t) (r1 r2 : Q),
    frameSize s1 = Some (w1, h1) ->
    frameSize s2 = Some (w2, h2) ->
    faceRatio face1 w1 h1 = Fin r1 ->
    faceRatio face2 w2 h2 = Fin r2 ->
    r1 <= r2 ->
    (distanceRank (faceDistance (exec (detectFace (Faces [face1])) s1)) <=
     distanceRank (faceDistance (exec (detectFace (Faces [face2])) s2)))%nat.
Proof.
  intros s1 s2 w1 h1 w2 h2 face1 face2 r1 r2 Hs1 Hs2 H1 H2 Hle.
  destruct (faceRatio face1 w1 h1 <? Num.lit 0.15)%num eqn:F1.
  - rewrite (detectFace_too_far s1 face1 Hs1 F1). cbn. lia.
  - destruct (faceRatio face2 w2 h2 <? Num.lit 0.15)%num eqn:F2.
    + exfalso. rewrite H1, lit_0_15 in F1. rewrite H2, lit_0_15 in F2.
      apply Qltb_false in F1. apply Qltb_true in F2. lra.
    + destruct (faceRatio face2 w2 h2 >? Num.lit 0.35)%num eqn:C2.
      * rewrite (detectFace_too_close s2 face2 Hs2 F2 C2).
        destruct (faceRatio face1 w1 h1 >? Num.lit 0.35)%num eqn:C1.
        -- rewrite (detectFace_too_close s1 face1 Hs1 F1 C1). cbn. lia.
        -- rewrite (detectFace_good s1 face1 Hs1 F1 C1). cbn. lia.
      * rewrite (detectFace_good s2 face2 Hs2 F2 C2).
        destruct (faceRatio face1 w1 h1 >? Num.lit 0.35)%num eqn:C1.
        -- exfalso. unfold Num.gtb in C1, C2.
           rewrite H1, lit_0_35 in C1. rewrite H2, lit_0_35 in C2.
           apply Qltb_true in C1. apply Qltb_false in C2. lra.
        -- rewrite (detectFace_good s1 face1 Hs1 F1 C1). cbn. lia.
Qed.

(** ** Properties of the provider and product pages *)

Lemma geb_trans (a b : num) (c : Q) :
  geb b a = true -> geb a (Fin c) = true -> geb b (Fin c) = true.
Proof.
  destruct a as [x| | |], b as [y| | |]; cbn; try discriminate; try reflexivity.
  intros H1 H2. apply Qle_bool_iff in H1, H2. apply Qle_bool_iff. lra.
Qed.

(** The health label follows the score: a score that is at least as large
    never gets a worse label; a score that is not a number is labelled
    poor; and a finite score is labelled poor exactly below 60 and
    excellent exactly from 95 on. *)
Theorem getHealthStatus_is_monotone :
  forall a b : num,
    geb b a = true ->
    (healthRank (getHealthStatus a) <= healthRank (getHealthStatus b))%nat /\
    getHealthStatus NaN = Poor /\
    (forall x : Q, getHealthStatus (Fin x) = Poor <-> x < 60) /\
    (forall x : Q, getHealthStatus (Fin x) = Excellent <-> 95 <= x).
Proof.
  intros a b Hab. split; [|split; [reflexivity|split]].
  - unfold getHealthStatus.
    destruct (geb a (Fin 95)) eqn:A95.
    { rewrite (geb_trans a b 95 Hab A95). reflexivity. }
    destruct (geb a (Fin 80)) eqn:A80.
    { rewrite (geb_trans a b 80 Hab A80). destruct (geb b (Fin 95)); cbn; lia. }
    destruct (geb a (Fin 60)) eqn:A60.
    { rewrite (geb_trans a b 60 Hab A60).
      destruct (geb b (Fin 95)); [cbn; lia|]. destruct (geb b (Fin 80)); cbn; lia. }
    cbn. lia.
  - intros x. unfold getHealthStatus. cbn [geb].
    destruct (Qle_bool 95 x) eqn:E95; [apply Qle_bool_iff in E95|].
    { split; [discriminate | intros; lra]. }
    destruct (Qle_bool 80 x) eqn:E80; [apply Qle_bool_iff in E80|].
    { split; [discriminate | intros; lra]. }
    destruct (Qle_bool 60 x) eqn:E60; [apply Qle_bool_iff in E60|].
    { split; [discriminate | intros; lra]. }
    split; [intros _ | reflexivity].
    destruct (Qlt_le_dec x 60) as [Hlt|Hge]; [exact Hlt|].
    apply Qle_bool_iff in Hge. congruence.
  - intros x. unfold getHealthStatus. cbn [geb].
    destruct (Qle_bool 95 x) eqn:E95.
    { apply Qle_bool_iff in E95. split; [intros _; exact E95 | reflexivity]. }
    split.
    + destruct (Qle_bool 80 x); [discriminate|].
      destruct (Qle_bool 60 x); discriminate.
    + intros H. apply Qle_bool_iff in H. congruence.
Qed.

Lemma pagerStep_positive (pg : Pagination) (a : PagerAction) :
  (1 <= page pg)%Z ->
  (1 <= page (pagerStep pg a))%Z /\ limit (pagerStep pg a) = limit pg.
Proof.
  intros H. destruct a; unfold pagerStep, clickPrevious, clickNext, afterFilterChange,
    afterReply, pagerShown, previousDisabled, nextDisabled.
  - destruct (1 <? totalPages pg)%Z; [|split; [exact H | reflexivity]].
    destruct (Z.leb_spec (page pg) 1); cbn [page limit withPage];
      (split; [lia | reflexivity]).
  - destruct (1 <? totalPages pg)%Z; [|split; [exact H | reflexivity]].
    destruct (Z.leb_spec (totalPages pg) (page pg)); cbn [page limit withPage];
      (split; [lia | reflexivity]).
  - cbn [page limit withPage]. split; [lia | reflexivity].
  - cbn [page limit]. split; [exact H | reflexivity].
Qed.

Lemma pagerStep_keeps (pg : Pagination) (a : PagerAction) :
  isReply a = false ->
  (page pg <= Z.max 1 (totalPages pg))%Z ->
  (page (pagerStep pg a) <= Z.max 1 (totalPages (pagerStep pg a)))%Z /\
  totalPages (pagerStep pg a) = totalPages pg /\
  totalItems (pagerStep pg a) = totalItems pg.
Proof.
  intros Ha H. destruct a; [| | |discriminate Ha];
    unfold pagerStep, clickPrevious, clickNext, afterFilterChange,
      pagerShown, previousDisabled, nextDisabled.
  - destruct (1 <? totalPages pg)%Z; [|split; [lia | split; reflexivity]].
    destruct (Z.leb_spec (page pg) 1); cbn [page totalPages totalItems withPage];
      (split; [lia | split; reflexivity]).
  - destruct (1 <? totalPages pg)%Z; [|split; [lia | split; reflexivity]].
    destruct (Z.leb_spec (totalPages pg) (page pg));
      cbn [page totalPages totalItems withPage];
      (split; [lia | split; reflexivity]).
  - cbn [page totalPages totalItems withPage].
    split; [lia | split; reflexivity].
Qed.

(** Whatever is clicked on the pager, whenever the filters change and
    whatever the server replies to the fetches, the page number never
    drops below 1 and the page size never changes. As long as no reply
    arrives, the page number also stays at most the number of pages (1
    when the list is empty) and the totals stay as they are; a reply
    replaces the totals and leaves the page number alone, so that it can
    leave the page number above the number of pages it reports. *)
Theorem pager_keeps_page_positive :
  forall (actions : list PagerAction) (pg : Pagination),
    (1 <= page pg)%Z ->
    let pg' := fold_left pagerStep actions pg in
    (1 <= page pg')%Z /\
    limit pg' = limit pg /\
    (existsb isReply actions = false ->
     (page pg <= Z.max 1 (totalPages pg))%Z ->
     (page pg' <= Z.max 1 (totalPages pg'))%Z /\
     totalPages pg' = totalPages pg /\
     totalItems pg' = totalItems pg) /\
    (forall items pages : Z,
       fold_left pagerStep (actions ++ [Reply items pages]) pg =
       afterReply items pages pg').
Proof.
  induction actions as [|a rest IH]; intros pg H; cbv zeta.
  - split; [exact H|]. split; [reflexivity|]. split; [|reflexivity].
    intros _ Hp. split; [exact Hp | split; reflexivity].
  - cbn [fold_left app].
    destruct (pagerStep_positive pg a H) as [Hpos Hlim].
    destruct (IH (pagerStep pg a) Hpos) as [Hpos' [Hlim' [Hkeep Hreply]]].
    split; [exact Hpos'|]. split; [rewrite Hlim'; exact Hlim|].
    split; [|exact Hreply].
    intros Hno Hp. cbn [existsb] in Hno. apply orb_false_iff in Hno.
    destruct Hno as [Ha Hrest].
    destruct (pagerStep_keeps pg a Ha Hp) as [Hr [Ht Hi]].
    destruct (Hkeep Hrest Hr) as [Hr' [Ht' Hi']].
    split; [exact Hr'|]. split; [rewrite Ht'; exact Ht | rewrite Hi'; exact Hi].
Qed.

(** A reply can strand the page number: on page 1 of 3 the filters
    change and the next button is clicked twice before the reply to the
    change arrives; the reply reports one page, and the page number is
    3. *)
Lemma reply_strands_the_page :
  let pg := fold_left pagerStep [FilterChange; Next; Next; Reply 12 1] samplePager in
  page pg = 3%Z /\ totalPages pg = 1%Z /\ pagerShown pg = false.
Proof. cbv zeta. vm_compute. repeat split; reflexivity. Qed.

(** When the server reports a page count that fits its item count, the
    range that the pager announces is a real one: it starts at an item
    that exists, holds at most [limit] items, holds exactly [limit] on
    every page but the last, and the range of the next page starts right
    after it. *)
Theorem pager_ranges_tile :
  forall pg : Pagination,
    (0 < limit pg)%Z ->
    (1 <= page pg <= totalPages pg)%Z ->
    ((totalPages pg - 1) * limit pg < totalItems pg <= totalPages pg * limit pg)%Z ->
    (1 <= showingFirst pg <= showingLast pg)%Z /\
    (showingLast pg <= totalItems pg)%Z /\
    (showingLast pg - showingFirst pg + 1 <= limit pg)%Z /\
    ((page pg < totalPages pg)%Z ->
       (showingLast pg - showingFirst pg + 1 = limit pg)%Z /\
       pagerShown pg = true /\
       page (clickNext pg) = (page pg + 1)%Z /\
       showingFirst (clickNext pg) = (showingLast pg + 1)%Z) /\
    (page pg = totalPages pg -> showingLast pg = totalItems pg).
Proof.
  intros pg Hl Hp Ht. unfold showingFirst, showingLast.
  assert (Hfirst : ((page pg - 1) * limit pg + 1 <= totalItems pg)%Z) by nia.
  repeat apply conj.
  - nia.
  - apply Z.min_glb; [nia | exact Hfirst].
  - apply Z.le_min_r.
  - assert (Z.min (page pg * limit pg) (totalItems pg) <= page pg * limit pg)%Z
      by apply Z.le_min_l.
    nia.
  - intros Hlt.
    assert (Hfull : (page pg * limit pg <= totalItems pg)%Z) by nia.
    rewrite (Z.min_l _ _ Hfull).
    unfold pagerShown, clickNext, nextDisabled.
    destruct (Z.leb_spec (totalPages pg) (page pg)); [lia|]. cbn.
    repeat split; try lia; try (apply Z.ltb_lt; lia).
  - intros He. apply Z.min_r. rewrite He. lia.
Qed.

(** ** The capture button *)

Section CaptureButton.

Variable toDataURL : Z -> string.
Variable inherited : string -> option Inherited.

(** The capture button and the handler behind it agree: when the button
    is enabled its label invites to capture and a press, on a page that
    holds a session, is not refused: it runs the countdown and then the
    capture of the chosen method, and clears the capture flag at the end.
    And a label that invites to capture, outside a countdown, means the
    button is enabled. *)
Theorem capture_button_agrees_with_guard :
  forall (s : Page) (session0 : LivenessSession.t) (net : FetchOutcome),
    session s = Some session0 ->
    (captureDisabled s = false ->
       captureLabel s = "Mulai Capture" /\
       canCapture s = true /\
       exec (startVerification toDataURL inherited net) s =
         with_isCapturing false
           (exec (match method s with
                  | passive => runPassiveVerification toDataURL net
                  | active => runActiveVerification toDataURL inherited net
                  end) (afterCountdown s))) /\
    (captureLabel s = "Mulai Capture" -> countdown s = None ->
       captureDisabled s = false).
Proof.
  intros s session0 net Hs. split.
  - intros Hd. destruct (captureDisabled_allows s Hd) as [Hb [Hcam [Hcd Hic]]].
    split.
    { unfold captureLabel. unfold captureBlocked in Hb. rewrite Hcam, Hic.
      destruct (faceDetected s); [|discriminate Hb].
      destruct (isGood (faceDistance s)); [|discriminate Hb].
      destruct (faceCount s =? 1)%nat; [reflexivity | discriminate Hb]. }
    split; [unfold canCapture; rewrite Hb; reflexivity|].
    unfold exec at 1.
    rewrite (startVerification_runs toDataURL inherited net s session0 Hs Hb). reflexivity.
  - unfold captureLabel, captureDisabled. intros Hl Hcd. rewrite Hcd.
    destruct (cameraReady s); [|discriminate Hl].
    destruct (faceDetected s); [|discriminate Hl].
    destruct (isGood (faceDistance s)); [|discriminate Hl].
    destruct (faceCount s =? 1)%nat; [|discriminate Hl].
    destruct (isCapturing s); [discriminate Hl | reflexivity].
Qed.

End CaptureButton.

(** ** The further properties on sample runs *)

Lemma createSession_rejects_short_nik_witness :
  nik shortPage = "12345" /\
  fst (createSession (SessionJson sampleGrant) sampleScreen CameraRefused shortPage) = [] /\
  exec (createSession (SessionJson sampleGrant) sampleScreen CameraRefused) shortPage =
    with_error (Some "NIK harus 16 digit") shortPage.
Proof.
  split; [vm_compute; reflexivity|].
  assert (H : String.length (nik shortPage) <> 16%nat) by (vm_compute; discriminate).
  exact (createSession_rejects_short_nik (SessionJson sampleGrant) sampleScreen
           CameraRefused shortPage H).
Defined.

Lemma createSession_failure_stays_witness :
  let s' :=
    exec (createSession (SessionJson sampleRefusal) sampleScreen CameraRefused) typedPage in
  fst (createSession (SessionJson sampleRefusal) sampleScreen CameraRefused typedPage) =
    [sessionRequestOf typedPage] /\
  error s' = Some "NIK tidak terdaftar" /\
  loading s' = false /\
  step s' = step typedPage /\
  session s' = session typedPage.
Proof.
  cbv zeta.
  assert (Hn : String.length (nik typedPage) = 16%nat) by (vm_compute; reflexivity).
  destruct (createSession_failure_stays (SessionJson sampleRefusal) sampleScreen
              CameraRefused typedPage Hn eq_refl)
    as [R [_ [_ [M [L [S [St _]]]]]]].
  split; [exact R|].
  split; [apply (M sampleRefusal "NIK tidak terdaftar" eq_refl eq_refl); discriminate|].
  split; [exact L|]. split; [exact St | exact S].
Defined.

Lemma createSession_opens_camera_witness :
  let s' :=
    exec (createSession (SessionJson sampleGrant) sampleScreen (CameraGranted [5%nat] true))
         typedPage in
  step typedPage = step_input /\
  videoRef typedPage = None /\
  session s' = Some (sampleSession passive None) /\
  step s' = step_camera /\
  videoRef s' = Some {| videoWidth := 1280; videoHeight := 720 |} /\
  streamRef s' = Some [5%nat] /\
  In 5%nat (liveTracks s') /\
  cameraReady s' = true /\
  loading s' = false.
Proof.
  cbv zeta.
  assert (Hn : String.length (nik typedPage) = 16%nat) by (vm_compute; reflexivity).
  destruct (createSession_opens_camera sampleGrant sampleScreen [5%nat] typedPage Hn eq_refl)
    as [_ [_ [S [St [_ [V [_ [_ [Sr [Lv [C [_ [_ [_ [_ [L _]]]]]]]]]]]]]]]].
  split; [reflexivity|]. split; [reflexivity|].
  split; [exact S|]. split; [exact St|]. split; [exact V|]. split; [exact Sr|].
  split; [apply Lv; left; reflexivity|]. split; [exact C | exact L].
Defined.

Lemma createSession_camera_fails_witness :
  let s' :=
    exec (createSession (SessionJson sampleGrant) sampleScreen (CameraGranted [5%nat] false))
         typedPage in
  videoRef typedPage = None /\
  step s' = step_camera /\
  session s' = Some (sampleSession passive None) /\
  videoRef s' = Some {| videoWidth := 1280; videoHeight := 720 |} /\
  error s' = Some cameraError /\
  streamRef s' = Some [5%nat] /\
  captureDisabled s' = true /\
  detectionActive s' = false.
Proof.
  cbv zeta.
  assert (Hn : String.length (nik typedPage) = 16%nat) by (vm_compute; reflexivity).
  assert (Hc : cameraComesUp (CameraGranted [5%nat] false) = false) by reflexivity.
  assert (Hr : cameraReady typedPage = false) by (vm_compute; reflexivity).
  destruct (createSession_camera_fails sampleGrant sampleScreen (CameraGranted [5%nat] false)
              typedPage Hn eq_refl Hc)
    as [St [S [V [E [_ [_ [B [_ G]]]]]]]].
  split; [reflexivity|].
  split; [exact St|]. split; [exact S|]. split; [exact V|]. split; [exact E|].
  split; [exact (proj1 (G [5%nat] false eq_refl))|]. exact (B Hr).
Defined.

Lemma createSession_then_reset_releases_witness :
  let s1 :=
    exec (createSession (SessionJson sampleGrant) sampleScreen
            (CameraGranted [5%nat; 6%nat] false))
         typedPage in
  let s2 := exec handleReset s1 in
  In 6%nat (liveTracks s1) /\ ~ In 6%nat (liveTracks s2) /\ streamRef s2 = None.
Proof.
  cbv zeta.
  assert (Hn : String.length (nik typedPage) = 16%nat) by (vm_compute; reflexivity).
  destruct (createSession_then_reset_releases sampleGrant sampleScreen [5%nat; 6%nat] false
              typedPage Hn eq_refl)
    as [L1 [L2 [S _]]].
  split; [apply L1; right; left; reflexivity|].
  split; [apply L2; right; left; reflexivity | exact S].
Defined.

Lemma submitVerification_releases_camera_witness :
  let s := with_framesRef [still sampleImage 1000 None] (cameraPage passive None) in
  let s' := exec (submitVerification (Rejected None)) s in
  streamRef s = Some [1%nat] /\
  streamRef s' = None /\
  ~ In 1%nat (liveTracks s') /\
  cameraReady s' = false /\
  detectionActive s' = false.
Proof.
  cbv zeta. split; [reflexivity|].
  assert (Hne : framesRef (with_framesRef [still sampleImage 1000 None]
                             (cameraPage passive None)) <> [])
    by discriminate.
  destruct (submitVerification_releases_camera
              (with_framesRef [still sampleImage 1000 None] (cameraPage passive None))
              (sampleSession passive None) (Rejected None) eq_refl Hne)
    as [S [L [_ [_ [C [_ [_ [_ D]]]]]]]].
  split; [exact S|].
  split; [apply (L [1%nat] 1%nat eq_refl); left; reflexivity|].
  split; [exact C | exact D].
Defined.

Lemma resultPanel_after_submission_witness :
  let s := with_framesRef [still sampleImage 1000 None] (cameraPage passive None) in
  resultPanel (exec (submitVerification (Rejected (Some "Failed to fetch"))) s) =
    ErrorPanel "Failed to fetch".
Proof.
  cbv zeta.
  assert (Hne : framesRef (with_framesRef [still sampleImage 1000 None]
                             (cameraPage passive None)) <> [])
    by discriminate.
  exact (proj1 (resultPanel_after_submission
                  (with_framesRef [still sampleImage 1000 None] (cameraPage passive None))
                  (sampleSession passive None) (Rejected (Some "Failed to fetch"))
                  eq_refl Hne eq_refl)).
Defined.

Lemma startVerification_passive_run_witness :
  let s := guidedPage passive None in
  let s' := exec (startVerification sampleImage sampleInherited (Rejected None)) s in
  captureDisabled s = false /\
  step s' = step_result /\
  isCapturing s' = false /\
  framesRef s' = passiveShots sampleImage (now s + 3000) 5 /\
  now s' = (now s + 5000)%Z /\
  streamRef s' = None.
Proof.
  cbv zeta.
  assert (Hs : session (guidedPage passive None) = Some (sampleSession passive None))
    by (vm_compute; reflexivity).
  assert (Hm : method (guidedPage passive None) = passive) by (vm_compute; reflexivity).
  assert (Hd : captureDisabled (guidedPage passive None) = false)
    by (vm_compute; reflexivity).
  assert (Hr : captureReady (guidedPage passive None) = true) by (vm_compute; reflexivity).
  split; [exact Hd|].
  destruct (startVerification_passive_run sampleImage sampleInherited
              (guidedPage passive None)
              (sampleSession passive None) (Rejected None) Hs Hm Hd Hr)
    as [St [C [_ [F [_ [N [Sr _]]]]]]].
  split; [exact St|]. split; [exact C|]. split; [exact F|]. split; [exact N | exact Sr].
Defined.

Lemma startVerification_active_run_witness :
  let s := guidedPage active (Some ["blink"; "smile"]) in
  let s' := exec (startVerification sampleImage sampleInherited (Rejected None)) s in
  step s' = step_result /\
  currentChallenge s' = None /\
  framesRef s' = activeShots sampleImage (now s + 3000) ["blink"; "smile"] /\
  now s' = (now s + 3000 + 2500 * 2)%Z.
Proof.
  cbv zeta.
  assert (Hs : session (guidedPage active (Some ["blink"; "smile"])) =
               Some (sampleSession active (Some ["blink"; "smile"])))
    by (vm_compute; reflexivity).
  assert (Hm : method (guidedPage active (Some ["blink"; "smile"])) = active)
    by (vm_compute; reflexivity).
  assert (Hd : captureDisabled (guidedPage active (Some ["blink"; "smile"])) = false)
    by (vm_compute; reflexivity).
  assert (Hr : captureReady (guidedPage active (Some ["blink"; "smile"])) = true)
    by (vm_compute; reflexivity).
  assert (Hne : ["blink"; "smile"] <> @nil string) by discriminate.
  destruct (startVerification_active_run sampleImage sampleInherited
              (guidedPage active (Some ["blink"; "smile"]))
              (sampleSession active (Some ["blink"; "smile"]))
              ["blink"; "smile"] (Rejected None) Hs eq_refl Hne Hm Hd Hr eq_refl)
    as [St [_ [_ [Cur [F [_ [_ [N _]]]]]]]].
  split; [exact St|]. split; [exact Cur|]. split; [exact F | exact N].
Defined.

Lemma startVerification_active_without_challenges_witness :
  let s := guidedPage active None in
  let s' := exec (startVerification sampleImage sampleInherited (Rejected None)) s in
  requests s' = requests s /\
  step s' = step s /\
  isCapturing s' = false /\
  framesRef s' = framesRef s.
Proof.
  cbv zeta.
  assert (Hs : session (guidedPage active None) = Some (sampleSession active None))
    by (vm_compute; reflexivity).
  assert (Hm : method (guidedPage active None) = active) by (vm_compute; reflexivity).
  assert (Hd : captureDisabled (guidedPage active None) = false)
    by (vm_compute; reflexivity).
  destruct (startVerification_active_without_challenges sampleImage sampleInherited
              (guidedPage active None) (sampleSession active None) (Rejected None)
              Hs (or_introl eq_refl) Hm Hd)
    as [R [St [_ [_ [_ [C [_ [_ [F _]]]]]]]]].
  split; [exact R|]. split; [exact St|]. split; [exact C|]. exact (proj1 (F eq_refl)).
Defined.

Lemma runPassiveVerification_without_captures_witness :
  let s := with_canvasRef None (cameraPage passive None) in
  let s' := exec (runPassiveVerification sampleImage (Rejected None)) s in
  framesRef s' = [] /\ error s' = Some noFrames /\ step s' = step s /\
  now s' = (now s + 2000)%Z.
Proof.
  cbv zeta.
  assert (H : captureReady (with_canvasRef None (cameraPage passive None)) = false)
    by reflexivity.
  destruct (runPassiveVerification_without_captures sampleImage
              (with_canvasRef None (cameraPage passive None)) (Rejected None) H)
    as [F [E [_ [St [_ [_ N]]]]]].
  split; [exact F|]. split; [exact E|]. split; [exact St | exact N].
Defined.

Lemma capture_button_agrees_with_guard_witness :
  captureLabel (guidedPage passive None) = "Mulai Capture" /\
  canCapture (guidedPage passive None) = true.
Proof.
  assert (Hs : session (guidedPage passive None) = Some (sampleSession passive None))
    by (vm_compute; reflexivity).
  assert (Hd : captureDisabled (guidedPage passive None) = false)
    by (vm_compute; reflexivity).
  destruct (proj1 (capture_button_agrees_with_guard sampleImage sampleInherited
                     (guidedPage passive None)
                     (sampleSession passive None) (Rejected None) Hs) Hd)
    as [L [C _]].
  split; [exact L | exact C].
Defined.

Lemma guidance_keeps_overlay_in_range_witness :
  ovalInRange
    (tickAll [Faces [faceBoxOf 480 480]; Faces []; Faces [faceBoxOf 720 600]; Throws;
              Faces [faceBoxOf 480 480; faceBoxOf 100 100]; Faces [faceBoxOf 240 384]]
             (cameraPage passive None)).
Proof.
  apply guidance_keeps_overlay_in_range.
  - exists 60. split; [reflexivity | lra].
  - intros w h H. vm_compute in H. injection H as <- <-. vm_compute. reflexivity.
Defined.

Lemma guidance_ignores_face_position_witness :
  let s := cameraPage passive None in
  let s1 := exec (detectFace (Faces [boxAt 0 0 480 480 None None])) s in
  let s2 := exec (detectFace (Faces [boxAt 800 240 480 480 (Some (Num.lit 0.9)) None])) s in
  faceDistance s1 = faceDistance s2 /\ canCapture s1 = canCapture s2 /\
  ovalSize s1 = ovalSize s2.
Proof.
  cbv zeta.
  destruct (guidance_ignores_face_position (cameraPage passive None) 1280 720
              0 0 800 240 480 480 None None (Some (Num.lit 0.9)) None eq_refl)
    as [_ [D [_ [_ [C O]]]]].
  split; [exact D|]. split; [exact C | exact O].
Defined.

Lemma guidance_distance_is_monotone_witness :
  (distanceRank (faceDistance (exec (detectFace (Faces [faceBoxOf 240 384]))
                                    (cameraPage passive None))) <=
   distanceRank (faceDistance (exec (detectFace (Faces [faceBoxOf 480 480]))
                                    (cameraPage passive None))))%nat.
Proof.
  assert (H1 : faceRatio (faceBoxOf 240 384) 1280 720 =
               Fin (3602879701896397 # 36028797018963968))
    by (vm_compute; reflexivity).
  assert (H2 : faceRatio (faceBoxOf 480 480) 1280 720 = Fin (1 # 4))
    by (vm_compute; reflexivity).
  assert (Hle : 3602879701896397 # 36028797018963968 <= 1 # 4)
    by (unfold Qle; cbn; lia).
  exact (guidance_distance_is_monotone (cameraPage passive None) (cameraPage passive None)
           1280 720 1280 720 (faceBoxOf 240 384) (faceBoxOf 480 480)
           (3602879701896397 # 36028797018963968) (1 # 4) eq_refl eq_refl H1 H2 Hle).
Defined.

Lemma getHealthStatus_is_monotone_witness :
  (healthRank (getHealthStatus (Fin 70)) <= healthRank (getHealthStatus (Fin 96)))%nat.
Proof.
  exact (proj1 (getHealthStatus_is_monotone (Fin 70) (Fin 96) eq_refl)).
Defined.

Lemma pager_keeps_page_positive_witness :
  let actions := [FilterChange; Next; Next; Reply 12 1; Previous; Reply 45 3; Next] in
  let pg := fold_left pagerStep actions samplePager in
  (1 <= page pg)%Z /\ limit pg = 20%Z.
Proof.
  cbv zeta.
  assert (H : (1 <= page samplePager)%Z) by (vm_compute; discriminate).
  destruct (pager_keeps_page_positive
              [FilterChange; Next; Next; Reply 12 1; Previous; Reply 45 3; Next]
              samplePager H) as [P [L _]].
  split; [exact P | exact L].
Defined.

Lemma pager_ranges_tile_witness :
  (1 <= showingFirst samplePager <= showingLast samplePager)%Z /\
  (showingLast samplePager <= totalItems samplePager)%Z /\
  showingFirst (clickNext samplePager) = (showingLast samplePager + 1)%Z.
Proof.
  assert (Hl : (0 < limit samplePager)%Z) by reflexivity.
  assert (Hp : (1 <= page samplePager <= totalPages samplePager)%Z)
    by (vm_compute; split; discriminate).
  assert (Ht : ((totalPages samplePager - 1) * limit samplePager < totalItems samplePager
                <= totalPages samplePager * limit samplePager)%Z)
    by (vm_compute; split; [reflexivity | discriminate]).
  destruct (pager_ranges_tile samplePager Hl Hp Ht) as [R [L [_ [N _]]]].
  split; [exact R|]. split; [exact L|].
  assert (Hlt : (page samplePager < totalPages samplePager)%Z) by reflexivity.
  exact (proj2 (proj2 (proj2 (N Hlt)))).
Defined.
